(** * scmdb_py_dev: the content-generation module ([content.py])

    A shallow embedding of the data-access, join, colour-scale and
    plot-assembly functions of [content.py], followed by the properties
    proved about them.

    Conventions of the embedding.
    - Python exceptions are values of [exn]; a function that may raise
      returns a [result].
    - The data directory ([current_app.config['DATA_DIR']]) is an explicit
      argument of type [data_dir]: what [os.path.isdir], [glob.glob],
      [pandas.read_csv] and the SQLite tables answer on it.  The memoisation
      decorator does not change what a call returns and is left out.
    - Measurement values (Python floats) are exact rationals; [None] stands
      for NaN.
    - Randomness ([random.sample]) reads an explicit tape of draws. *)

From Stdlib Require Import List ZArith QArith Qround Qabs String Ascii Bool Lia Lqa.
From Stdlib Require Import Permutation Sorted DecimalString DecimalZ.
Import ListNotations.

Local Open Scope string_scope.
Local Open Scope Z_scope.

(** ** Exceptions and results *)

Inductive exn : Set :=
| FailToGraphException   (* class FailToGraphException(Exception) *)
| KeyError
| IndexError
| TypeError
| ValueError
| ZeroDivisionError.

Inductive result (A : Type) : Type :=
| Ok (a : A)
| Raise (e : exn).

Arguments Ok {A} a.
Arguments Raise {A} e.

Definition bind {A B : Type} (m : result A) (k : A -> result B) : result B :=
  match m with
  | Ok a => k a
  | Raise e => Raise e
  end.

Notation "x <- m ;; k" := (bind m (fun x => k))
  (at level 61, m at next level, right associativity).

(** [for x in l: body], where the body may raise. *)
Fixpoint for_each {A S : Type} (body : S -> A -> result S) (l : list A) (s : S)
  : result S :=
  match l with
  | [] => Ok s
  | x :: l' => s' <- body s x ;; for_each body l' s'
  end.

(** [[f(x) for x in l]], where [f] may raise. *)
Fixpoint map_result {A B : Type} (f : A -> result B) (l : list A)
  : result (list B) :=
  match l with
  | [] => Ok []
  | x :: l' => y <- f x ;; ys <- map_result f l' ;; Ok (y :: ys)
  end.

(** ** Python values used by the module *)

(** Truth value of a [str]: the empty string is false. *)
Definition truthy (s : string) : bool :=
  match s with
  | EmptyString => false
  | String _ _ => true
  end.

(** [l[i]] on a list, negative indices counting from the end. *)
Definition py_index {A : Type} (l : list A) (i : Z) : result A :=
  let n := Z.of_nat (List.length l) in
  let j := if i <? 0 then i + n else i in
  if (j <? 0) || (n <=? j) then Raise IndexError
  else match nth_error l (Z.to_nat j) with
       | Some x => Ok x
       | None => Raise IndexError
       end.

(** [int(s)] on a [str]: an optional sign and decimal digits; anything else
    raises [ValueError].  (Surrounding blanks and digit-group underscores,
    which Python also accepts, are not part of the model.) *)
Definition int_of_str (s : string) : result Z :=
  let digits := match s with
                | String "+" t => match t with
                                  | String "-" _ => EmptyString
                                  | String "+" _ => EmptyString
                                  | _ => t
                                  end
                | _ => s
                end in
  match digits with
  | String "-" EmptyString => Raise ValueError
  | _ => match NilZero.int_of_string digits with
         | Some d => Ok (Z.of_int d)
         | None => Raise ValueError
         end
  end.

(** [str(n)] on an [int]. *)
Definition str_of_int (n : Z) : string := NilZero.string_of_int (Z.to_int n).

(** [s.strip(chars)]: drops leading and trailing characters that occur in
    [chars]. *)
Fixpoint mem_ascii (c : ascii) (chars : string) : bool :=
  match chars with
  | EmptyString => false
  | String d t => Ascii.eqb c d || mem_ascii c t
  end.

Fixpoint lstrip (chars s : string) : string :=
  match s with
  | EmptyString => EmptyString
  | String c t => if mem_ascii c chars then lstrip chars t else s
  end.

Fixpoint rstrip (chars s : string) : string :=
  match s with
  | EmptyString => EmptyString
  | String c t =>
      match rstrip chars t with
      | EmptyString => if mem_ascii c chars then EmptyString else String c EmptyString
      | t' => String c t'
      end
  end.

Definition strip (chars s : string) : string := rstrip chars (lstrip chars s).

(** A [dict] with string keys and string values, in insertion order (a row
    of [csv.DictReader], or the argument of [build_hover_text]). *)
Definition dict := list (string * string).

Fixpoint dict_find (k : string) (d : dict) : option string :=
  match d with
  | [] => None
  | (k', v) :: d' => if String.eqb k k' then Some v else dict_find k d'
  end.

(** [d[k]] *)
Definition getitem (d : dict) (k : string) : result string :=
  match dict_find k d with
  | Some v => Ok v
  | None => Raise KeyError
  end.

(** [d.get(k, default)] *)
Definition get (d : dict) (k default : string) : string :=
  match dict_find k d with
  | Some v => v
  | None => default
  end.

(** ** The data directory *)

(** One line of a measurement file, columns
    [names=['gene', 'samp', 'original', 'normalized']]; [m_samp] is the
    text of the sample ID as the line has it. *)
Record mch_row : Type := {
  m_gene : string;
  m_samp : string;
  m_original : option Q;
  m_normalized : option Q
}.

(** The type [pandas.read_csv] gives the [samp] column of a measurement
    file.  It is inferred from the whole column: [int64] or [float64] when
    every sample ID of the file reads as a number (101, 102, ...), [bool]
    when every one reads as a truth value, [object] (text) otherwise.  A
    file without lines gives an empty [object] column. *)
Inductive dtype : Set :=
| dtype_object
| dtype_number
| dtype_bool.

(** The data frame [pandas.read_csv] makes of a measurement file. *)
Record mch_frame : Type := {
  samp_dtype : dtype;
  mch_rows : list mch_row
}.

(** One row of the [gene_names] table. *)
Record gene_info : Set := {
  geneID : string;
  geneName : string
}.

(** One row of the [orthologs] table; [None] is SQL NULL.  The same record
    is the dictionary [find_orthologs] returns. *)
Record ortholog : Set := {
  mmu_gID : option string;
  hsa_gID : option string
}.

(** What the program reads in the directory of one species.
    - [tsne_points_ordered]: the rows of [tsne_points_ordered.csv], [None]
      when opening the file fails;
    - [gene_names]: the rows of the table in [gene_names.sqlite3].  (A
      directory without that database, where the two queries on it raise
      [sqlite3.OperationalError], is outside the model.) *)
Record species_data : Type := {
  tsne_points_ordered : option (list dict);
  gene_names : list gene_info
}.

(** The data directory, as the file system answers the program.
    - [DATA_DIR]: its path, [current_app.config['DATA_DIR']];
    - [species_dirs]: for a string [s], whether
      [os.path.isdir('{DATA_DIR}/{s}')] holds, and what is read in that
      directory if it does.  The string is the one the caller passes: on a
      file system the names of the species directories answer, and so do
      strings such as [''], ['.'] or ['mmu/'] that lead to a directory;
    - [glob]: the paths [glob.glob(pattern)] lists for a pattern, in the
      order it lists them (wildcards in the pattern are the library's to
      interpret);
    - [mch_files]: the frame [pandas.read_csv] reads from a path, [None]
      when it raises [FileNotFoundError] (a file that pandas cannot parse
      is outside the model);
    - [orthologs]: the rows of [orthologs.sqlite3];
    - [mm_hs_homologous_cluster]: the (Mouse Cluster, Human Cluster) rows
      of [mm_hs_homologous_cluster.txt], [None] when that file is absent. *)
Record data_dir : Type := {
  DATA_DIR : string;
  species_dirs : string -> option species_data;
  glob : string -> list string;
  mch_files : string -> option mch_frame;
  orthologs : list ortholog;
  mm_hs_homologous_cluster : option (list (Z * Z))
}.

Definition find_species (species : string)
  (dirs : string -> option species_data) : option species_data :=
  dirs species.

(** [glob.glob('{}/{}/mch/{}*'.format(DATA_DIR, species, gene))] *)
Definition glob_mch (w : data_dir) (species gene : string) : list string :=
  glob w (DATA_DIR w ++ "/" ++ species ++ "/mch/" ++ gene ++ "*").

(** ** Utilities *)

Definition species_exists (w : data_dir) (species : string) : bool :=
  match find_species species (species_dirs w) with
  | Some _ => true
  | None => false
  end.

Definition gene_exists (w : data_dir) (species gene : string) : bool :=
  match glob_mch w species gene with
  | [] => false                         (* except IndexError: return False *)
  | filename :: _ => truthy filename
  end.

Definition build_hover_text (labels : dict) : string :=
  let text :=
    fold_left (fun text kv => text ++ fst kv ++ ": " ++ snd kv ++ "<br>")
              labels EmptyString in
  strip "<br>" text.

(** ** SQL queries *)

(** [cursor.fetchone()] *)
Definition fetchone {A : Type} (rows : list A) : option A :=
  match rows with
  | [] => None
  | r :: _ => Some r
  end.

(** SQLite's [LIKE]: [%] matches any run of characters, [_] any one
    character, and ASCII letters match without regard to case. *)
Definition fold_case (c : ascii) : ascii :=
  let n := nat_of_ascii c in
  if ((97 <=? n) && (n <=? 122))%nat then ascii_of_nat (n - 32) else c.

Fixpoint sql_like (pattern s : string) : bool :=
  match pattern with
  | EmptyString => match s with EmptyString => true | String _ _ => false end
  | String c p' =>
      if Ascii.eqb c "%" then
        (fix any_run (t : string) : bool :=
           sql_like p' t
           || match t with
              | EmptyString => false
              | String _ t' => any_run t'
              end) s
      else
        match s with
        | EmptyString => false
        | String d s' =>
            (Ascii.eqb c "_" || Ascii.eqb (fold_case c) (fold_case d))
            && sql_like p' s'
        end
  end.

Definition option_eqb (o : option string) (v : string) : bool :=
  match o with
  | Some s => String.eqb s v
  | None => false
  end.

Definition null_pair : ortholog := {| mmu_gID := None; hsa_gID := None |}.

Definition find_orthologs (w : data_dir) (mmu_gid hsa_gid : string) : ortholog :=
  if negb (truthy mmu_gid) && negb (truthy hsa_gid) then null_pair
  else
    let query_key := if truthy mmu_gid then "mmu_gID" else "hsa_gID" in
    let query_value := if truthy mmu_gid then mmu_gid else hsa_gid in
    let column := if String.eqb query_key "mmu_gID" then mmu_gID else hsa_gID in
    let query_results :=
      fetchone (filter (fun r => option_eqb (column r) query_value) (orthologs w)) in
    match query_results with
    | None => null_pair
    | Some r => r
    end.

Definition get_cluster_points (w : data_dir) (species : string)
  : option (list dict) :=
  if negb (species_exists w species) then None
  else match find_species species (species_dirs w) with
       | Some d => tsne_points_ordered d
       | None => None
       end.

(** The rows of the [gene_names] table of a species. *)
Definition gene_names_table (w : data_dir) (species : string) : list gene_info :=
  match find_species species (species_dirs w) with
  | Some d => gene_names d
  | None => []
  end.

Definition search_gene_names (w : data_dir) (species query : string)
  : list gene_info :=
  if negb (species_exists w species) then []
  else
    let query_results :=
      filter (fun g => sql_like (query ++ "%") (geneName g))
             (gene_names_table w species) in
    firstn 50 query_results.

(** What [gene_id_to_name] returns: the empty list for an unknown species,
    otherwise the dictionary of the row found. *)
Inductive gene_lookup : Set :=
| EmptyList
| GeneDict (g : gene_info).

Definition gene_id_to_name (w : data_dir) (species query : string)
  : result gene_lookup :=
  if negb (species_exists w species) then Ok EmptyList
  else
    let query_results :=
      fetchone (filter (fun g => sql_like (query ++ "%") (geneID g))
                       (gene_names_table w species)) in
    match query_results with
    | Some g => Ok (GeneDict g)
    | None => Raise TypeError            (* dict(None) *)
    end.

(** [geneName['geneName']] on what [gene_id_to_name] returned. *)
Definition geneName_of (r : gene_lookup) : result string :=
  match r with
  | GeneDict g => Ok (geneName g)
  | EmptyList => Raise TypeError        (* a list indexed by a string *)
  end.

(** ** Joiner *)

(** A row of the merged data frame, and a record of the list
    [get_gene_mch] returns.  [C] is the type of the [cluster_ordered]
    column: a string as read from the CSV file, a number or NaN ([None])
    after [pandas.to_numeric]. *)
Record point (C : Type) : Type := {
  samp : string;
  tsne_x : string;
  tsne_y : string;
  cluster_label : string;
  cluster_name : string;
  cluster_ordered : C;
  cluster_ortholog : string;
  original : option Q;
  normalized : option Q
}.

Arguments samp {C} p.
Arguments tsne_x {C} p.
Arguments tsne_y {C} p.
Arguments cluster_label {C} p.
Arguments cluster_name {C} p.
Arguments cluster_ordered {C} p.
Arguments cluster_ortholog {C} p.
Arguments original {C} p.
Arguments normalized {C} p.

Definition set_values {C : Type} (p : point C) (o n : option Q) : point C :=
  {| samp := samp p; tsne_x := tsne_x p; tsne_y := tsne_y p;
     cluster_label := cluster_label p; cluster_name := cluster_name p;
     cluster_ordered := cluster_ordered p;
     cluster_ortholog := cluster_ortholog p;
     original := o; normalized := n |}.

Definition set_cluster_ordered {C D : Type} (p : point C) (c : D) : point D :=
  {| samp := samp p; tsne_x := tsne_x p; tsne_y := tsne_y p;
     cluster_label := cluster_label p; cluster_name := cluster_name p;
     cluster_ordered := c;
     cluster_ortholog := cluster_ortholog p;
     original := original p; normalized := normalized p |}.

(** One row of [cluster[['samp', 'tsne_x', 'tsne_y', 'cluster_label',
    'cluster_name', 'cluster_ordered', 'cluster_ortholog']]]; the two value
    columns are filled by the merge. *)
Definition select_row (r : dict) : result (point string) :=
  c_samp <- getitem r "samp" ;;
  c_x <- getitem r "tsne_x" ;;
  c_y <- getitem r "tsne_y" ;;
  c_label <- getitem r "cluster_label" ;;
  c_name <- getitem r "cluster_name" ;;
  c_ordered <- getitem r "cluster_ordered" ;;
  c_ortholog <- getitem r "cluster_ortholog" ;;
  Ok {| samp := c_samp; tsne_x := c_x; tsne_y := c_y;
        cluster_label := c_label; cluster_name := c_name;
        cluster_ordered := c_ordered; cluster_ortholog := c_ortholog;
        original := None; normalized := None |}.

(** [pandas.DataFrame(points)[[...]]]: a frame built from [None] or from an
    empty list has no columns, and selecting a column that is not there
    raises [KeyError]. *)
Definition select_columns (points : option (list dict))
  : result (list (point string)) :=
  match points with
  | None => Raise KeyError
  | Some [] => Raise KeyError
  | Some rows => map_result select_row rows
  end.

(** A left join on [samp] of two frames whose sample IDs are text: the
    rows of [left] in their order, each paired with every row of [right]
    that has its [samp], or kept once with null values when there is
    none. *)
Definition merge_left (left : list (point string)) (right : list mch_row)
  : list (point string) :=
  flat_map
    (fun l =>
       match filter (fun m => String.eqb (m_samp m) (samp l)) right with
       | [] => [l]
       | ms => map (fun m => set_values l (m_original m) (m_normalized m)) ms
       end)
    left.

Definition Qltb (x y : Q) : bool := negb (Qle_bool y x).

Fixpoint dropna (values : list (option Q)) : list Q :=
  match values with
  | [] => []
  | Some v :: t => v :: dropna t
  | None :: t => dropna t
  end.

Fixpoint insert_Q (x : Q) (l : list Q) : list Q :=
  match l with
  | [] => [x]
  | h :: t => if Qle_bool x h then x :: l else h :: insert_Q x t
  end.

Fixpoint sort_Q (l : list Q) : list Q :=
  match l with
  | [] => []
  | x :: t => insert_Q x (sort_Q t)
  end.

(** The empirical quantile with linear interpolation that pandas computes:
    NaN is skipped; with [n] values left, sorted, the quantile sits at the
    fractional position [q * (n - 1)] between its two neighbours.  NaN
    ([None]) when no value is left. *)
Definition interpolate (values : list (option Q)) (q : Q) : option Q :=
  let sorted := sort_Q (dropna values) in
  match sorted with
  | [] => None
  | x :: _ =>
      let position := (q * (inject_Z (Z.of_nat (List.length sorted)) - 1))%Q in
      let below := Qfloor position in
      let a := nth (Z.to_nat below) sorted x in
      let b := nth (S (Z.to_nat below)) sorted a in
      Some (a + (b - a) * (position - inject_Z below))%Q
  end.

(** [.quantile(q)]: pandas refuses a [q] outside [0, 1]. *)
Definition quantile (values : list (option Q)) (q : Q) : result (option Q) :=
  if Qle_bool 0 q && Qle_bool q 1 then Ok (interpolate values q)
  else Raise ValueError.

(** [x < y] on floats: false as soon as one side is NaN. *)
Definition nan_lt (x y : option Q) : bool :=
  match x, y with
  | Some a, Some b => Qltb a b
  | _, _ => false
  end.

(** Lines 295-297 of [get_gene_mch]: the rows whose normalized value is
    below the 99th percentile of the column. *)
Definition remove_outliers {C : Type} (dataframe_merged : list (point C))
  : result (list (point C)) :=
  three_std_dev <- quantile (map normalized dataframe_merged) (99 # 100) ;;
  Ok (filter (fun r => nan_lt (normalized r) three_std_dev) dataframe_merged).

(** [pandas.to_numeric(..., errors='coerce')] on the [cluster_ordered]
    column: integer literals become numbers, anything else NaN.  (The
    cluster numbers of the data are integers; fractions and exponents,
    which pandas reads too, are not part of the model.) *)
Definition to_numeric (s : string) : option Z :=
  match int_of_str s with
  | Ok z => Some z
  | Raise _ => None
  end.

(** [sort_values(by='cluster_ordered', ascending=True)]: ascending, NaN
    last.  Rows with equal keys keep their order here; pandas' default
    sort does not promise any order among them. *)
Definition cluster_le (a b : option Z) : bool :=
  match a, b with
  | Some x, Some y => x <=? y
  | Some _, None => true
  | None, Some _ => false
  | None, None => true
  end.

Fixpoint insert_point (p : point (option Z)) (l : list (point (option Z)))
  : list (point (option Z)) :=
  match l with
  | [] => [p]
  | h :: t =>
      if cluster_le (cluster_ordered p) (cluster_ordered h) then p :: l
      else h :: insert_point p t
  end.

Fixpoint sort_values (l : list (point (option Z))) : list (point (option Z)) :=
  match l with
  | [] => []
  | p :: t => insert_point p (sort_values t)
  end.

(** [pandas.read_csv(filename, sep='\t', header=None, names=[...])]; [None]
    stands for [FileNotFoundError].  With [names] given, a file without
    lines reads as a frame without rows. *)
Definition read_csv (w : data_dir) (filename : string) : option mch_frame :=
  mch_files w filename.

(** [pandas.merge(cluster[[...]], mch[[...]], on='samp', how='left')].  The
    sample IDs of the embedding table are text ([csv.DictReader]).  pandas
    refuses to join a text column with a numeric one ([ValueError]: "You are
    trying to merge on object and int64 columns"); it joins a text column
    with a [bool] one, where no text equals a truth value. *)
Definition merge (left : list (point string)) (right : mch_frame)
  : result (list (point string)) :=
  match samp_dtype right with
  | dtype_object => Ok (merge_left left (mch_rows right))
  | dtype_number => Raise ValueError
  | dtype_bool => Ok (merge_left left [])
  end.

Definition get_gene_mch (w : data_dir) (species gene : string) (outliers : bool)
  : result (list (point (option Z))) :=
  if negb (species_exists w species) || negb (gene_exists w species gene)
  then Ok []
  else
    let cluster := get_cluster_points w species in
    match glob_mch w species gene with
    | [] => Ok []                                  (* except IndexError *)
    | filename :: _ =>
        match read_csv w filename with
        | None => Ok []                            (* except FileNotFoundError *)
        | Some mch =>
            left <- select_columns cluster ;;
            dataframe_merged <- merge left mch ;;
            dataframe_merged <-
              (if negb outliers then remove_outliers dataframe_merged
               else Ok dataframe_merged) ;;
            let dataframe_merged :=
              map (fun r => set_cluster_ordered r (to_numeric (cluster_ordered r)))
                  dataframe_merged in
            Ok (sort_values dataframe_merged)
        end
    end.

Fixpoint add_unseen (c : string * Z) (clusters : list (string * Z))
  : list (string * Z) :=
  match clusters with
  | [] => [c]
  | (s, n) :: t =>
      if String.eqb (fst c) s && (snd c =? n) then clusters
      else (s, n) :: add_unseen c t
  end.

Definition get_ortholog_cluster_order (w : data_dir) : list (string * Z) :=
  match mm_hs_homologous_cluster w with
  | None => []                                     (* except FileNotFoundError *)
  | Some df =>
      fold_left
        (fun clusters row =>
           let mmu_cluster := ("mmu", fst row) in
           let hsa_cluster := ("hsa", snd row) in
           add_unseen hsa_cluster (add_unseen mmu_cluster clusters))
        df []
  end.

(** ** Colour and scale *)

(** [numpy.linspace(start, stop, num)]: [num] evenly spaced values, both
    ends included. *)
Definition linspace (start stop : Q) (num : Z) : result (list Q) :=
  if num <? 0 then Raise ValueError
  else
    let step := ((stop - start) / inject_Z (num - 1))%Q in
    Ok (map (fun i => (start + inject_Z (Z.of_nat i) * step)%Q)
            (seq 0 (Z.to_nat num))).

(** [round(h)]: to the nearest integer, a tie going to the even one. *)
Definition py_round (h : Q) : Z :=
  let f := Qfloor h in
  let d := (h - inject_Z f)%Q in
  if Qltb d (1 # 2) then f
  else if Qltb (1 # 2) d then f + 1
  else if Z.even f then f else f + 1.

Fixpoint list_set {A : Type} (j : nat) (y : A) (l : list A) : list A :=
  match l, j with
  | [], _ => []
  | _ :: t, O => y :: t
  | h :: t, S j' => h :: list_set j' y t
  end.

(** The selection loop of [random.sample(population, k)]: at each turn one
    draw [j] below the number of items left picks [pool[j]], and the last
    item left moves into its place.  [tape] holds the draws, each reduced
    to its range. *)
Fixpoint sample_loop {A : Type} (pool : list A) (k : nat) (tape : list nat)
  : list A :=
  match k with
  | O => []
  | S k' =>
      let n := List.length pool in
      let j := (hd 0 tape mod n)%nat in
      match nth_error pool j, nth_error pool (n - 1) with
      | Some picked, Some moved =>
          picked :: sample_loop (firstn (n - 1) (list_set j moved pool)) k' (tl tape)
      | _, _ => []
      end
  end.

Definition sample {A : Type} (tape : list nat) (population : list A) (k : Z)
  : result (list A) :=
  if (k <? 0) || (Z.of_nat (List.length population) <? k) then Raise ValueError
  else Ok (sample_loop population (Z.to_nat k) tape).

(** ['hsl('+str(round(h))+',50%,50%)'].  The hues of [linspace(0, 360,
    num)] are computed here without rounding error; up to [num = 35] the
    floating-point hues round to the same integers, the ties (22.5, 67.5,
    ...) being exact in binary. *)
Definition hsl (h : Q) : string := "hsl(" ++ str_of_int (py_round h) ++ ",50%,50%)".

Definition generate_cluster_colors (tape : list nat) (num : Z)
  : result (list string) :=
  hues <- linspace 0 360 num ;;
  let c := map hsl hues in
  sample tape c num.

(** What [set_color_by_percentile] returns: the string ['grey'] or a
    number. *)
Inductive mch_color : Type :=
| grey
| level_of (v : Q).

Definition set_color_by_percentile (this start end_ : option Q) : mch_color :=
  match this with
  | None => grey                                   (* str(this) == 'nan' *)
  | Some v =>
      if nan_lt this start then
        match start with Some s => level_of s | None => level_of v end
      else if nan_lt end_ this then
        match end_ with Some e => level_of e | None => level_of v end
      else level_of v
  end.

(** [numpy.arange(start, stop, step)] on Python floats: the length is the
    ceiling of [(stop - start) / step].  That division raises for a zero
    step, and a NaN argument leaves the length undefined. *)
Definition arange (start stop step : option Q) : result (list Q) :=
  match start, stop, step with
  | Some a, Some b, Some d =>
      if Qeq_bool d 0 then Raise ZeroDivisionError
      else
        let len := Z.to_nat (Qceiling ((b - a) / d)) in
        Ok (map (fun i => (a + inject_Z (Z.of_nat i) * d)%Q) (seq 0 len))
  | _, _, _ => Raise ValueError
  end.

(** ** Plot assembly *)

Inductive visibility : Set :=
| visible_True
| legendonly.

(** [s.capitalize()] *)
Definition lower_case (c : ascii) : ascii :=
  let n := nat_of_ascii c in
  if ((65 <=? n) && (n <=? 90))%nat then ascii_of_nat (n + 32) else c.

Fixpoint lower (s : string) : string :=
  match s with
  | EmptyString => EmptyString
  | String c t => String (lower_case c) (lower t)
  end.

Definition capitalize (s : string) : string :=
  match s with
  | EmptyString => EmptyString
  | String c t => String (fold_case c) (lower t)
  end.

(** An [OrderedDict] with integer keys. *)
Fixpoint lookup {T : Type} (key : Z) (traces : list (Z * T)) : option T :=
  match traces with
  | [] => None
  | (k, t) :: rest => if k =? key then Some t else lookup key rest
  end.

(** [traces.setdefault(key, default)]: a new key goes to the end. *)
Fixpoint setdefault {T : Type} (key : Z) (default : T) (traces : list (Z * T))
  : list (Z * T) :=
  match traces with
  | [] => [(key, default)]
  | (k, t) :: rest =>
      if k =? key then traces else (k, t) :: setdefault key default rest
  end.

(** Mutation of the value stored under [key]; [KeyError] when absent. *)
Fixpoint update {T : Type} (key : Z) (f : T -> T) (traces : list (Z * T))
  : result (list (Z * T)) :=
  match traces with
  | [] => Raise KeyError
  | (k, t) :: rest =>
      if k =? key then Ok ((k, f t) :: rest)
      else rest' <- update key f rest ;; Ok ((k, t) :: rest')
  end.

Definition symbols : list string :=
  ["circle-open"; "square-open"; "cross"; "triangle-up"; "triangle-down";
   "octagon"; "star"; "diamond"].

Module Scattergl.

Record marker : Set := {
  color : string;
  size : Z;
  symbol : string;
  line_width : Z;
  line_color : string
}.

Record t : Set := {
  x : list string;
  y : list string;
  text : list string;
  name : string;
  legendgroup : string;
  mark : marker;
  visible : visibility
}.

Definition append (tr : t) (px py ptext : string) : t :=
  {| x := x tr ++ [px]; y := y tr ++ [py]; text := text tr ++ [ptext];
     name := name tr; legendgroup := legendgroup tr; mark := mark tr;
     visible := visible tr |}.

(** The four assignments of the [mmu] loop over [range(17,23,1)]. *)
Definition restyle (new_symbol : string) (tr : t) : t :=
  {| x := x tr; y := y tr; text := text tr;
     name := name tr; legendgroup := legendgroup tr;
     mark := {| color := "black"; size := 15; symbol := new_symbol;
                line_width := line_width (mark tr);
                line_color := line_color (mark tr) |};
     visible := legendonly |}.

End Scattergl.

Module Box.

Record marker : Set := {
  color : string;
  outliercolor : string;
  size : Z
}.

Record t : Type := {
  y : list (option Q);
  name : string;
  mark : marker;
  visible : visibility
}.

Definition append (tr : t) (v : option Q) : t :=
  {| y := y tr ++ [v]; name := name tr; mark := mark tr;
     visible := visible tr |}.

(** The three assignments of the [mmu] loop over [range(17,23,1)]. *)
Definition restyle (tr : t) : t :=
  {| y := y tr; name := name tr;
     mark := {| color := "black"; outliercolor := "black";
                size := size (mark tr) |};
     visible := legendonly |}.

End Box.

(** [int(x['cluster_ordered'])] on a row of the CSV file. *)
Definition row_cluster (point : dict) : result Z :=
  c <- getitem point "cluster_ordered" ;; int_of_str c.

(** [int(x['cluster_ordered'])] on a joined record; NaN raises. *)
Definition record_cluster (point : point (option Z)) : result Z :=
  match cluster_ordered point with
  | Some c => Ok c
  | None => Raise ValueError
  end.

(** [int(max(points, key=...)['cluster_ordered']) + 1], the key of every
    point having been computed. *)
Definition max_plus_one (keys : list Z) : Z :=
  match keys with
  | [] => 1
  | k :: rest => fold_left Z.max rest k + 1
  end.

(** [max_cluster] as the two builders set it. *)
Definition cap_max_cluster (species : string) (observed : Z) : Z :=
  if String.eqb species "mmu" then 16 else observed.

Definition get_cluster_plot (w : data_dir) (tape : list nat)
  (species grouping : string) : result (list (Z * Scattergl.t)) :=
  match get_cluster_points w species with
  | None => Raise FailToGraphException
  | Some [] => Raise FailToGraphException
  | Some points =>
      keys <- map_result row_cluster points ;;
      let max_cluster := cap_max_cluster species (max_plus_one keys) in
      colors <- generate_cluster_colors tape max_cluster ;;
      traces <-
        for_each
          (fun traces point =>
             cluster_num <- row_cluster point ;;
             b <- int_of_str (get point "biosample" "1") ;;
             let biosample := b - 1 in
             let cluster_sample_num := cluster_num + max_cluster * biosample in
             p_name <- getitem point "cluster_name" ;;
             p_biosample <- getitem point "biosample" ;;
             p_group <- getitem point grouping ;;
             p_color <- py_index colors (cluster_num - 1) ;;
             p_symbol <- py_index symbols biosample ;;
             let traces :=
               setdefault cluster_sample_num
                 {| Scattergl.x := []; Scattergl.y := []; Scattergl.text := [];
                    Scattergl.name := p_name ++ " Sample" ++ p_biosample;
                    Scattergl.legendgroup := p_group;
                    Scattergl.mark :=
                      {| Scattergl.color := p_color; Scattergl.size := 7;
                         Scattergl.symbol := p_symbol;
                         Scattergl.line_width := 1;
                         Scattergl.line_color := p_color |};
                    Scattergl.visible := visible_True |}
                 traces in
             p_x <- getitem point "tsne_x" ;;
             p_y <- getitem point "tsne_y" ;;
             let p_text :=
               build_hover_text
                 [("Cell", get point "samp" "N/A");
                  ("Layer", get point "layer" "N/A");
                  ("Biosample", get point "biosample" "N/A");
                  ("Cluster", str_of_int cluster_num)] in
             update cluster_sample_num
                    (fun tr => Scattergl.append tr p_x p_y p_text) traces)
          points [] ;;
      if String.eqb species "mmu" then
        for_each
          (fun traces i =>
             s <- py_index symbols (i mod Z.of_nat (List.length symbols)) ;;
             update i (Scattergl.restyle s) traces)
          [17; 18; 19; 20; 21; 22] traces
      else Ok traces
  end.

(** The value column chosen by [level] in the two single-species gene
    plots. *)
Definition mch_value (level : string) (point : point (option Z)) : option Q :=
  if String.eqb level "normalized" then normalized point else original point.

(** Float arithmetic with NaN. *)
Definition nan_map2 (f : Q -> Q -> Q) (a b : option Q) : option Q :=
  match a, b with
  | Some u, Some v => Some (f u v)
  | _, _ => None
  end.

(** A tick label of the colour bar: the tick value, which the code prints
    rounded to three decimals, and what is put before it. *)
Definition tick_label : Type := string * option Q.

(** [l[0] = v] *)
Definition set_first {A : Type} (v : A) (l : list A) : result (list A) :=
  match l with
  | [] => Raise IndexError
  | _ :: t => Ok (v :: t)
  end.

(** The chart [get_mch_scatter] hands to Plot.ly: one trace and the title.
    (The hover text, which prints floats, is left out.) *)
Record scatter_chart : Type := {
  sc_x : list string;
  sc_y : list string;
  sc_color : list mch_color;
  sc_colorbar_title : string;
  sc_tickvals : list (option Q);
  sc_ticktext : list tick_label;
  sc_title : string
}.

Definition get_mch_scatter (w : data_dir) (species gene level : string)
  (ptile_start ptile_end : Q) : result scatter_chart :=
  points <- get_gene_mch w species gene true ;;
  match points with
  | [] => Raise FailToGraphException
  | _ :: _ =>
      let x := map tsne_x points in
      let y := map tsne_y points in
      let mch := map (mch_value level) points in
      (* Sets mCH levels below or above the percentiles to %tile limits. *)
      start <- quantile mch ptile_start ;;
      end_ <- quantile mch ptile_end ;;
      let mch_colors :=
        map (fun v => set_color_by_percentile v start end_) mch in
      let step := nan_map2 Qdiv (nan_map2 Qminus end_ start) (Some 4%Q) in
      ticks <- arange start end_ step ;;
      colorbar_tickval <- set_first start (map Some ticks) ;;
      let colorbar_tickval := (colorbar_tickval ++ [end_])%list in
      ticks' <- arange start end_ step ;;
      colorbar_ticktext <-
        set_first ("<", start) (map (fun v => ("", Some v)) ticks') ;;
      let colorbar_ticktext := (colorbar_ticktext ++ [(">", end_)])%list in
      geneName <- gene_id_to_name w species gene ;;
      geneName <- geneName_of geneName ;;
      Ok {| sc_x := x; sc_y := y; sc_color := mch_colors;
            sc_colorbar_title := capitalize level ++ " mCH";
            sc_tickvals := colorbar_tickval;
            sc_ticktext := colorbar_ticktext;
            sc_title := "Gene body mCH: " ++ geneName |}
  end.

(** The chart of the two box-plot builders: the traces under their keys
    and the title. *)
Record box_chart : Type := {
  bx_traces : list (Z * Box.t);
  bx_title : string;
  bx_yaxis_title : string
}.

(** [a % n] with [n] a length: division by zero when the list is empty. *)
Definition py_mod (a n : Z) : result Z :=
  if n =? 0 then Raise ZeroDivisionError else Ok (a mod n).

Definition get_mch_box (w : data_dir) (tape : list nat)
  (species gene level : string) (outliers : bool) : result box_chart :=
  points <- get_gene_mch w species gene outliers ;;
  match points with
  | [] => Raise FailToGraphException
  | _ :: _ =>
      keys <- map_result record_cluster points ;;
      let max_cluster := cap_max_cluster species (max_plus_one keys) in
      colors <- generate_cluster_colors tape max_cluster ;;
      traces <-
        for_each
          (fun traces point =>
             cluster_num <- record_cluster point ;;
             i <- py_mod (cluster_num - 1) (Z.of_nat (List.length colors)) ;;
             p_color <- py_index colors i ;;
             let traces :=
               setdefault cluster_num
                 {| Box.y := [];
                    Box.name := cluster_name point;
                    Box.mark := {| Box.color := p_color;
                                   Box.outliercolor := p_color;
                                   Box.size := 6 |};
                    Box.visible := visible_True |}
                 traces in
             update cluster_num
                    (fun tr => Box.append tr (mch_value level point)) traces)
          points [] ;;
      traces <-
        (if String.eqb species "mmu" then
           for_each (fun traces i => update i Box.restyle traces)
                    [17; 18; 19; 20; 21; 22] traces
         else Ok traces) ;;
      geneName <- gene_id_to_name w species gene ;;
      geneName <- geneName_of geneName ;;
      Ok {| bx_traces := traces;
            bx_title := "Gene body mCH in each cluster: " ++ geneName;
            bx_yaxis_title := geneName ++ " " ++ capitalize level ++ " mCH" |}
  end.

(** A value of a record of [get_gene_mch]: text, a float (NaN is [None]),
    the number of the [cluster_ordered] column, or Python's [None]. *)
Inductive py_value : Type :=
| py_str (s : string)
| py_float (v : option Q)
| py_cluster (c : option Z)
| py_None.

(** [i.get(level)] on a joined record: the value under the key [level],
    whichever of the nine keys it is, [None] for any other string. *)
Definition get_level (level : string) (i : point (option Z)) : py_value :=
  if String.eqb level "samp" then py_str (samp i)
  else if String.eqb level "tsne_x" then py_str (tsne_x i)
  else if String.eqb level "tsne_y" then py_str (tsne_y i)
  else if String.eqb level "cluster_label" then py_str (cluster_label i)
  else if String.eqb level "cluster_name" then py_str (cluster_name i)
  else if String.eqb level "cluster_ordered" then py_cluster (cluster_ordered i)
  else if String.eqb level "cluster_ortholog" then py_str (cluster_ortholog i)
  else if String.eqb level "original" then py_float (original i)
  else if String.eqb level "normalized" then py_float (normalized i)
  else py_None.

(** One of the two [Box] traces of the two-species plot. *)
Module OrthologBox.

Record t : Type := {
  x : list string;
  y : list py_value;
  color : string;
  outliercolor : string
}.

End OrthologBox.

(** The records that carry an ortholog cluster, in one colour. *)
Definition ortholog_trace (colour level : string) (points : list (point (option Z)))
  : OrthologBox.t :=
  let tagged := filter (fun i => truthy (cluster_ortholog i)) points in
  {| OrthologBox.y := map (get_level level) tagged;
     OrthologBox.x := map cluster_ortholog tagged;
     OrthologBox.color := colour;
     OrthologBox.outliercolor := colour |}.

Definition get_mch_box_two_species (w : data_dir)
  (gene_mmu gene_hsa level : string) (outliers : bool)
  : result (list OrthologBox.t * string) :=
  points_mmu <- get_gene_mch w "mmu" gene_mmu outliers ;;
  points_hsa <- get_gene_mch w "hsa" gene_hsa outliers ;;
  let cluster_order := get_ortholog_cluster_order w in
  match points_mmu, points_hsa, cluster_order with
  | _ :: _, _ :: _, _ :: _ =>
      geneName <- gene_id_to_name w "mmu" gene_mmu ;;
      geneName <- geneName_of geneName ;;
      let traces_mmu := ortholog_trace "red" level points_mmu in
      let traces_hsa := ortholog_trace "black" level points_hsa in
      let traces_combined := [traces_mmu; traces_hsa] in
      Ok (traces_combined, "Gene body mCH in each cluster: " ++ geneName)
  | _, _, _ => Raise FailToGraphException
  end.

(** ** Correlated genes *)

(** One row of the [corr_genes] table. *)
Record corr_row : Type := {
  Gene1 : string;
  Gene2 : string;
  Correlation : Q
}.

(** One entry of the list [get_corr_genes] returns: the dictionary of
    [gene_id_to_name] with the keys ['Rank'] and ['Corr'] added. *)
Record corr_info : Type := {
  ci_gene : gene_info;
  Rank : Z;
  Corr : Q
}.

(** What a call of [get_corr_genes] comes to: the table, the [1] of its
    [except] branch, or the [sqlite3.OperationalError] that
    [sqlite3.connect], which stands before the [try], raises for a database
    in a directory that does not exist. *)
Inductive corr_answer : Type :=
| corr_table (table_data : list corr_info)
| corr_one
| corr_unable_to_open.

(** [ORDER BY Correlation DESC].  Rows with equal correlations keep their
    order here; SQL does not promise any order among them. *)
Fixpoint insert_corr (r : corr_row) (l : list corr_row) : list corr_row :=
  match l with
  | [] => [r]
  | h :: t =>
      if Qle_bool (Correlation h) (Correlation r) then r :: l
      else h :: insert_corr r t
  end.

Fixpoint order_by_correlation_desc (l : list corr_row) : list corr_row :=
  match l with
  | [] => []
  | r :: t => insert_corr r (order_by_correlation_desc t)
  end.

(** [enumerate(l, start)] *)
Fixpoint enumerate {A : Type} (start : Z) (l : list A) : list (Z * A) :=
  match l with
  | [] => []
  | x :: t => (start, x) :: enumerate (start + 1) t
  end.

(** [corr_genes] holds the rows of the table [corr_genes] of the species'
    [top_corr_genes.sqlite3], [None] when the query on it fails. *)
Definition get_corr_genes (w : data_dir) (corr_genes : option (list corr_row))
  (species query : string) : corr_answer :=
  if negb (species_exists w species) then corr_unable_to_open
  else
    match corr_genes with
    | None => corr_one                          (* except: return(1) *)
    | Some table =>
        let query_results :=
          firstn 50
            (order_by_correlation_desc
               (filter (fun r => sql_like (query ++ "%") (Gene1 r)) table)) in
        let table_data :=
          map_result
            (fun item =>
               geneInfo <- gene_id_to_name w species (Gene2 (snd item)) ;;
               match geneInfo with
               | GeneDict g =>
                   Ok {| ci_gene := g; Rank := fst item;
                         Corr := Correlation (snd item) |}
               | EmptyList => Raise TypeError   (* a list indexed by a string *)
               end)
            (enumerate 1 query_results) in
        match table_data with
        | Ok table_data => corr_table table_data
        | Raise _ => corr_one                   (* except: return(1) *)
        end
    end.

(** ** Auxiliary definitions used in the statements *)

(** The merged frame of [get_gene_mch], as it stands after line 292. *)
Definition dataframe_merged (w : data_dir) (species gene : string)
  : result (list (point string)) :=
  if negb (species_exists w species) || negb (gene_exists w species gene)
  then Ok []
  else
    match glob_mch w species gene with
    | [] => Ok []
    | filename :: _ =>
        match read_csv w filename with
        | None => Ok []
        | Some mch =>
            left <- select_columns (get_cluster_points w species) ;;
            merge left mch
        end
    end.

(** Lines 299-304 of [get_gene_mch]. *)
Definition by_cluster_ordered (df : list (point string))
  : list (point (option Z)) :=
  sort_values
    (map (fun r => set_cluster_ordered r (to_numeric (cluster_ordered r))) df).

Definition embedding_columns : list string :=
  ["samp"; "tsne_x"; "tsne_y"; "cluster_label"; "cluster_name";
   "cluster_ordered"; "cluster_ortholog"].

Definition has_columns (r : dict) : Prop :=
  Forall (fun c => dict_find c r <> None) embedding_columns.


(** The test of the outlier pass on the frame [df]. *)
Definition below_percentile {C : Type} (df : list (point C)) (r : point C) : bool :=
  nan_lt (normalized r) (interpolate (map normalized df) (99 # 100)).

(** The rows of the measurement file with the sample ID of [l]. *)
Definition matching (right : list mch_row) (l : point string) : list mch_row :=
  filter (fun m => String.eqb (m_samp m) (samp l)) right.


(** A row after [pandas.to_numeric] on its [cluster_ordered]. *)
Definition numeric (r : point string) : point (option Z) :=
  set_cluster_ordered r (to_numeric (cluster_ordered r)).

(** The test behind [distinct_NoDup]: no string occurs twice. *)
Fixpoint distinct (l : list string) : bool :=
  match l with
  | [] => true
  | x :: t => negb (existsb (String.eqb x) t) && distinct t
  end.

(** The hue of a CSS colour [hsl(h, s, l)] is an angle on the colour
    wheel: [h] degrees and [h + 360] degrees are the same hue. *)
Definition css_hue (h : Z) : Z := h mod 360.

(** The rounded hues at the two ends of [linspace(0, 360, n)] are 0 and
    360. *)
Definition ends_at_0_and_360 (n : nat) : bool :=
  match linspace 0 360 (Z.of_nat n) with
  | Ok hues =>
      match nth_error hues 0, nth_error hues (n - 1) with
      | Some first, Some last => (py_round first =? 0) && (py_round last =? 360)
      | _, _ => false
      end
  | Raise _ => false
  end.

(** The two looks of a trace of the cluster scatter: as the grouping loop
    builds it, with a colour of the palette, and as the [mmu] loop over
    [range(17,23,1)] leaves it. *)
Definition scatter_primary (colors : list string) (t : Scattergl.t) : Prop :=
  Scattergl.visible t = visible_True
  /\ Scattergl.size (Scattergl.mark t) = 7
  /\ In (Scattergl.color (Scattergl.mark t)) colors.

Definition scatter_secondary (t : Scattergl.t) : Prop :=
  Scattergl.visible t = legendonly
  /\ Scattergl.size (Scattergl.mark t) = 15
  /\ Scattergl.color (Scattergl.mark t) = "black".

(** The same for a trace of the box plot. *)
Definition box_primary (colors : list string) (t : Box.t) : Prop :=
  Box.visible t = visible_True
  /\ In (Box.color (Box.mark t)) colors
  /\ Box.outliercolor (Box.mark t) = Box.color (Box.mark t).

Definition box_secondary (t : Box.t) : Prop :=
  Box.visible t = legendonly
  /\ Box.color (Box.mark t) = "black"
  /\ Box.outliercolor (Box.mark t) = "black".

(** [k] is the group index [cluster_sample_num] of one of the points. *)
Definition scatter_group (points : list dict) (max_cluster k : Z) : Prop :=
  exists point c b,
    In point points
    /\ row_cluster point = Ok c
    /\ int_of_str (get point "biosample" "1") = Ok b
    /\ k = c + max_cluster * (b - 1).

(** [k] is the cluster number of one of the records. *)
Definition box_group (points : list (point (option Z))) (k : Z) : Prop :=
  exists point, In point points /\ cluster_ordered point = Some k.

(** The order of the final sort: ascending cluster numbers, NaN last. *)
Definition cluster_before (a b : point (option Z)) : Prop :=
  cluster_le (cluster_ordered a) (cluster_ordered b) = true.

(** [r] is kept by the outlier pass with percentile [q]. *)
Definition below (q : option Q) {C : Type} (r : point C) : bool :=
  nan_lt (normalized r) q.

(** A query without the two wildcards of [LIKE]. *)
Fixpoint no_wildcard (query : string) : bool :=
  match query with
  | EmptyString => true
  | String c t => negb (Ascii.eqb c "%") && negb (Ascii.eqb c "_") && no_wildcard t
  end.

(** [s] starts with [query], ASCII letters compared without regard to
    case. *)
Fixpoint prefix_nocase (query s : string) : bool :=
  match query with
  | EmptyString => true
  | String c q' =>
      match s with
      | EmptyString => false
      | String d s' => Ascii.eqb (fold_case c) (fold_case d) && prefix_nocase q' s'
      end
  end.

(** The test of the [WHERE] clause of [find_orthologs]. *)
Definition queried (mmu_gid hsa_gid : string) (row : ortholog) : bool :=
  if truthy mmu_gid then option_eqb (mmu_gID row) mmu_gid
  else option_eqb (hsa_gID row) hsa_gid.

(** [x] belongs to the group [k], [keyf] giving the group of an item. *)
Definition has_key {A : Type} (keyf : A -> option Z) (k : Z) (x : A) : bool :=
  match keyf x with
  | Some k' => k' =? k
  | None => false
  end.

(** The group index [cluster_sample_num] of a row in [get_cluster_plot]. *)
Definition group_index (max_cluster : Z) (point : dict) : option Z :=
  match row_cluster point, int_of_str (get point "biosample" "1") with
  | Ok c, Ok b => Some (c + max_cluster * (b - 1))
  | _, _ => None
  end.

(** One label of the hover text, and the labels joined by [<br>]. *)
Definition label (kv : string * string) : string := fst kv ++ ": " ++ snd kv.

Definition joined_labels (labels : dict) : string :=
  String.concat "<br>" (map label labels).

Definition first_char (s : string) : option ascii :=
  match s with
  | EmptyString => None
  | String c _ => Some c
  end.

Fixpoint last_char (s : string) : option ascii :=
  match s with
  | EmptyString => None
  | String c EmptyString => Some c
  | String _ t => last_char t
  end.

(** The character at an end of a string, if there is one, is not in
    [chars]. *)
Definition not_among (chars : string) (o : option ascii) : Prop :=
  match o with
  | Some c => mem_ascii c chars = false
  | None => True
  end.

Fixpoint all_among (chars s : string) : bool :=
  match s with
  | EmptyString => true
  | String c t => mem_ascii c chars && all_among chars t
  end.

(** The records of a species that carry an ortholog cluster. *)
Definition tagged (points : list (point (option Z))) : list (point (option Z)) :=
  filter (fun i => truthy (cluster_ortholog i)) points.

(** ** Sample data *)



Definition one_to_hundred : list (option Q) :=
  [Some 1%Q; Some 2%Q; Some 3%Q; Some 4%Q; Some 100%Q].

Definition embedding_row (s c b o : string) : dict :=
  [("samp", s); ("tsne_x", "0.5"); ("tsne_y", "-1.5"); ("cluster_label", "c" ++ c);
   ("cluster_name", "cluster " ++ c); ("cluster_ordered", c);
   ("cluster_ortholog", o); ("biosample", b); ("cluster", "c" ++ c)].

Definition measurement (g s : string) (v : Q) : mch_row :=
  {| m_gene := g; m_samp := s; m_original := Some v; m_normalized := Some v |}.

(** The directories of the examples.  Each species directory holds its
    embedding table and one gene in [gene_names]; the measurement files are
    given by their paths, [data/<species>/mch/<gene>.txt].  The examples
    ask [glob] for patterns [prefix*] whose prefix has no wildcard; on these
    directories such a pattern lists the paths that start with the
    prefix. *)
Definition species_of (points : list dict) (g n : string) : species_data :=
  {| tsne_points_ordered := Some points;
     gene_names := [{| geneID := g; geneName := n |}] |}.

Definition text_frame (rows : list mch_row) : mch_frame :=
  {| samp_dtype := dtype_object; mch_rows := rows |}.

Definition mch_file (species g : string) (frame : mch_frame)
  : string * mch_frame :=
  ("data/" ++ species ++ "/mch/" ++ g ++ ".txt", frame).

Fixpoint before_star (pattern : string) : option string :=
  match pattern with
  | EmptyString => None
  | String c t =>
      match t with
      | EmptyString => if Ascii.eqb c "*" then Some EmptyString else None
      | String _ _ => option_map (String c) (before_star t)
      end
  end.

Definition listed (pattern path : string) : bool :=
  match before_star pattern with
  | Some start => String.prefix start path
  | None => false
  end.

Fixpoint assoc {A : Type} (k : string) (l : list (string * A)) : option A :=
  match l with
  | [] => None
  | (k', v) :: l' => if String.eqb k k' then Some v else assoc k l'
  end.

Definition dir_with_files (l : list (string * species_data))
  (files : list (string * mch_frame)) : data_dir :=
  {| DATA_DIR := "data";
     species_dirs := fun species => assoc species l;
     glob := fun pattern => filter (listed pattern) (map fst files);
     mch_files := fun path => assoc path files;
     orthologs := [{| mmu_gID := Some "ENSMUSG1"; hsa_gID := Some "ENSG1" |};
                   {| mmu_gID := Some "ENSMUSG2"; hsa_gID := Some "ENSG2" |}];
     mm_hs_homologous_cluster := Some [(1, 1); (2, 1)] |}.

(** A directory without measurement files. *)
Definition dir_of (l : list (string * species_data)) : data_dir :=
  dir_with_files l [].

(** Five mouse cells with the values 1, 2, 3, 4 and 100. *)
Definition five_cells : data_dir :=
  dir_with_files
    [("mmu",
      species_of
        [embedding_row "s1" "1" "1" "A"; embedding_row "s2" "1" "1" "A";
         embedding_row "s3" "2" "1" "B"; embedding_row "s4" "2" "1" "";
         embedding_row "s5" "3" "1" ""]
        "ENSMUSG1" "Gene1")]
    [mch_file "mmu" "ENSMUSG1"
       (text_frame
          [measurement "ENSMUSG1" "s1" 1; measurement "ENSMUSG1" "s2" 2;
           measurement "ENSMUSG1" "s3" 3; measurement "ENSMUSG1" "s4" 4;
           measurement "ENSMUSG1" "s5" 100])].

(** The four of them that an outlier pass leaves. *)
Definition four_cells_left : data_dir :=
  dir_with_files
    [("mmu",
      species_of
        [embedding_row "s1" "1" "1" "A"; embedding_row "s2" "1" "1" "A";
         embedding_row "s3" "2" "1" "B"; embedding_row "s4" "2" "1" ""]
        "ENSMUSG1" "Gene1")]
    [mch_file "mmu" "ENSMUSG1"
       (text_frame
          [measurement "ENSMUSG1" "s1" 1; measurement "ENSMUSG1" "s2" 2;
           measurement "ENSMUSG1" "s3" 3; measurement "ENSMUSG1" "s4" 4])].

(** Two mouse cells, neither of them in the measurement file. *)
Definition unmeasured_cells : data_dir :=
  dir_with_files
    [("mmu",
      species_of
        [embedding_row "s1" "1" "1" "A"; embedding_row "s2" "2" "1" "B"]
        "ENSMUSG1" "Gene1")]
    [mch_file "mmu" "ENSMUSG1" (text_frame [measurement "ENSMUSG1" "other" 1])].

(** Three mouse cells, the second of them not in the measurement file. *)
Definition partly_measured : data_dir :=
  dir_with_files
    [("mmu",
      species_of
        [embedding_row "s1" "2" "1" "A"; embedding_row "s2" "1" "1" "B";
         embedding_row "s3" "1" "1" ""]
        "ENSMUSG1" "Gene1")]
    [mch_file "mmu" "ENSMUSG1"
       (text_frame
          [measurement "ENSMUSG1" "s1" (1 # 2); measurement "ENSMUSG1" "s3" (3 # 2)])].

(** One mouse cell that the measurement file lists twice. *)
Definition measured_twice : data_dir :=
  dir_with_files
    [("mmu",
      species_of
        [embedding_row "s1" "1" "1" "A"]
        "ENSMUSG1" "Gene1")]
    [mch_file "mmu" "ENSMUSG1"
       (text_frame [measurement "ENSMUSG1" "s1" 1; measurement "ENSMUSG1" "s1" 2])].

(** Two mouse cells whose sample IDs are the numbers 101 and 102, in the
    embedding table and in the measurement file: [csv.DictReader] keeps
    them as text, [pandas.read_csv] reads the column as [int64]. *)
Definition numbered_cells : data_dir :=
  dir_with_files
    [("mmu",
      species_of
        [embedding_row "101" "1" "1" "A"; embedding_row "102" "2" "1" "B"]
        "ENSMUSG1" "Gene1")]
    [mch_file "mmu" "ENSMUSG1"
       {| samp_dtype := dtype_number;
          mch_rows := [measurement "ENSMUSG1" "101" 1;
                       measurement "ENSMUSG1" "102" 2] |}].

(** One mouse cell and a measurement file without lines. *)
Definition empty_measurement_file : data_dir :=
  dir_with_files
    [("mmu", species_of [embedding_row "s1" "1" "1" "A"] "ENSMUSG1" "Gene1")]
    [mch_file "mmu" "ENSMUSG1" (text_frame [])].

(** Mouse cells in the clusters 1 to 6 of a second biosample, and one
    in cluster 3 of the first; and mouse cells in the clusters 17 to 22 and
    in cluster 3. *)
Definition second_biosample : data_dir :=
  dir_with_files
    [("mmu",
      species_of
        [embedding_row "s1" "1" "2" ""; embedding_row "s2" "2" "2" "";
         embedding_row "s3" "3" "2" ""; embedding_row "s4" "4" "2" "";
         embedding_row "s5" "5" "2" ""; embedding_row "s6" "6" "2" "";
         embedding_row "s7" "3" "1" ""]
        "ENSMUSG1" "Gene1")]
    [mch_file "mmu" "ENSMUSG1" (text_frame [measurement "ENSMUSG1" "s1" 1])].

Definition supplementary_clusters : data_dir :=
  dir_with_files
    [("mmu",
      species_of
        [embedding_row "s1" "17" "1" ""; embedding_row "s2" "18" "1" "";
         embedding_row "s3" "19" "1" ""; embedding_row "s4" "20" "1" "";
         embedding_row "s5" "21" "1" ""; embedding_row "s6" "22" "1" "";
         embedding_row "s7" "3" "1" ""]
        "ENSMUSG1" "Gene1")]
    [mch_file "mmu" "ENSMUSG1"
       (text_frame [measurement "ENSMUSG1" "s1" 1; measurement "ENSMUSG1" "s7" 2])].

(** A species directory without any measurement file, and one whose
    embedding table has no row. *)
Definition no_measurement : data_dir :=
  dir_of
    [("mmu", {| tsne_points_ordered := Some [embedding_row "s1" "1" "1" "A"];
                gene_names := [] |});
     ("hsa", {| tsne_points_ordered := Some [];
                gene_names := [] |})].

(** Three cells of a species other than the mouse, in two clusters. *)
Definition two_clusters : data_dir :=
  dir_with_files
    [("rat",
      species_of
        [embedding_row "s1" "2" "1" ""; embedding_row "s2" "1" "1" "";
         embedding_row "s3" "2" "1" ""]
        "ENSR1" "GeneR")]
    [mch_file "rat" "ENSR1"
       (text_frame [measurement "ENSR1" "s1" 5; measurement "ENSR1" "s3" 7])].

(** Mouse and human cells, some with an ortholog cluster. *)
Definition two_species : data_dir :=
  dir_with_files
    [("mmu",
      species_of
        [embedding_row "m1" "1" "1" "A"; embedding_row "m2" "2" "1" "";
         embedding_row "m3" "2" "1" "B"]
        "ENSMUSG1" "Gene1");
     ("hsa",
      species_of
        [embedding_row "h1" "1" "1" "B"; embedding_row "h2" "1" "1" ""]
        "ENSG1" "GENE1")]
    [mch_file "mmu" "ENSMUSG1"
       (text_frame
          [measurement "ENSMUSG1" "m1" 1; measurement "ENSMUSG1" "m2" 2;
           measurement "ENSMUSG1" "m3" 3]);
     mch_file "hsa" "ENSG1"
       (text_frame [measurement "ENSG1" "h1" 4; measurement "ENSG1" "h2" 5])].

(** A table of correlated genes, the last of them unknown to
    [gene_names]. *)
Definition genes_ab : data_dir :=
  dir_of
    [("mmu", {| tsne_points_ordered := Some [];
                gene_names := [{| geneID := "ENSMUSG1"; geneName := "Gene1" |};
                               {| geneID := "ENSMUSG2"; geneName := "Gene2" |};
                               {| geneID := "ENSMUSG3"; geneName := "Gene3" |}] |})].

Definition corr_of_gene1 : list corr_row :=
  [{| Gene1 := "ENSMUSG1"; Gene2 := "ENSMUSG2"; Correlation := 3 # 10 |};
   {| Gene1 := "ENSMUSG1"; Gene2 := "ENSMUSG3"; Correlation := 9 # 10 |};
   {| Gene1 := "ENSMUSG2"; Gene2 := "ENSMUSG1"; Correlation := 3 # 10 |};
   {| Gene1 := "ENSMUSG3"; Gene2 := "ENSMUSG9"; Correlation := 5 # 10 |}].

(** * Properties *)

Local Open Scope list_scope.

(** ** The result monad *)

Lemma bind_Ok {A B : Type} (m : result A) (k : A -> result B) (b : B) :
  bind m k = Ok b -> exists a, m = Ok a /\ k a = Ok b.
Proof.
  destruct m as [a | e]; simpl; intros H.
  - exists a. split; [reflexivity | exact H].
  - discriminate H.
Qed.

(** Splits a hypothesis [x <- m ;; k = Ok b] into [m = Ok x] and the rest. *)
Ltac unbind H :=
  let a := fresh "v" in
  let E := fresh "E" in
  cbv beta zeta in H; apply bind_Ok in H; destruct H as (a & E & H).

Lemma for_each_inv {A S : Type} (I : S -> Prop) (body : S -> A -> result S) :
  forall (l : list A) (s s' : S),
    for_each body l s = Ok s' ->
    I s ->
    (forall x s1 s2, In x l -> I s1 -> body s1 x = Ok s2 -> I s2) ->
    I s'.
Proof.
  induction l as [| x l IH]; simpl; intros s s' H Hs Hstep.
  - injection H as <-. exact Hs.
  - unbind H. apply (IH v s' H).
    + apply (Hstep x s v); auto.
    + intros y s1 s2 Hy. apply Hstep. right. exact Hy.
Qed.

Lemma map_result_Ok {A B : Type} (f : A -> result B) :
  forall (l : list A) (ys : list B),
    map_result f l = Ok ys -> Forall2 (fun x y => f x = Ok y) l ys.
Proof.
  induction l as [| x l IH]; simpl; intros ys H.
  - injection H as <-. constructor.
  - unbind H. unbind H. injection H as <-. constructor; auto.
Qed.

Lemma map_result_total {A B : Type} (f : A -> result B) :
  forall l : list A,
    Forall (fun x => exists y, f x = Ok y) l ->
    exists ys, map_result f l = Ok ys.
Proof.
  induction 1 as [| x l (y & Hy) _ (ys & Hys)]; simpl.
  - exists []. reflexivity.
  - exists (y :: ys). rewrite Hy, Hys. reflexivity.
Qed.

(** ** Lookup helpers *)

(** C10: when both a mouse and a human gene ID are given, the mouse ID
    wins: the table is searched on [mmu_gID] with the mouse value, the
    human argument plays no part, and the answer is that of the call with
    the mouse ID alone. *)
Theorem find_orthologs_mouse_first (w : data_dir) (mmu_gid hsa_gid : string) :
  truthy mmu_gid = true ->
  find_orthologs w mmu_gid hsa_gid
  = match fetchone (filter (fun r => option_eqb (mmu_gID r) mmu_gid) (orthologs w)) with
    | Some r => r
    | None => null_pair
    end
  /\ find_orthologs w mmu_gid hsa_gid = find_orthologs w mmu_gid "".
Proof.
  intros Hm. unfold find_orthologs. rewrite Hm. simpl.
  split; reflexivity.
Qed.

Lemma find_orthologs_mouse_first_example :
  find_orthologs (dir_of []) "ENSMUSG2" "ENSG1"
  = {| mmu_gID := Some "ENSMUSG2"; hsa_gID := Some "ENSG2" |}
  /\ find_orthologs (dir_of []) "ENSMUSG2" "ENSG1"
     = find_orthologs (dir_of []) "ENSMUSG2" "".
Proof.
  destruct (find_orthologs_mouse_first (dir_of []) "ENSMUSG2" "ENSG1" eq_refl)
    as [Hq Hsame].
  split; [rewrite Hq; reflexivity | exact Hsame].
Defined.

(** Where [gene_id_to_name] answers: an unknown species gives the empty
    list, a matching row gives its dictionary. *)
Lemma gene_id_to_name_unknown_species (w : data_dir) (species query : string) :
  species_exists w species = false ->
  gene_id_to_name w species query = Ok EmptyList.
Proof.
  intros H. unfold gene_id_to_name. rewrite H. reflexivity.
Qed.

(** Where it does not: a species that exists and a query no gene ID
    matches. *)
Lemma gene_id_to_name_no_match (w : data_dir) (species query : string) :
  species_exists w species = true ->
  Forall (fun g => sql_like (query ++ "%") (geneID g) = false)
         (gene_names_table w species) ->
  gene_id_to_name w species query = Raise TypeError.
Proof.
  intros H Hall. unfold gene_id_to_name. rewrite H. simpl.
  replace (filter _ _) with (@nil gene_info); [reflexivity |].
  induction Hall as [| g l Hg _ IH]; simpl; [reflexivity |].
  rewrite Hg. exact IH.
Qed.

(** C7: [gene_id_to_name] on a known species and a gene ID that matches no
    row raises [TypeError] ([dict(None)]) where the claim promises a
    sentinel. *)
Theorem gene_id_to_name_raises_on_no_match :
  species_exists five_cells "mmu" = true
  /\ gene_id_to_name five_cells "mmu" "ENSMUSG999" = Raise TypeError.
Proof.
  split; reflexivity.
Qed.

(** ** Plot builders on empty input *)

(** C2: each plot builder raises [FailToGraphException], and no other
    exception, when the record set it reads from upstream is empty: the
    embedding rows for the cluster scatter, the joined records for the gene
    scatter and the gene box plot, and either species' joined records for
    the two-species box plot. *)
Theorem empty_input_fails_to_graph
  (w : data_dir) (tape : list nat)
  (species grouping gene level gene_mmu gene_hsa : string)
  (ptile_start ptile_end : Q) (outliers : bool) :
  ((get_cluster_points w species = None \/ get_cluster_points w species = Some []) ->
   get_cluster_plot w tape species grouping = Raise FailToGraphException)
  /\ (get_gene_mch w species gene true = Ok [] ->
      get_mch_scatter w species gene level ptile_start ptile_end
      = Raise FailToGraphException)
  /\ (get_gene_mch w species gene outliers = Ok [] ->
      get_mch_box w tape species gene level outliers = Raise FailToGraphException)
  /\ (forall points_mmu points_hsa,
         get_gene_mch w "mmu" gene_mmu outliers = Ok points_mmu ->
         get_gene_mch w "hsa" gene_hsa outliers = Ok points_hsa ->
         points_mmu = [] \/ points_hsa = [] ->
         get_mch_box_two_species w gene_mmu gene_hsa level outliers
         = Raise FailToGraphException).
Proof.
  repeat split.
  - intros [H | H]; unfold get_cluster_plot; rewrite H; reflexivity.
  - intros H. unfold get_mch_scatter. rewrite H. reflexivity.
  - intros H. unfold get_mch_box. rewrite H. reflexivity.
  - intros pm ph Hm Hh Hempty. unfold get_mch_box_two_species.
    rewrite Hm, Hh. simpl.
    destruct Hempty as [-> | ->].
    + reflexivity.
    + destruct pm; reflexivity.
Qed.

Lemma empty_input_fails_to_graph_example :
  get_cluster_plot no_measurement [] "hsa" "cluster" = Raise FailToGraphException
  /\ get_mch_scatter no_measurement "mmu" "ENSMUSG1" "normalized" 0 1
     = Raise FailToGraphException
  /\ get_mch_box no_measurement [] "mmu" "ENSMUSG1" "normalized" false
     = Raise FailToGraphException
  /\ get_mch_box_two_species no_measurement "ENSMUSG1" "ENSG1" "normalized" false
     = Raise FailToGraphException.
Proof.
  split; [| split; [| split]].
  - apply (empty_input_fails_to_graph no_measurement [] "hsa" "cluster" "" "" "" ""
             0 0 false).
    right. reflexivity.
  - apply (empty_input_fails_to_graph no_measurement [] "mmu" "" "ENSMUSG1"
             "normalized" "" "" 0 1 false).
    reflexivity.
  - apply (empty_input_fails_to_graph no_measurement [] "mmu" "" "ENSMUSG1"
             "normalized" "" "" 0 1 false).
    reflexivity.
  - apply (empty_input_fails_to_graph no_measurement [] "" "" "" "normalized"
             "ENSMUSG1" "ENSG1" 0 0 false) with (points_mmu := []) (points_hsa := []).
    + reflexivity.
    + reflexivity.
    + left. reflexivity.
Defined.

(** ** Percentile clipping *)

(** C4, as the specification has it, fails: on [1, 2, 3, 4, 100] with
    percentiles 0 and 0.8 no upper bound near 3.2 comes out, and 100 is not
    mapped near 3.2. *)
Lemma clip_example_not_3_2 :
  ~ (exists low high clipped,
        quantile one_to_hundred 0 = Ok (Some low)
        /\ quantile one_to_hundred (8 # 10) = Ok (Some high)
        /\ (low == 1)%Q
        /\ (Qabs (high - (32 # 10)) <= 1 # 10)%Q
        /\ set_color_by_percentile (Some 100%Q) (Some low) (Some high)
           = level_of clipped
        /\ (Qabs (clipped - (32 # 10)) <= 1 # 10)%Q).
Proof.
  intros (low & high & clipped & _ & Hhigh & _ & Habs & _).
  vm_compute in Hhigh. injection Hhigh as <-.
  vm_compute in Habs. apply Habs. reflexivity.
Qed.

(** C4, amended: on [1, 2, 3, 4, 100] with percentiles 0 and 0.8 the
    bounds are 1 and 23.2 (position 0.8 * 4 = 3.2 lies between the values 4
    and 100), the value 100 is mapped to 23.2 and the other four values are
    kept; [get_mch_scatter] colours the five cells accordingly. *)
Theorem clip_example_23_2 :
  exists low high,
    quantile one_to_hundred 0 = Ok (Some low)
    /\ quantile one_to_hundred (8 # 10) = Ok (Some high)
    /\ (low == 1)%Q
    /\ (high == 232 # 10)%Q
    /\ map (fun v => set_color_by_percentile v (Some low) (Some high)) one_to_hundred
       = [level_of 1; level_of 2; level_of 3; level_of 4; level_of high]
    /\ exists chart,
        get_mch_scatter five_cells "mmu" "ENSMUSG1" "normalized" 0 (8 # 10)
        = Ok chart
        /\ sc_color chart
           = [level_of 1; level_of 2; level_of 3; level_of 4; level_of high].
Proof.
  eexists. eexists.
  split; [vm_compute; reflexivity |].
  split; [vm_compute; reflexivity |].
  split; [reflexivity |].
  split; [reflexivity |].
  split; [vm_compute; reflexivity |].
  eexists. split; vm_compute; reflexivity.
Qed.

(** The colour-bar ticks have no guard for coinciding bounds: the step
    [(end - start) / 4] is then zero and [arange] raises. *)
Lemma arange_collapsed (a : Q) :
  arange (Some a) (Some a)
         (nan_map2 Qdiv (nan_map2 Qminus (Some a) (Some a)) (Some 4%Q))
  = Raise ZeroDivisionError.
Proof.
  simpl.
  assert (H : Qeq_bool ((a - a) / 4) 0 = true).
  { apply Qeq_bool_iff. field. }
  rewrite H. reflexivity.
Qed.

(** C6: with coinciding percentiles the gene scatter raises
    [ZeroDivisionError], and with no measured cell at all it raises
    [ValueError]; neither call yields a chart. *)
Theorem scatter_collapsed_bounds_raise :
  get_mch_scatter five_cells "mmu" "ENSMUSG1" "normalized" (1 # 2) (1 # 2)
  = Raise ZeroDivisionError
  /\ get_mch_scatter unmeasured_cells "mmu" "ENSMUSG1" "normalized" 0 1
     = Raise ValueError.
Proof.
  split; vm_compute; reflexivity.
Qed.

(** ** The joiner *)

Lemma Qltb_lt (a b : Q) : Qltb a b = true <-> (a < b)%Q.
Proof.
  unfold Qltb. rewrite negb_true_iff.
  split; intros H.
  - apply Qnot_le_lt. intros Hle. apply Qle_bool_iff in Hle. congruence.
  - destruct (Qle_bool b a) eqn:E; [| reflexivity].
    apply Qle_bool_iff in E. exfalso. exact (Qlt_not_le _ _ H E).
Qed.

Lemma insert_Q_perm (x : Q) (l : list Q) : Permutation (insert_Q x l) (x :: l).
Proof.
  induction l as [| h t IH]; simpl.
  - apply Permutation_refl.
  - destruct (Qle_bool x h).
    + apply Permutation_refl.
    + apply perm_trans with (h :: x :: t).
      * apply perm_skip. exact IH.
      * apply perm_swap.
Qed.

Lemma sort_Q_perm (l : list Q) : Permutation (sort_Q l) l.
Proof.
  induction l as [| x t IH]; simpl.
  - apply perm_nil.
  - apply perm_trans with (x :: sort_Q t).
    + apply insert_Q_perm.
    + apply perm_skip. exact IH.
Qed.

Lemma dropna_In (v : Q) (values : list (option Q)) :
  In v (dropna values) <-> In (Some v) values.
Proof.
  induction values as [| [u |] t IH]; simpl.
  - tauto.
  - rewrite IH. split; intros [H | H]; auto.
    + left. congruence.
    + left. congruence.
  - rewrite IH. split; [auto | intros [H | H]; [discriminate | exact H]].
Qed.

(** The interpolated quantile never exceeds every value it was computed
    from: one of them is at least as large. *)
Lemma interpolate_below_some_value (values : list (option Q)) (q t : Q) :
  interpolate values q = Some t ->
  exists v, In (Some v) values /\ (t <= v)%Q.
Proof.
  unfold interpolate.
  destruct (sort_Q (dropna values)) as [| x rest] eqn:E; [discriminate |].
  set (sorted := x :: rest).
  set (position := (q * (inject_Z (Z.of_nat (List.length sorted)) - 1))%Q).
  set (below := Qfloor position).
  set (a := nth (Z.to_nat below) sorted x).
  set (b := nth (S (Z.to_nat below)) sorted a).
  intros H. injection H as <-.
  assert (Hsorted : forall v, In v sorted -> In (Some v) values).
  { intros v Hv. apply dropna_In.
    apply (Permutation_in v (sort_Q_perm (dropna values))).
    rewrite E. exact Hv. }
  assert (Ha : In a sorted).
  { unfold a. destruct (nth_in_or_default (Z.to_nat below) sorted x) as [H | H].
    - exact H.
    - rewrite H. left. reflexivity. }
  assert (Hb : In b sorted).
  { unfold b. destruct (nth_in_or_default (S (Z.to_nat below)) sorted a) as [H | H].
    - exact H.
    - rewrite H. exact Ha. }
  assert (Hlo : (0 <= position - inject_Z below)%Q).
  { pose proof (Qfloor_le position) as H. fold below in H. lra. }
  assert (Hhi : (position - inject_Z below <= 1)%Q).
  { pose proof (Qlt_floor position) as H. fold below in H.
    rewrite inject_Z_plus in H. change (inject_Z 1) with 1%Q in H.
    apply Qlt_le_weak in H. lra. }
  set (frac := (position - inject_Z below)%Q) in *.
  clearbody frac a b.
  destruct (Qlt_le_dec b a) as [Hba | Hab].
  - exists a. split; [apply Hsorted, Ha |].
    assert (H : (0 <= (a - b) * frac)%Q) by (apply Qmult_le_0_compat; lra).
    assert (H' : ((b - a) * frac == - ((a - b) * frac))%Q) by ring.
    lra.
  - exists b. split; [apply Hsorted, Hb |].
    assert (H : (0 <= (b - a) * (1 - frac))%Q) by (apply Qmult_le_0_compat; lra).
    assert (H' : ((b - a) * (1 - frac) == (b - a) - (b - a) * frac)%Q) by ring.
    lra.
Qed.

Lemma interpolate_no_value (values : list (option Q)) (q : Q) :
  (forall v, ~ In (Some v) values) -> interpolate values q = None.
Proof.
  intros H. unfold interpolate.
  destruct (sort_Q (dropna values)) as [| x rest] eqn:E; [reflexivity |].
  exfalso. apply (H x). apply dropna_In.
  apply (Permutation_in x (sort_Q_perm (dropna values))).
  rewrite E. left. reflexivity.
Qed.

Lemma remove_outliers_Ok {C : Type} (df : list (point C)) :
  remove_outliers df = Ok (filter (below_percentile df) df).
Proof. reflexivity. Qed.

Lemma filter_drops {A : Type} (f : A -> bool) (l : list A) (x : A) :
  In x l -> f x = false -> (List.length (filter f l) < List.length l)%nat.
Proof.
  induction l as [| h t IH]; simpl; intros Hin Hx; [contradiction |].
  pose proof (filter_length_le f t) as Hle.
  destruct Hin as [-> | Hin].
  - rewrite Hx. lia.
  - specialize (IH Hin Hx). destruct (f h); simpl; lia.
Qed.

(** What the outlier pass keeps has a value, strictly below the
    percentile. *)
Lemma remove_outliers_kept {C : Type} (df once : list (point C)) :
  remove_outliers df = Ok once ->
  forall r, In r once ->
    In r df
    /\ exists v q, normalized r = Some v
                   /\ interpolate (map normalized df) (99 # 100) = Some q
                   /\ (v < q)%Q.
Proof.
  rewrite remove_outliers_Ok. intros H. injection H as <-.
  intros r Hr. apply filter_In in Hr. destruct Hr as [Hin Hlt].
  split; [exact Hin |].
  unfold below_percentile, nan_lt in Hlt.
  destruct (normalized r) as [v |]; [| discriminate].
  destruct (interpolate _ _) as [q |]; [| discriminate].
  exists v, q. repeat split. apply Qltb_lt. exact Hlt.
Qed.

(** The outlier pass always drops something, unless there is nothing to
    drop. *)
Lemma remove_outliers_shrinks {C : Type} (df once : list (point C)) :
  remove_outliers df = Ok once ->
  df <> [] ->
  (List.length once < List.length df)%nat.
Proof.
  rewrite remove_outliers_Ok. intros H Hne. injection H as <-.
  destruct (interpolate (map normalized df) (99 # 100)) as [t |] eqn:Et.
  - destruct (interpolate_below_some_value _ _ _ Et) as (v & Hv & Hle).
    apply in_map_iff in Hv. destruct Hv as (r & Hr & Hin).
    apply (filter_drops _ _ r Hin).
    unfold below_percentile. rewrite Hr, Et. simpl.
    unfold Qltb. apply negb_false_iff. apply Qle_bool_iff. exact Hle.
  - destruct df as [| r t]; [congruence |].
    apply (filter_drops _ _ r); [left; reflexivity |].
    unfold below_percentile. rewrite Et.
    unfold nan_lt. destruct (normalized r); reflexivity.
Qed.


(** The same on [get_gene_mch]: the five cells with the values 1, 2, 3, 4
    and 100 lose the last one, and the four cells that are left, joined
    again without outliers, lose one more. *)
Remark join_without_outliers_not_idempotent :
  exists once twice,
    get_gene_mch five_cells "mmu" "ENSMUSG1" false = Ok once
    /\ map samp once = ["s1"; "s2"; "s3"; "s4"]
    /\ get_gene_mch four_cells_left "mmu" "ENSMUSG1" false = Ok twice
    /\ map samp twice = ["s1"; "s2"; "s3"].
Proof.
  eexists. eexists.
  split; [vm_compute; reflexivity |].
  split; [reflexivity |].
  split; [vm_compute; reflexivity |].
  reflexivity.
Qed.




Lemma insert_point_perm (p : point (option Z)) (l : list (point (option Z))) :
  Permutation (insert_point p l) (p :: l).
Proof.
  induction l as [| h t IH]; simpl.
  - apply Permutation_refl.
  - destruct (cluster_le (cluster_ordered p) (cluster_ordered h)).
    + apply Permutation_refl.
    + apply perm_trans with (h :: p :: t);
        [apply perm_skip; exact IH | apply perm_swap].
Qed.

Lemma sort_values_perm (l : list (point (option Z))) :
  Permutation (sort_values l) l.
Proof.
  induction l as [| p t IH]; simpl.
  - apply perm_nil.
  - apply perm_trans with (p :: sort_values t);
      [apply insert_point_perm | apply perm_skip; exact IH].
Qed.

Lemma by_cluster_ordered_perm (df : list (point string)) :
  Permutation (by_cluster_ordered df) (map numeric df).
Proof. apply sort_values_perm. Qed.

Lemma by_cluster_ordered_length (df : list (point string)) :
  List.length (by_cluster_ordered df) = List.length df.
Proof.
  rewrite (Permutation_length (by_cluster_ordered_perm df)).
  apply length_map.
Qed.

(** [get_gene_mch] in three steps: the merged frame, the outlier pass, the
    conversion and sort of [cluster_ordered]. *)
Lemma get_gene_mch_steps (w : data_dir) (species gene : string) (outliers : bool) :
  get_gene_mch w species gene outliers
  = (df <- dataframe_merged w species gene ;;
     df <- (if negb outliers then remove_outliers df else Ok df) ;;
     Ok (by_cluster_ordered df)).
Proof.
  unfold get_gene_mch, dataframe_merged.
  destruct (negb (species_exists w species) || negb (gene_exists w species gene)).
  - destruct outliers; reflexivity.
  - destruct (glob_mch w species gene) as [| filename rest].
    + destruct outliers; reflexivity.
    + destruct (read_csv w filename) as [mch |].
      * destruct (select_columns (get_cluster_points w species)) as [left | e];
          [| reflexivity].
        cbn [bind]. destruct (merge left mch); reflexivity.
      * destruct outliers; reflexivity.
Qed.

(** C9: without outliers, every record [get_gene_mch] returns has a
    normalized value, strictly below the 99th percentile of the merged
    frame; rows without a measurement and rows equal to the percentile are
    gone, so the result is strictly shorter than the result with outliers,
    which is where one record per embedding row holds. *)
Theorem without_outliers_every_record_has_value
  (w : data_dir) (species gene : string) (recs : list (point (option Z))) :
  get_gene_mch w species gene false = Ok recs ->
  exists df,
    dataframe_merged w species gene = Ok df
    /\ (forall r, In r recs ->
          exists v three_std_dev,
            normalized r = Some v
            /\ interpolate (map normalized df) (99 # 100) = Some three_std_dev
            /\ (v < three_std_dev)%Q)
    /\ (forall r, In r recs -> normalized r <> None)
    /\ (forall all,
          get_gene_mch w species gene true = Ok all ->
          all <> [] ->
          (List.length recs < List.length all)%nat).
Proof.
  intros H. rewrite get_gene_mch_steps in H.
  unbind H. rename v into df, E into Hdf.
  unbind H. rename v into kept, E into Hkept. simpl in Hkept.
  injection H as <-.
  exists df. split; [exact Hdf |].
  assert (Hval : forall r, In r (by_cluster_ordered kept) ->
            exists v q, normalized r = Some v
              /\ interpolate (map normalized df) (99 # 100) = Some q
              /\ (v < q)%Q).
  { intros r Hr.
    apply (Permutation_in r (by_cluster_ordered_perm kept)) in Hr.
    apply in_map_iff in Hr. destruct Hr as (r0 & <- & Hr0).
    destruct (remove_outliers_kept df kept Hkept r0 Hr0) as (_ & v & q & Hv).
    exists v, q. exact Hv. }
  split; [exact Hval |].
  split.
  - intros r Hr. destruct (Hval r Hr) as (v & q & Hv & _). congruence.
  - intros all Hall Hne. rewrite get_gene_mch_steps, Hdf in Hall. simpl in Hall.
    injection Hall as <-.
    rewrite !by_cluster_ordered_length.
    apply (remove_outliers_shrinks df kept Hkept).
    intros ->. apply Hne. reflexivity.
Qed.

Lemma without_outliers_every_record_has_value_example :
  exists recs,
    get_gene_mch five_cells "mmu" "ENSMUSG1" false = Ok recs
    /\ map normalized recs = [Some 1%Q; Some 2%Q; Some 3%Q; Some 4%Q]
    /\ forall r, In r recs -> normalized r <> None.
Proof.
  assert (Hrun : exists recs,
             get_gene_mch five_cells "mmu" "ENSMUSG1" false = Ok recs
             /\ map normalized recs = [Some 1%Q; Some 2%Q; Some 3%Q; Some 4%Q]).
  { eexists. split; [vm_compute; reflexivity | reflexivity]. }
  destruct Hrun as (recs & Hrun & Hvalues).
  exists recs. split; [exact Hrun |]. split; [exact Hvalues |].
  destruct (without_outliers_every_record_has_value
              five_cells "mmu" "ENSMUSG1" recs Hrun) as (df & _ & _ & H & _).
  exact H.
Defined.

(** *** The left join *)

Lemma select_row_total (r : dict) :
  has_columns r -> exists l, select_row r = Ok l.
Proof.
  intros H. unfold has_columns, embedding_columns in H.
  repeat match goal with
         | H : Forall _ (_ :: _) |- _ => inversion H; subst; clear H
         end.
  unfold select_row, getitem.
  repeat match goal with
         | H : dict_find ?c r <> None |- _ =>
             destruct (dict_find c r); [clear H | congruence]
         end.
  simpl. eexists. reflexivity.
Qed.



Lemma filter_none {A : Type} (f : A -> bool) (l : list A) :
  (forall x, In x l -> f x = false) -> filter f l = [].
Proof.
  induction l as [| h t IH]; simpl; intros H; [reflexivity |].
  rewrite (H h (or_introl eq_refl)). apply IH. intros x Hx. apply H. right. exact Hx.
Qed.



Lemma merge_left_cons (l : point string) (t : list (point string))
  (right : list mch_row) :
  merge_left (l :: t) right
  = match matching right l with
    | [] => [l]
    | m :: ms => map (fun m => set_values l (m_original m) (m_normalized m)) (m :: ms)
    end ++ merge_left t right.
Proof. reflexivity. Qed.

(** The left join never drops a row. *)
Lemma merge_left_never_drops (left : list (point string)) (right : list mch_row) :
  (List.length left <= List.length (merge_left left right))%nat.
Proof.
  induction left as [| l t IH]; [simpl; lia |].
  rewrite merge_left_cons, length_app.
  destruct (matching right l) as [| m ms].
  - simpl. lia.
  - rewrite length_map. simpl. lia.
Qed.


(** The seven columns are there to select when every row has them. *)
Lemma select_columns_total (points : list dict) :
  points <> [] -> Forall has_columns points ->
  exists left, select_columns (Some points) = Ok left.
Proof.
  intros Hne Hcols. destruct points as [| p ps]; [congruence |].
  apply map_result_total.
  apply Forall_impl with (2 := Hcols). exact select_row_total.
Qed.

(** The merged frame, once the guards of [get_gene_mch] are passed. *)
Lemma dataframe_merged_read (w : data_dir) (species gene : string)
  (points : list dict) (filename : string) (rest : list string)
  (mch : mch_frame) (left : list (point string)) :
  get_cluster_points w species = Some points ->
  glob_mch w species gene = filename :: rest ->
  filename <> "" ->
  read_csv w filename = Some mch ->
  select_columns (Some points) = Ok left ->
  dataframe_merged w species gene = merge left mch.
Proof.
  intros Hpoints Hglob Hname Hread Hleft.
  assert (Hspecies : species_exists w species = true).
  { unfold get_cluster_points in Hpoints.
    destruct (species_exists w species); [reflexivity | discriminate]. }
  assert (Hgene : gene_exists w species gene = true).
  { unfold gene_exists. rewrite Hglob.
    destruct filename; [congruence | reflexivity]. }
  unfold dataframe_merged.
  rewrite Hspecies, Hgene, Hglob, Hread, Hpoints, Hleft. reflexivity.
Qed.

(** C1: the join fails when the sample IDs are numbers.  With a species
    directory, an embedding table with rows and its seven columns, and a
    measurement file for the gene whose sample IDs all read as numbers,
    [pandas.merge] is given a text column and a numeric one, and
    [get_gene_mch] raises [ValueError] instead of returning one record per
    embedding row, with or without outliers. *)
Theorem join_raises_on_numeric_sample_ids
  (w : data_dir) (species gene : string) (outliers : bool)
  (points : list dict) (filename : string) (rest : list string)
  (rows : list mch_row) :
  get_cluster_points w species = Some points ->
  points <> [] ->
  Forall has_columns points ->
  glob_mch w species gene = filename :: rest ->
  filename <> "" ->
  read_csv w filename = Some {| samp_dtype := dtype_number; mch_rows := rows |} ->
  species_exists w species = true
  /\ gene_exists w species gene = true
  /\ get_gene_mch w species gene outliers = Raise ValueError.
Proof.
  intros Hpoints Hne Hcols Hglob Hname Hread.
  destruct (select_columns_total points Hne Hcols) as (left & Hleft).
  pose proof (dataframe_merged_read w species gene points filename rest _ left
                Hpoints Hglob Hname Hread Hleft) as Hdf.
  split.
  { unfold get_cluster_points in Hpoints.
    destruct (species_exists w species); [reflexivity | discriminate]. }
  split.
  { unfold gene_exists. rewrite Hglob.
    destruct filename; [congruence | reflexivity]. }
  rewrite get_gene_mch_steps, Hdf. reflexivity.
Qed.

Lemma join_raises_on_numeric_sample_ids_example :
  get_cluster_points numbered_cells "mmu"
  = Some [embedding_row "101" "1" "1" "A"; embedding_row "102" "2" "1" "B"]
  /\ glob_mch numbered_cells "mmu" "ENSMUSG1" = ["data/mmu/mch/ENSMUSG1.txt"]
  /\ get_gene_mch numbered_cells "mmu" "ENSMUSG1" true = Raise ValueError.
Proof.
  split; [reflexivity |].
  split; [reflexivity |].
  apply (join_raises_on_numeric_sample_ids numbered_cells "mmu" "ENSMUSG1" true
           [embedding_row "101" "1" "1" "A"; embedding_row "102" "2" "1" "B"]
           "data/mmu/mch/ENSMUSG1.txt" []
           [measurement "ENSMUSG1" "101" 1; measurement "ENSMUSG1" "102" 2]).
  - reflexivity.
  - discriminate.
  - repeat constructor; discriminate.
  - reflexivity.
  - discriminate.
  - reflexivity.
Defined.



(** A measurement file without lines joins to records without values: it
    reads as a frame without rows. *)
Remark empty_measurement_file_joins :
  exists r,
    get_gene_mch empty_measurement_file "mmu" "ENSMUSG1" true = Ok [r]
    /\ samp r = "s1" /\ original r = None /\ normalized r = None.
Proof.
  eexists. split; [vm_compute; reflexivity |].
  repeat split.
Qed.

(** Why [valid_pair] asks for one measurement row per sample: a sample
    listed twice gives two records for its one embedding row. *)
Remark measurement_listed_twice :
  exists r1 r2,
    get_gene_mch measured_twice "mmu" "ENSMUSG1" true = Ok [r1; r2]
    /\ samp r1 = "s1" /\ samp r2 = "s1"
    /\ get_cluster_points measured_twice "mmu" = Some [embedding_row "s1" "1" "1" "A"].
Proof.
  eexists. eexists. split; [vm_compute; reflexivity |].
  repeat split.
Qed.

(** ** Cluster colours *)

Lemma list_set_length {A : Type} (j : nat) (y : A) (l : list A) :
  List.length (list_set j y l) = List.length l.
Proof.
  revert j. induction l as [| h t IH]; intros [| j]; simpl; auto.
Qed.

Lemma list_set_same {A : Type} (j : nat) (y : A) (l : list A) :
  nth_error l j = Some y -> list_set j y l = l.
Proof.
  revert j. induction l as [| h t IH]; intros [| j]; simpl; intros H;
    try discriminate.
  - injection H as ->. reflexivity.
  - rewrite (IH j H). reflexivity.
Qed.

(** One turn of the selection loop: the picked item and the pool that is
    left make up the pool there was. *)
Lemma pick_and_move_perm {A : Type} (pool : list A) :
  forall (j : nat) (picked moved : A),
    nth_error pool j = Some picked ->
    nth_error pool (List.length pool - 1) = Some moved ->
    Permutation (picked :: firstn (List.length pool - 1) (list_set j moved pool)) pool.
Proof.
  induction pool as [| h t IH]; intros j picked moved Hj Hlast.
  - destruct j; discriminate Hj.
  - destruct t as [| h2 t2].
    + destruct j as [| j]; [| destruct j; discriminate Hj].
      simpl in *. injection Hj as ->. apply Permutation_refl.
    + remember (h2 :: t2) as t eqn:Et.
      assert (Hlen : (List.length (h :: t) - 1 = S (List.length t - 1))%nat)
        by (subst t; simpl; lia).
      rewrite Hlen in *.
      change (nth_error (h :: t) (S (List.length t - 1)))
        with (nth_error t (List.length t - 1)) in Hlast.
      destruct j as [| j].
      * simpl in Hj. injection Hj as ->.
        change (list_set 0 moved (picked :: t)) with (moved :: t).
        rewrite firstn_cons. apply perm_skip.
        pose proof (IH _ moved moved Hlast Hlast) as P.
        rewrite (list_set_same _ _ _ Hlast) in P. exact P.
      * simpl in Hj.
        change (list_set (S j) moved (h :: t)) with (h :: list_set j moved t).
        rewrite firstn_cons.
        apply perm_trans with (h :: picked :: firstn (List.length t - 1)
                                                 (list_set j moved t)).
        -- apply perm_swap.
        -- apply perm_skip. apply IH; assumption.
Qed.

(** Sampling as many items as there are returns them all, in some order. *)
Lemma sample_loop_perm {A : Type} :
  forall (k : nat) (pool : list A) (tape : list nat),
    List.length pool = k -> Permutation (sample_loop pool k tape) pool.
Proof.
  induction k as [| k IH]; intros pool tape Hlen.
  - destruct pool; [apply perm_nil | discriminate].
  - cbn [sample_loop]. rewrite Hlen.
    set (j := (hd 0 tape mod S k)%nat).
    assert (Hj : (j < S k)%nat) by (apply Nat.mod_upper_bound; discriminate).
    destruct (nth_error pool j) as [picked |] eqn:Ej.
    2: { apply nth_error_None in Ej. lia. }
    destruct (nth_error pool (S k - 1)) as [moved |] eqn:El.
    2: { apply nth_error_None in El. lia. }
    apply perm_trans with (picked :: firstn (S k - 1) (list_set j moved pool)).
    + apply perm_skip. apply IH.
      rewrite length_firstn, list_set_length. lia.
    + rewrite <- Hlen in El |- *. apply pick_and_move_perm; assumption.
Qed.

Lemma nth_map_seq {A : Type} (f : nat -> A) (n i : nat) (d : A) :
  (i < n)%nat -> nth i (map f (seq 0 n)) d = f i.
Proof.
  intros Hi.
  rewrite (nth_indep _ d (f 0%nat)) by (rewrite length_map, length_seq; exact Hi).
  rewrite map_nth, seq_nth by exact Hi. reflexivity.
Qed.

Lemma linspace_length (start stop : Q) (num : Z) (values : list Q) :
  linspace start stop num = Ok values -> List.length values = Z.to_nat num.
Proof.
  unfold linspace. destruct (num <? 0); [discriminate |].
  intros H. injection H as <-. rewrite length_map, length_seq. reflexivity.
Qed.

(** The colours are those of the evenly spaced hues, in the order the draws
    decide. *)
Lemma generate_cluster_colors_perm (tape : list nat) (num : Z) :
  0 <= num ->
  exists hues colors,
    linspace 0 360 num = Ok hues
    /\ generate_cluster_colors tape num = Ok colors
    /\ Permutation colors (map hsl hues).
Proof.
  intros Hnum. unfold generate_cluster_colors.
  destruct (linspace 0 360 num) as [hues | e] eqn:Eh.
  2: { unfold linspace in Eh. destruct (Z.ltb_spec num 0); [lia | discriminate]. }
  pose proof (linspace_length _ _ _ _ Eh) as Hlen.
  exists hues, (sample_loop (map hsl hues) (Z.to_nat num) tape).
  split; [reflexivity |]. split.
  - simpl. unfold sample. rewrite length_map, Hlen.
    destruct (Z.ltb_spec num 0); [lia |].
    destruct (Z.ltb_spec (Z.of_nat (Z.to_nat num)) num); [lia |].
    reflexivity.
  - apply sample_loop_perm. rewrite length_map. exact Hlen.
Qed.

Lemma distinct_NoDup (l : list string) : distinct l = true -> NoDup l.
Proof.
  induction l as [| x t IH]; simpl; intros H; [constructor |].
  apply andb_true_iff in H. destruct H as [Hx Ht].
  constructor; [| exact (IH Ht)].
  intros Hin. apply negb_true_iff in Hx.
  assert (Hex : existsb (String.eqb x) t = true).
  { apply existsb_exists. exists x. split; [exact Hin | apply String.eqb_refl]. }
  congruence.
Qed.

Lemma hues_distinct_up_to_35 :
  forallb
    (fun n => match linspace 0 360 (Z.of_nat n) with
              | Ok hues => distinct (map hsl hues)
              | Raise _ => false
              end)
    (seq 1 35) = true.
Proof. vm_compute. reflexivity. Qed.

(** X22: for [n] from 1 to 35, whatever the draws, [generate_cluster_colors]
    returns [n] colour strings, no two of them the same string, which are
    the strings [hsl(h,50%,50%)] of the [n] hues [i * 360 / (n - 1)],
    [i = 0 .. n-1], evenly spaced on the interval from 0 to 360 with both
    ends included, in an order that the draws decide. *)
Theorem generate_cluster_colors_spec (tape : list nat) (n : Z) :
  1 <= n <= 35 ->
  exists hues colors,
    linspace 0 360 n = Ok hues
    /\ generate_cluster_colors tape n = Ok colors
    /\ Z.of_nat (List.length colors) = n
    /\ NoDup colors
    /\ Permutation colors (map hsl hues)
    /\ forall i, (i < Z.to_nat n)%nat ->
         (nth i hues 0 == inject_Z (Z.of_nat i) * (360 / inject_Z (n - 1)))%Q.
Proof.
  intros Hn.
  destruct (generate_cluster_colors_perm tape n) as (hues & colors & Hh & Hc & Hp);
    [lia |].
  exists hues, colors.
  pose proof (linspace_length _ _ _ _ Hh) as Hlen.
  split; [exact Hh |]. split; [exact Hc |].
  split.
  { rewrite (Permutation_length Hp), length_map, Hlen. lia. }
  split.
  { apply (Permutation_NoDup (Permutation_sym Hp)).
    pose proof hues_distinct_up_to_35 as Hall.
    rewrite forallb_forall in Hall.
    specialize (Hall (Z.to_nat n)).
    rewrite Z2Nat.id, Hh in Hall by lia.
    apply distinct_NoDup, Hall, in_seq. lia. }
  split; [exact Hp |].
  intros i Hi. unfold linspace in Hh.
  destruct (n <? 0); [discriminate |]. injection Hh as <-.
  rewrite nth_map_seq by exact Hi.
  unfold Qminus. rewrite Qplus_0_l.
  setoid_replace (360 + - 0)%Q with 360%Q by ring. reflexivity.
Qed.

Lemma generate_cluster_colors_spec_example :
  generate_cluster_colors [3; 0; 1]%nat 5
  = Ok ["hsl(270,50%,50%)"; "hsl(0,50%,50%)"; "hsl(90,50%,50%)";
        "hsl(360,50%,50%)"; "hsl(180,50%,50%)"]
  /\ exists hues colors,
      linspace 0 360 5 = Ok hues
      /\ generate_cluster_colors [3; 0; 1]%nat 5 = Ok colors
      /\ Z.of_nat (List.length colors) = 5
      /\ NoDup colors
      /\ Permutation colors (map hsl hues)
      /\ forall i, (i < Z.to_nat 5)%nat ->
           (nth i hues 0 == inject_Z (Z.of_nat i) * (360 / inject_Z (5 - 1)))%Q.
Proof.
  split; [vm_compute; reflexivity |].
  apply (generate_cluster_colors_spec [3; 0; 1]%nat 5). lia.
Defined.

Lemma ends_at_0_and_360_up_to_35 : forallb ends_at_0_and_360 (seq 2 34) = true.
Proof. vm_compute. reflexivity. Qed.

(** C5: the colours are not distinct, and the hues are not spread over the
    circle.  For [n] from 2 to 35, whatever the draws, the hues of
    [linspace(0, 360, n)] start at 0 and end at 360, so the result holds
    both [hsl(0,50%,50%)] and [hsl(360,50%,50%)]: two strings for one hue of
    the colour wheel, and at most [n - 1] colours for [n] clusters. *)
Theorem generate_cluster_colors_repeats_a_hue (tape : list nat) (n : Z) :
  2 <= n <= 35 ->
  exists hues colors,
    linspace 0 360 n = Ok hues
    /\ generate_cluster_colors tape n = Ok colors
    /\ Z.of_nat (List.length colors) = n
    /\ Permutation colors (map hsl hues)
    /\ nth_error (map hsl hues) 0 = Some "hsl(0,50%,50%)"%string
    /\ nth_error (map hsl hues) (Z.to_nat n - 1) = Some "hsl(360,50%,50%)"%string
    /\ In "hsl(0,50%,50%)"%string colors
    /\ In "hsl(360,50%,50%)"%string colors
    /\ css_hue 0 = css_hue 360
    /\ ~ NoDup (map css_hue (map py_round hues)).
Proof.
  intros Hn.
  destruct (generate_cluster_colors_perm tape n) as (hues & colors & Hh & Hc & Hp);
    [lia |].
  exists hues, colors.
  pose proof (linspace_length _ _ _ _ Hh) as Hlen.
  pose proof ends_at_0_and_360_up_to_35 as Hall.
  rewrite forallb_forall in Hall.
  specialize (Hall (Z.to_nat n)).
  assert (Hin : In (Z.to_nat n) (seq 2 34)) by (apply in_seq; lia).
  specialize (Hall Hin). unfold ends_at_0_and_360 in Hall.
  rewrite Z2Nat.id, Hh in Hall by lia.
  destruct (nth_error hues 0) as [first |] eqn:Efirst; [| discriminate Hall].
  destruct (nth_error hues (Z.to_nat n - 1)) as [last |] eqn:Elast;
    [| discriminate Hall].
  apply andb_true_iff in Hall. destruct Hall as [H0 H360].
  apply Z.eqb_eq in H0. apply Z.eqb_eq in H360.
  assert (Hs0 : nth_error (map hsl hues) 0 = Some "hsl(0,50%,50%)"%string).
  { rewrite (map_nth_error hsl 0 hues Efirst). unfold hsl. rewrite H0. reflexivity. }
  assert (Hs360 : nth_error (map hsl hues) (Z.to_nat n - 1)
                  = Some "hsl(360,50%,50%)"%string).
  { rewrite (map_nth_error hsl _ hues Elast). unfold hsl. rewrite H360. reflexivity. }
  split; [exact Hh |]. split; [exact Hc |].
  split; [rewrite (Permutation_length Hp), length_map, Hlen; lia |].
  split; [exact Hp |].
  split; [exact Hs0 |]. split; [exact Hs360 |].
  split.
  { apply (Permutation_in _ (Permutation_sym Hp)). exact (nth_error_In _ _ Hs0). }
  split.
  { apply (Permutation_in _ (Permutation_sym Hp)). exact (nth_error_In _ _ Hs360). }
  split; [reflexivity |].
  intros Hnd.
  assert (Heq : (0 = Z.to_nat n - 1)%nat).
  { apply (proj1 (NoDup_nth_error _) Hnd).
    - rewrite !length_map, Hlen. lia.
    - rewrite (map_nth_error css_hue 0 _ (map_nth_error py_round 0 hues Efirst)).
      rewrite (map_nth_error css_hue _ _ (map_nth_error py_round _ hues Elast)).
      rewrite H0, H360. reflexivity. }
  lia.
Qed.

Lemma generate_cluster_colors_repeats_a_hue_example :
  generate_cluster_colors [0; 0]%nat 2
  = Ok ["hsl(0,50%,50%)"; "hsl(360,50%,50%)"]%string
  /\ css_hue 0 = css_hue 360
  /\ exists hues, linspace 0 360 2 = Ok hues
                  /\ ~ NoDup (map css_hue (map py_round hues)).
Proof.
  split; [vm_compute; reflexivity |].
  split; [reflexivity |].
  destruct (generate_cluster_colors_repeats_a_hue [0; 0]%nat 2)
    as (hues & colors & Hh & _ & _ & _ & _ & _ & _ & _ & _ & Hdup); [lia |].
  exists hues. split; [exact Hh | exact Hdup].
Defined.

(** The order is not fixed: other draws, another order. *)
Remark generate_cluster_colors_order_varies :
  generate_cluster_colors [0; 0; 0]%nat 3
  = Ok ["hsl(0,50%,50%)"; "hsl(360,50%,50%)"; "hsl(180,50%,50%)"]
  /\ generate_cluster_colors [1; 0; 0]%nat 3
     = Ok ["hsl(180,50%,50%)"; "hsl(0,50%,50%)"; "hsl(360,50%,50%)"].
Proof. split; vm_compute; reflexivity. Qed.

(** ** Trace dictionaries *)

Section OrderedDict.

Context {T : Type}.

Implicit Types (traces : list (Z * T)) (key k : Z) (f : T -> T).

Lemma setdefault_In key (default : T) traces k (t : T) :
  In (k, t) (setdefault key default traces) ->
  In (k, t) traces \/ (k = key /\ t = default).
Proof.
  induction traces as [| [k0 t0] rest IH]; simpl.
  - intros [H | []]. injection H as <- <-. right. split; reflexivity.
  - destruct (k0 =? key).
    + intros H. left. exact H.
    + intros [H | H]; [left; left; exact H |].
      destruct (IH H) as [H' | H']; [left; right; exact H' | right; exact H'].
Qed.

Lemma setdefault_keys key (default : T) traces :
  NoDup (map fst traces) -> NoDup (map fst (setdefault key default traces)).
Proof.
  induction traces as [| [k0 t0] rest IH]; simpl; intros Hnd.
  - constructor; [intros [] | constructor].
  - destruct (Z.eqb_spec k0 key) as [-> | Hne]; [exact Hnd |].
    inversion Hnd as [| ? ? Hnotin Hnd']; subst.
    simpl. constructor; [| exact (IH Hnd')].
    intros Hin. apply in_map_iff in Hin. destruct Hin as ([k t] & Hk & Hin).
    simpl in Hk. subst k.
    destruct (setdefault_In _ _ _ _ _ Hin) as [H | [H _]].
    + apply Hnotin. apply (in_map fst) in H. exact H.
    + apply Hne. exact H.
Qed.

Lemma update_keys key f traces traces' :
  update key f traces = Ok traces' -> map fst traces' = map fst traces.
Proof.
  revert traces'. induction traces as [| [k0 t0] rest IH]; simpl; intros traces' H.
  - discriminate.
  - destruct (k0 =? key).
    + injection H as <-. reflexivity.
    + unbind H. injection H as <-. simpl. rewrite (IH v E). reflexivity.
Qed.

Lemma update_present key f traces traces' :
  update key f traces = Ok traces' -> In key (map fst traces).
Proof.
  revert traces'. induction traces as [| [k0 t0] rest IH]; simpl; intros traces' H.
  - discriminate.
  - destruct (Z.eqb_spec k0 key) as [-> | Hne].
    + left. reflexivity.
    + unbind H. right. exact (IH v E).
Qed.

(** [update] changes the value under its key and nothing else. *)
Lemma update_In key f traces traces' :
  update key f traces = Ok traces' ->
  NoDup (map fst traces) ->
  forall k (t' : T), In (k, t') traces' ->
    (k = key /\ exists t, In (key, t) traces /\ t' = f t)
    \/ (k <> key /\ In (k, t') traces).
Proof.
  revert traces'. induction traces as [| [k0 t0] rest IH]; simpl;
    intros traces' H Hnd k t' Hin.
  - discriminate.
  - inversion Hnd as [| ? ? Hnotin Hnd']; subst.
    destruct (Z.eqb_spec k0 key) as [-> | Hne].
    + injection H as <-. destruct Hin as [Hin | Hin].
      * injection Hin as <- <-. left. split; [reflexivity |].
        exists t0. split; [left; reflexivity | reflexivity].
      * right. split; [| right; exact Hin].
        intros ->. apply Hnotin. apply (in_map fst) in Hin. exact Hin.
    + unbind H. injection H as <-. destruct Hin as [Hin | Hin].
      * injection Hin as <- <-. right. split; [exact Hne | left; reflexivity].
      * destruct (IH v E Hnd' k t' Hin) as [(-> & t & Ht & ->) | (Hk & Hin')].
        -- left. split; [reflexivity |]. exists t. split; [right; exact Ht | reflexivity].
        -- right. split; [exact Hk | right; exact Hin'].
Qed.

(** One turn of a grouping loop: [setdefault] then a mutation of the trace
    under the same key keeps the keys distinct and any property of the
    entries that the fresh trace has and the mutation keeps. *)
Lemma setdefault_update_inv (Q : Z -> T -> Prop) key (default : T) f traces traces' :
  update key f (setdefault key default traces) = Ok traces' ->
  NoDup (map fst traces) ->
  (forall k t, In (k, t) traces -> Q k t) ->
  Q key default ->
  (forall t, Q key t -> Q key (f t)) ->
  NoDup (map fst traces') /\ (forall k t, In (k, t) traces' -> Q k t).
Proof.
  intros H Hnd Hall Hdefault Hf.
  pose proof (setdefault_keys key default traces Hnd) as Hnd1.
  split.
  - rewrite (update_keys _ _ _ _ H). exact Hnd1.
  - intros k t' Hin.
    assert (Hall1 : forall k t, In (k, t) (setdefault key default traces) -> Q k t).
    { intros k1 t1 H1. destruct (setdefault_In _ _ _ _ _ H1) as [H2 | [-> ->]].
      - exact (Hall k1 t1 H2).
      - exact Hdefault. }
    destruct (update_In _ _ _ _ H Hnd1 k t' Hin) as [(-> & t & Ht & ->) | (_ & Hin')].
    + apply Hf. exact (Hall1 key t Ht).
    + exact (Hall1 k t' Hin').
Qed.

(** A loop that mutates the traces under the keys of [keys], one after the
    other: on success every key of [keys] is there, the traces under them
    are the mutated ones and the other traces are as they were. *)
Lemma update_pass (body : list (Z * T) -> Z -> result (list (Z * T)))
  (g : Z -> T -> T) :
  forall (keys : list Z) traces traces',
    (forall i tr, In i keys -> body tr i = update i (g i) tr) ->
    for_each body keys traces = Ok traces' ->
    NoDup (map fst traces) ->
    NoDup keys ->
    map fst traces' = map fst traces
    /\ incl keys (map fst traces)
    /\ forall k (t' : T), In (k, t') traces' ->
         (In k keys /\ exists t, In (k, t) traces /\ t' = g k t)
         \/ (~ In k keys /\ In (k, t') traces).
Proof.
  induction keys as [| i keys IH]; simpl; intros traces traces' Hbody H Hnd Hkeys.
  - injection H as <-. split; [reflexivity |]. split; [intros k [] |].
    intros k t' Hin. right. split; [intros [] | exact Hin].
  - unbind H. rename v into traces1. rewrite Hbody in E by (left; reflexivity).
    inversion Hkeys as [| ? ? Hnotin Hkeys']; subst.
    pose proof (update_keys _ _ _ _ E) as Hk1.
    assert (Hnd1 : NoDup (map fst traces1)) by (rewrite Hk1; exact Hnd).
    destruct (IH traces1 traces' (fun j tr Hj => Hbody j tr (or_intror Hj))
                 H Hnd1 Hkeys') as (Hk & Hincl & Hin).
    split; [congruence |].
    split.
    { intros k [<- | Hk']; [exact (update_present _ _ _ _ E) |].
      rewrite <- Hk1. exact (Hincl k Hk'). }
    intros k t' Hin'.
    destruct (Hin k t' Hin') as [(Hkin & t & Ht & ->) | (Hkout & Ht)].
    + destruct (update_In _ _ _ _ E Hnd k t Ht) as [(-> & _) | (_ & Ht')].
      * contradiction.
      * left. split; [right; exact Hkin |]. exists t. split; [exact Ht' | reflexivity].
    + destruct (update_In _ _ _ _ E Hnd k t' Ht) as [(-> & t & Ht' & ->) | (Hne & Ht')].
      * left. split; [left; reflexivity |]. exists t. split; [exact Ht' | reflexivity].
      * right. split; [| exact Ht']. intros [Heq | Hkin]; [congruence | contradiction].
Qed.

End OrderedDict.

Lemma py_index_In {A : Type} (l : list A) (i : Z) (x : A) :
  py_index l i = Ok x -> In x l.
Proof.
  unfold py_index.
  destruct ((_ <? 0) || _); [discriminate |].
  destruct (nth_error l _) as [y |] eqn:E; [| discriminate].
  intros H. injection H as <-. exact (nth_error_In _ _ E).
Qed.

Lemma supplementary_range (k : Z) :
  In k [17; 18; 19; 20; 21; 22] <-> 17 <= k <= 22.
Proof. simpl. lia. Qed.

Lemma supplementary_NoDup : NoDup [17; 18; 19; 20; 21; 22].
Proof. repeat constructor; simpl; lia. Qed.

Lemma cap_max_cluster_mmu (observed : Z) : cap_max_cluster "mmu" observed = 16.
Proof. reflexivity. Qed.

(** Every colour of the palette is an [hsl(...)] string, and the palette
    has as many colours as were asked for. *)
Lemma generate_cluster_colors_Ok (tape : list nat) (num : Z) (colors : list string) :
  generate_cluster_colors tape num = Ok colors ->
  Z.of_nat (List.length colors) = num
  /\ forall c, In c colors -> exists h, c = hsl h.
Proof.
  intros H.
  destruct (Z.ltb_spec num 0) as [Hneg | Hpos].
  - unfold generate_cluster_colors, linspace in H.
    destruct (Z.ltb_spec num 0); [discriminate H | lia].
  - destruct (generate_cluster_colors_perm tape num Hpos) as (hues & colors' & Hh & Hc & Hp).
    rewrite H in Hc. injection Hc as <-.
    split.
    + rewrite (Permutation_length Hp), length_map, (linspace_length _ _ _ _ Hh). lia.
    + intros c Hc. apply (Permutation_in c Hp) in Hc.
      apply in_map_iff in Hc. destruct Hc as (h & <- & _). exists h. reflexivity.
Qed.

Lemma hsl_not_black (h : Q) : hsl h <> "black".
Proof. unfold hsl. simpl. discriminate. Qed.

(** ** The mouse override *)

Lemma cluster_plot_mmu (w : data_dir) (tape : list nat) (grouping : string)
  (traces : list (Z * Scattergl.t)) :
  get_cluster_plot w tape "mmu" grouping = Ok traces ->
  exists points colors,
    get_cluster_points w "mmu" = Some points
    /\ generate_cluster_colors tape 16 = Ok colors
    /\ NoDup (map fst traces)
    /\ (forall i, 17 <= i <= 22 -> In i (map fst traces))
    /\ forall k t, In (k, t) traces ->
         scatter_group points 16 k
         /\ (17 <= k <= 22 -> scatter_secondary t)
         /\ (~ 17 <= k <= 22 -> scatter_primary colors t).
Proof.
  intros H. unfold get_cluster_plot in H.
  destruct (get_cluster_points w "mmu") as [points |]; [| discriminate H].
  destruct points as [| p0 ps]; [discriminate H |].
  set (points := p0 :: ps) in *. clearbody points. clear p0 ps.
  unbind H. rename v into keys. clear E.
  rewrite cap_max_cluster_mmu in H.
  unbind H. rename v into colors, E into Hcolors.
  unbind H. rename v into traces0, E into Hloop.
  change (String.eqb "mmu" "mmu") with true in H. cbv iota in H.
  exists points, colors. split; [reflexivity |]. split; [exact Hcolors |].
  (* the grouping loop *)
  pose (Q := fun (k : Z) (t : Scattergl.t) =>
               scatter_group points 16 k /\ scatter_primary colors t).
  assert (Hinv : NoDup (map fst traces0) /\ forall k t, In (k, t) traces0 -> Q k t).
  { apply (for_each_inv
             (fun s => NoDup (map fst s) /\ forall k t, In (k, t) s -> Q k t)
             _ _ _ _ Hloop).
    - split; [constructor | intros k t []].
    - intros point s1 s2 Hpoint [Hnd Hall] Hbody.
      do 9 unbind Hbody.
      apply (setdefault_update_inv Q _ _ _ _ _ Hbody Hnd Hall).
      + split.
        * exists point, v, v0. repeat split; assumption.
        * repeat split. simpl. eapply py_index_In; eassumption.
      + intros t [Hg (Hv & Hs & Hc)]. split; [exact Hg |].
        repeat split; assumption. }
  destruct Hinv as [Hnd Hall].
  (* the loop over range(17,23,1) *)
  destruct (update_pass
              (fun traces i =>
                 s <- py_index symbols (i mod Z.of_nat (List.length symbols)) ;;
                 update i (Scattergl.restyle s) traces)
              (fun i => Scattergl.restyle (nth (Z.to_nat (i mod 8)) symbols ""))
              [17; 18; 19; 20; 21; 22] traces0 traces)
    as (Hkeys & Hincl & Hin).
  { intros i tr Hi. simpl in Hi.
    repeat (destruct Hi as [<- | Hi]; [reflexivity |]). contradiction. }
  { exact H. }
  { exact Hnd. }
  { exact supplementary_NoDup. }
  split; [rewrite Hkeys; exact Hnd |].
  split.
  { intros i Hi. rewrite Hkeys. apply Hincl. apply supplementary_range. exact Hi. }
  intros k t' Hk.
  destruct (Hin k t' Hk) as [(Hkin & t & Ht & ->) | (Hkout & Ht)].
  - destruct (Hall k t Ht) as [Hg _].
    split; [exact Hg |]. split.
    + intros _. repeat split.
    + intros Hout. exfalso. apply Hout. apply supplementary_range. exact Hkin.
  - destruct (Hall k t' Ht) as [Hg Hp].
    split; [exact Hg |]. split.
    + intros Hrange. exfalso. apply Hkout. apply supplementary_range. exact Hrange.
    + intros _. exact Hp.
Qed.

Lemma mch_box_mmu (w : data_dir) (tape : list nat) (gene level : string)
  (outliers : bool) (chart : box_chart) :
  get_mch_box w tape "mmu" gene level outliers = Ok chart ->
  exists points colors,
    get_gene_mch w "mmu" gene outliers = Ok points
    /\ generate_cluster_colors tape 16 = Ok colors
    /\ NoDup (map fst (bx_traces chart))
    /\ (forall i, 17 <= i <= 22 -> In i (map fst (bx_traces chart)))
    /\ forall k t, In (k, t) (bx_traces chart) ->
         box_group points k
         /\ (17 <= k <= 22 -> box_secondary t)
         /\ (~ 17 <= k <= 22 -> box_primary colors t).
Proof.
  intros H. unfold get_mch_box in H.
  unbind H. rename v into points, E into Hpoints.
  destruct points as [| p0 ps]; [discriminate H |].
  set (points := p0 :: ps) in *. clearbody points. clear p0 ps.
  unbind H. rename v into keys. clear E.
  rewrite cap_max_cluster_mmu in H.
  unbind H. rename v into colors, E into Hcolors.
  unbind H. rename v into traces0, E into Hloop.
  unbind H. rename v into traces, E into Hpass.
  change (String.eqb "mmu" "mmu") with true in Hpass. cbv iota in Hpass.
  do 2 unbind H. injection H as <-. simpl bx_traces.
  exists points, colors. split; [exact Hpoints |]. split; [exact Hcolors |].
  (* the grouping loop *)
  pose (Q := fun (k : Z) (t : Box.t) => box_group points k /\ box_primary colors t).
  assert (Hinv : NoDup (map fst traces0) /\ forall k t, In (k, t) traces0 -> Q k t).
  { apply (for_each_inv
             (fun s => NoDup (map fst s) /\ forall k t, In (k, t) s -> Q k t)
             _ _ _ _ Hloop).
    - split; [constructor | intros k t []].
    - intros point s1 s2 Hpoint [Hnd Hall] Hbody.
      do 3 unbind Hbody.
      apply (setdefault_update_inv Q _ _ _ _ _ Hbody Hnd Hall).
      + split.
        * exists point. split; [exact Hpoint |].
          unfold record_cluster in E1.
          destruct (cluster_ordered point); [congruence | discriminate].
        * repeat split. simpl. eapply py_index_In; eassumption.
      + intros t [Hg (Hv & Hc & Ho)]. split; [exact Hg |].
        repeat split; assumption. }
  destruct Hinv as [Hnd Hall].
  (* the loop over range(17,23,1) *)
  destruct (update_pass
              (fun traces i => update i Box.restyle traces)
              (fun _ => Box.restyle)
              [17; 18; 19; 20; 21; 22] traces0 traces)
    as (Hkeys & Hincl & Hin).
  { reflexivity. }
  { exact Hpass. }
  { exact Hnd. }
  { exact supplementary_NoDup. }
  split; [rewrite Hkeys; exact Hnd |].
  split.
  { intros i Hi. rewrite Hkeys. apply Hincl. apply supplementary_range. exact Hi. }
  intros k t' Hk.
  destruct (Hin k t' Hk) as [(Hkin & t & Ht & ->) | (Hkout & Ht)].
  - destruct (Hall k t Ht) as [Hg _].
    split; [exact Hg |]. split.
    + intros _. repeat split.
    + intros Hout. exfalso. apply Hout. apply supplementary_range. exact Hkin.
  - destruct (Hall k t' Ht) as [Hg Hp].
    split; [exact Hg |]. split.
    + intros Hrange. exfalso. apply Hkout. apply supplementary_range. exact Hrange.
    + intros _. exact Hp.
Qed.

(** C8: for species ["mmu"] the cluster scatter and the single-species box
    plot set the cluster count to 16 whatever the data holds (the palette
    has 16 colours and the scatter's group index is
    [cluster + 16 * (biosample - 1)]), and whenever they succeed the groups
    indexed 17 to 22 are all there and are the ones, and the only ones, with
    the secondary look: size 15, black and legend-only in the scatter, black
    and legend-only in the box plot.  Every other group is visible, in a
    palette colour, none of which is black. *)
Theorem mmu_cap_and_secondary_treatment
  (w : data_dir) (tape : list nat) (grouping gene level : string)
  (outliers : bool) :
  (forall observed, cap_max_cluster "mmu" observed = 16)
  /\ (forall traces,
        get_cluster_plot w tape "mmu" grouping = Ok traces ->
        exists points colors,
          get_cluster_points w "mmu" = Some points
          /\ generate_cluster_colors tape 16 = Ok colors
          /\ List.length colors = 16%nat
          /\ (forall c, In c colors -> c <> "black")
          /\ (forall i, 17 <= i <= 22 -> In i (map fst traces))
          /\ forall k t, In (k, t) traces ->
               scatter_group points 16 k
               /\ (17 <= k <= 22 <-> scatter_secondary t)
               /\ (~ 17 <= k <= 22 <-> scatter_primary colors t))
  /\ (forall chart,
        get_mch_box w tape "mmu" gene level outliers = Ok chart ->
        exists points colors,
          get_gene_mch w "mmu" gene outliers = Ok points
          /\ generate_cluster_colors tape 16 = Ok colors
          /\ List.length colors = 16%nat
          /\ (forall c, In c colors -> c <> "black")
          /\ (forall i, 17 <= i <= 22 -> In i (map fst (bx_traces chart)))
          /\ forall k t, In (k, t) (bx_traces chart) ->
               box_group points k
               /\ (17 <= k <= 22 <-> box_secondary t)
               /\ (~ 17 <= k <= 22 <-> box_primary colors t)).
Proof.
  split; [exact cap_max_cluster_mmu |].
  split.
  - intros traces H.
    destruct (cluster_plot_mmu w tape grouping traces H)
      as (points & colors & Hpoints & Hcolors & _ & Hkeys & Hall).
    destruct (generate_cluster_colors_Ok tape 16 colors Hcolors) as [Hlen Hhsl].
    exists points, colors.
    split; [exact Hpoints |]. split; [exact Hcolors |]. split; [lia |].
    split.
    { intros c Hc. destruct (Hhsl c Hc) as (h & ->). apply hsl_not_black. }
    split; [exact Hkeys |].
    intros k t Hk. destruct (Hall k t Hk) as (Hg & Hsec & Hpri).
    split; [exact Hg |].
    assert (Hdec : 17 <= k <= 22 \/ ~ 17 <= k <= 22) by lia.
    split; (split; [assumption |]).
    + intros (Hv & _). destruct Hdec as [Hin | Hout]; [exact Hin |].
      destruct (Hpri Hout) as (Hv' & _). congruence.
    + intros (Hv & _) Hin. destruct (Hsec Hin) as (Hv' & _). congruence.
  - intros chart H.
    destruct (mch_box_mmu w tape gene level outliers chart H)
      as (points & colors & Hpoints & Hcolors & _ & Hkeys & Hall).
    destruct (generate_cluster_colors_Ok tape 16 colors Hcolors) as [Hlen Hhsl].
    exists points, colors.
    split; [exact Hpoints |]. split; [exact Hcolors |]. split; [lia |].
    split.
    { intros c Hc. destruct (Hhsl c Hc) as (h & ->). apply hsl_not_black. }
    split; [exact Hkeys |].
    intros k t Hk. destruct (Hall k t Hk) as (Hg & Hsec & Hpri).
    split; [exact Hg |].
    assert (Hdec : 17 <= k <= 22 \/ ~ 17 <= k <= 22) by lia.
    split; (split; [assumption |]).
    + intros (Hv & _). destruct Hdec as [Hin | Hout]; [exact Hin |].
      destruct (Hpri Hout) as (Hv' & _). congruence.
    + intros (Hv & _) Hin. destruct (Hsec Hin) as (Hv' & _). congruence.
Qed.

Lemma mmu_cap_and_secondary_treatment_example :
  (exists traces,
      get_cluster_plot second_biosample [] "mmu" "cluster" = Ok traces
      /\ map fst traces = [17; 18; 19; 20; 21; 22; 3]
      /\ forall k t, In (k, t) traces -> (17 <= k <= 22 <-> scatter_secondary t))
  /\ (exists chart,
         get_mch_box supplementary_clusters [] "mmu" "ENSMUSG1" "normalized" true
         = Ok chart
         /\ map fst (bx_traces chart) = [3; 17; 18; 19; 20; 21; 22]
         /\ forall k t, In (k, t) (bx_traces chart) ->
              (17 <= k <= 22 <-> box_secondary t)).
Proof.
  destruct (mmu_cap_and_secondary_treatment
              second_biosample [] "cluster" "ENSMUSG1" "normalized" true)
    as (_ & Hscatter & _).
  destruct (mmu_cap_and_secondary_treatment
              supplementary_clusters [] "cluster" "ENSMUSG1" "normalized" true)
    as (_ & _ & Hbox).
  assert (Hrun1 : exists traces,
             get_cluster_plot second_biosample [] "mmu" "cluster" = Ok traces
             /\ map fst traces = [17; 18; 19; 20; 21; 22; 3]).
  { eexists. split; [vm_compute; reflexivity | reflexivity]. }
  assert (Hrun2 : exists chart,
             get_mch_box supplementary_clusters [] "mmu" "ENSMUSG1" "normalized" true
             = Ok chart
             /\ map fst (bx_traces chart) = [3; 17; 18; 19; 20; 21; 22]).
  { eexists. split; [vm_compute; reflexivity | reflexivity]. }
  destruct Hrun1 as (traces & Hrun1 & Hkeys1).
  destruct Hrun2 as (chart & Hrun2 & Hkeys2).
  split.
  - exists traces. split; [exact Hrun1 |]. split; [exact Hkeys1 |].
    intros k t Hk.
    destruct (Hscatter traces Hrun1)
      as (points & colors & _ & _ & _ & _ & _ & Hall).
    exact (proj1 (proj2 (Hall k t Hk))).
  - exists chart. split; [exact Hrun2 |]. split; [exact Hkeys2 |].
    intros k t Hk.
    destruct (Hbox chart Hrun2)
      as (points & colors & _ & _ & _ & _ & _ & Hall).
    exact (proj1 (proj2 (Hall k t Hk))).
Defined.

(** A mouse data set without one of the groups 17 to 22 makes both
    builders raise [KeyError]. *)
Remark mmu_without_supplementary_groups :
  get_cluster_plot five_cells [] "mmu" "cluster" = Raise KeyError
  /\ get_mch_box five_cells [] "mmu" "ENSMUSG1" "normalized" true = Raise KeyError.
Proof. split; vm_compute; reflexivity. Qed.

(** * Further properties of the module *)

(** ** The joiner: order, empty results, outliers *)

Lemma cluster_le_total (a b : option Z) :
  cluster_le a b = false -> cluster_le b a = true.
Proof.
  destruct a as [x |], b as [y |]; simpl; try discriminate; try reflexivity.
  intros H. apply Z.leb_gt in H. apply Z.leb_le. lia.
Qed.

Lemma cluster_le_trans (a b c : option Z) :
  cluster_le a b = true -> cluster_le b c = true -> cluster_le a c = true.
Proof.
  destruct a as [x |], b as [y |], c as [z |]; simpl; try discriminate;
    try reflexivity.
  intros H1 H2. apply Z.leb_le in H1, H2. apply Z.leb_le. lia.
Qed.

Lemma insert_point_sorted (p : point (option Z)) (l : list (point (option Z))) :
  Sorted cluster_before l -> Sorted cluster_before (insert_point p l).
Proof.
  induction l as [| h t IH]; simpl; intros Hs.
  - constructor; constructor.
  - destruct (cluster_le (cluster_ordered p) (cluster_ordered h)) eqn:E.
    + constructor; [exact Hs | constructor; exact E].
    + apply Sorted_inv in Hs. destruct Hs as [Ht Hh].
      constructor; [exact (IH Ht) |].
      destruct t as [| h2 t2]; simpl.
      * constructor. apply cluster_le_total. exact E.
      * destruct (cluster_le (cluster_ordered p) (cluster_ordered h2)).
        -- constructor. apply cluster_le_total. exact E.
        -- constructor. inversion Hh; subst. assumption.
Qed.

Lemma sort_values_sorted (l : list (point (option Z))) :
  Sorted cluster_before (sort_values l).
Proof.
  induction l as [| p t IH]; simpl; [constructor |].
  apply insert_point_sorted. exact IH.
Qed.

(** X1: whatever [get_gene_mch] returns is in ascending order of
    [cluster_ordered], the records whose cluster number is not a number
    last: each record comes before all the records after it. *)
Theorem get_gene_mch_sorted
  (w : data_dir) (species gene : string) (outliers : bool)
  (recs : list (point (option Z))) :
  get_gene_mch w species gene outliers = Ok recs ->
  StronglySorted cluster_before recs.
Proof.
  intros H. rewrite get_gene_mch_steps in H.
  do 2 unbind H. injection H as <-.
  apply Sorted_StronglySorted.
  - intros a b c. apply cluster_le_trans.
  - apply sort_values_sorted.
Qed.

Lemma get_gene_mch_sorted_example :
  exists recs,
    get_gene_mch partly_measured "mmu" "ENSMUSG1" true = Ok recs
    /\ map cluster_ordered recs = [Some 1; Some 1; Some 2]
    /\ StronglySorted cluster_before recs.
Proof.
  assert (Hrun : exists recs,
             get_gene_mch partly_measured "mmu" "ENSMUSG1" true = Ok recs
             /\ map cluster_ordered recs = [Some 1; Some 1; Some 2]).
  { eexists. split; [vm_compute; reflexivity | reflexivity]. }
  destruct Hrun as (recs & Hrun & Hkeys).
  exists recs. split; [exact Hrun |]. split; [exact Hkeys |].
  exact (get_gene_mch_sorted _ _ _ _ _ Hrun).
Defined.

Lemma map_result_length {A B : Type} (f : A -> result B) (l : list A) (ys : list B) :
  map_result f l = Ok ys -> List.length ys = List.length l.
Proof.
  intros H. apply map_result_Ok in H.
  induction H; simpl; congruence.
Qed.

(** X2: with outliers included, [get_gene_mch] returns the empty list in
    three cases and no other: the species directory is not there, [glob]
    lists no file for the gene, or the file it lists first cannot be found
    when it is read.  A file that is read never joins to nothing. *)
Theorem get_gene_mch_empty_iff_missing (w : data_dir) (species gene : string) :
  get_gene_mch w species gene true = Ok []
  <-> species_exists w species = false
      \/ gene_exists w species gene = false
      \/ exists filename rest,
           glob_mch w species gene = filename :: rest
           /\ read_csv w filename = None.
Proof.
  split.
  - intros H.
    destruct (species_exists w species) eqn:Es; [| left; reflexivity].
    destruct (gene_exists w species gene) eqn:Eg; [| right; left; reflexivity].
    right. right.
    rewrite get_gene_mch_steps in H.
    unbind H. rename v into df, E into Hdf. simpl in H. injection H as H.
    assert (Hlen : List.length (by_cluster_ordered df) = 0%nat) by (rewrite H; reflexivity).
    rewrite by_cluster_ordered_length in Hlen.
    unfold dataframe_merged in Hdf. rewrite Es, Eg in Hdf. simpl in Hdf.
    unfold gene_exists in Eg.
    destruct (glob_mch w species gene) as [| filename rest]; [discriminate Eg |].
    exists filename, rest. split; [reflexivity |].
    destruct (read_csv w filename) as [mch |]; [exfalso | reflexivity].
    unbind Hdf. rename v into left, E into Hleft.
    assert (Hge : (List.length left <= List.length df)%nat).
    { unfold merge in Hdf.
      destruct (samp_dtype mch); try discriminate Hdf;
        injection Hdf as <-; apply merge_left_never_drops. }
    unfold select_columns in Hleft.
    destruct (get_cluster_points w species) as [[| p ps] |]; try discriminate Hleft.
    apply map_result_length in Hleft. simpl in Hleft. lia.
  - intros [H | [H | (filename & rest & Hglob & Hread)]].
    + unfold get_gene_mch. rewrite H. reflexivity.
    + unfold get_gene_mch. rewrite H, orb_true_r. reflexivity.
    + unfold get_gene_mch. rewrite Hglob, Hread.
      destruct (negb (species_exists w species) || negb (gene_exists w species gene));
        reflexivity.
Qed.

Lemma Permutation_filter_compat {A : Type} (f : A -> bool) (l l' : list A) :
  Permutation l l' -> Permutation (filter f l) (filter f l').
Proof.
  induction 1 as [| x l l' _ IH | x y l | l l' l'' _ IH1 _ IH2]; simpl.
  - constructor.
  - destruct (f x); [apply perm_skip |]; exact IH.
  - destruct (f x), (f y); try apply Permutation_refl. apply perm_swap.
  - exact (perm_trans IH1 IH2).
Qed.

Lemma filter_map_commute {A B : Type} (f : A -> B) (g : B -> bool) (l : list A) :
  filter g (map f l) = map f (filter (fun x => g (f x)) l).
Proof.
  induction l as [| x t IH]; simpl; [reflexivity |].
  destruct (g (f x)); simpl; rewrite IH; reflexivity.
Qed.

(** X3: leaving outliers out changes nothing but which records are there:
    the result is, up to the order of the final sort, the result with
    outliers restricted to the records whose normalized value is below the
    99th percentile of the merged frame.  No record below it is lost. *)
Theorem without_outliers_is_a_filter
  (w : data_dir) (species gene : string) (all recs : list (point (option Z))) :
  get_gene_mch w species gene true = Ok all ->
  get_gene_mch w species gene false = Ok recs ->
  exists df,
    dataframe_merged w species gene = Ok df
    /\ Permutation recs
         (filter (below (interpolate (map normalized df) (99 # 100))) all).
Proof.
  intros Hall Hrecs. rewrite get_gene_mch_steps in *.
  unbind Hall. rename v into df, E into Hdf. rewrite Hdf in Hrecs.
  simpl in Hall, Hrecs. injection Hall as <-. injection Hrecs as <-.
  exists df. split; [exact Hdf |].
  set (q := interpolate (map normalized df) (99 # 100)).
  apply perm_trans with (map numeric (filter (below_percentile df) df)).
  { apply by_cluster_ordered_perm. }
  apply perm_trans with (filter (below q) (map numeric df)).
  { rewrite filter_map_commute. apply Permutation_refl. }
  apply Permutation_filter_compat. apply Permutation_sym.
  apply by_cluster_ordered_perm.
Qed.

Lemma without_outliers_is_a_filter_example :
  exists all recs,
    get_gene_mch five_cells "mmu" "ENSMUSG1" true = Ok all
    /\ get_gene_mch five_cells "mmu" "ENSMUSG1" false = Ok recs
    /\ map samp all = ["s1"; "s2"; "s3"; "s4"; "s5"]
    /\ map samp recs = ["s1"; "s2"; "s3"; "s4"]
    /\ exists df,
        dataframe_merged five_cells "mmu" "ENSMUSG1" = Ok df
        /\ Permutation recs
             (filter (below (interpolate (map normalized df) (99 # 100))) all).
Proof.
  assert (Hrun : exists all recs,
             get_gene_mch five_cells "mmu" "ENSMUSG1" true = Ok all
             /\ get_gene_mch five_cells "mmu" "ENSMUSG1" false = Ok recs
             /\ map samp all = ["s1"; "s2"; "s3"; "s4"; "s5"]
             /\ map samp recs = ["s1"; "s2"; "s3"; "s4"]).
  { eexists. eexists. split; [vm_compute; reflexivity |].
    split; [vm_compute; reflexivity |]. split; reflexivity. }
  destruct Hrun as (all & recs & Hall & Hrecs & Hs1 & Hs2).
  exists all, recs. repeat (split; [assumption |]).
  exact (without_outliers_is_a_filter _ _ _ _ _ Hall Hrecs).
Defined.

(** ** Lookup helpers: what is found *)

Lemma add_unseen_In (c x : string * Z) (clusters : list (string * Z)) :
  In x (add_unseen c clusters) <-> x = c \/ In x clusters.
Proof.
  induction clusters as [| [s n] t IH]; simpl.
  - split; [intros [H | []]; left; congruence | intros [H | []]; left; congruence].
  - destruct (String.eqb_spec (fst c) s) as [Hs | Hs];
      destruct (Z.eqb_spec (snd c) n) as [Hn | Hn]; simpl.
    + split; [intros H; right; exact H |].
      intros [-> | H]; [| exact H]. left. destruct c. simpl in *. congruence.
    + rewrite IH. tauto.
    + rewrite IH. tauto.
    + rewrite IH. tauto.
Qed.

Lemma add_unseen_NoDup (c : string * Z) (clusters : list (string * Z)) :
  NoDup clusters -> NoDup (add_unseen c clusters).
Proof.
  induction clusters as [| [s n] t IH]; simpl; intros Hnd.
  - constructor; [intros [] | constructor].
  - inversion Hnd as [| ? ? Hnotin Hnd']; subst.
    destruct (String.eqb_spec (fst c) s) as [Hs | Hs];
      destruct (Z.eqb_spec (snd c) n) as [Hn | Hn]; simpl; try exact Hnd;
      (constructor; [| exact (IH Hnd')]);
      intros Hin; apply add_unseen_In in Hin;
      (destruct Hin as [Heq | Hin]; [subst c; simpl in *; congruence | contradiction]).
Qed.

(** X5: [get_ortholog_cluster_order] lists every mouse cluster and every
    human cluster of the correspondence table, nothing else, and none of
    them twice; without the file it is empty. *)
Theorem get_ortholog_cluster_order_spec (w : data_dir) :
  NoDup (get_ortholog_cluster_order w)
  /\ (mm_hs_homologous_cluster w = None -> get_ortholog_cluster_order w = [])
  /\ forall df, mm_hs_homologous_cluster w = Some df ->
       forall s n,
         In (s, n) (get_ortholog_cluster_order w)
         <-> (s = "mmu" /\ In n (map fst df)) \/ (s = "hsa" /\ In n (map snd df)).
Proof.
  unfold get_ortholog_cluster_order.
  destruct (mm_hs_homologous_cluster w) as [df |].
  2: { split; [constructor |]. split; [reflexivity | discriminate]. }
  assert (Hgen : forall (rows : list (Z * Z)) (acc : list (string * Z)),
             NoDup acc ->
             NoDup (fold_left
                      (fun clusters row =>
                         add_unseen ("hsa", snd row)
                                    (add_unseen ("mmu", fst row) clusters))
                      rows acc)
             /\ forall x,
                 In x (fold_left
                         (fun clusters row =>
                            add_unseen ("hsa", snd row)
                                       (add_unseen ("mmu", fst row) clusters))
                         rows acc)
                 <-> In x acc
                     \/ exists row, In row rows
                          /\ (x = ("mmu", fst row) \/ x = ("hsa", snd row))).
  { induction rows as [| row rows IH]; intros acc Hacc; simpl.
    - split; [exact Hacc |]. intros x. split; [auto |].
      intros [H | (row & [] & _)]. exact H.
    - destruct (IH (add_unseen ("hsa", snd row) (add_unseen ("mmu", fst row) acc)))
        as [Hnd Hin].
      { apply add_unseen_NoDup, add_unseen_NoDup, Hacc. }
      split; [exact Hnd |].
      intros x. rewrite Hin, !add_unseen_In. split.
      + intros [[H | [H | H]] | (r & Hr & Hx)].
        * right. exists row. split; [left; reflexivity | right; exact H].
        * right. exists row. split; [left; reflexivity | left; exact H].
        * left. exact H.
        * right. exists r. split; [right; exact Hr | exact Hx].
      + intros [H | (r & [<- | Hr] & Hx)].
        * left. right. right. exact H.
        * left. destruct Hx as [Hx | Hx]; [right; left; exact Hx | left; exact Hx].
        * right. exists r. split; assumption. }
  destruct (Hgen df [] (NoDup_nil _)) as [Hnd Hin].
  split; [exact Hnd |]. split; [discriminate |].
  intros df' Hdf s n. injection Hdf as <-.
  rewrite Hin. split.
  - intros [[] | (row & Hrow & [Hx | Hx])]; injection Hx as -> ->.
    + left. split; [reflexivity | apply in_map; exact Hrow].
    + right. split; [reflexivity | apply in_map; exact Hrow].
  - intros [[-> Hn] | [-> Hn]]; apply in_map_iff in Hn;
      destruct Hn as (row & <- & Hrow); right; exists row.
    + split; [exact Hrow | left; reflexivity].
    + split; [exact Hrow | right; reflexivity].
Qed.

(** What [fetchone] returns on a filtered table: the first row that passes
    the test, or nothing when no row does. *)
Lemma fetchone_filter {A : Type} (f : A -> bool) (l : list A) :
  match fetchone (filter f l) with
  | None => forall x, In x l -> f x = false
  | Some r => exists pre post,
                l = pre ++ r :: post /\ f r = true
                /\ forall x, In x pre -> f x = false
  end.
Proof.
  induction l as [| h t IH]; simpl.
  - intros x [].
  - destruct (f h) eqn:E; simpl.
    + exists [], t. repeat split; [exact E | intros x []].
    + destruct (fetchone (filter f t)) as [r |].
      * destruct IH as (pre & post & -> & Hr & Hpre).
        exists (h :: pre), post. repeat split; [exact Hr |].
        intros x [<- | Hx]; [exact E | exact (Hpre x Hx)].
      * intros x [<- | Hx]; [exact E | exact (IH x Hx)].
Qed.

(** X6: what [find_orthologs] answers.  Without any ID it is the null
    pair.  Otherwise the table is searched on the mouse column when a mouse
    ID is given and on the human column when only a human ID is: the answer
    is the first row of the table with the ID in that column, and the null
    pair when no row has it. *)
Theorem find_orthologs_answer (w : data_dir) (mmu_gid hsa_gid : string) :
  (truthy mmu_gid = false -> truthy hsa_gid = false ->
   find_orthologs w mmu_gid hsa_gid = null_pair)
  /\ (truthy mmu_gid || truthy hsa_gid = true ->
      (find_orthologs w mmu_gid hsa_gid = null_pair
       /\ forall row, In row (orthologs w) -> queried mmu_gid hsa_gid row = false)
      \/ (exists pre post,
             orthologs w = pre ++ find_orthologs w mmu_gid hsa_gid :: post
             /\ (if truthy mmu_gid
                 then mmu_gID (find_orthologs w mmu_gid hsa_gid) = Some mmu_gid
                 else hsa_gID (find_orthologs w mmu_gid hsa_gid) = Some hsa_gid)
             /\ forall row, In row pre -> queried mmu_gid hsa_gid row = false)).
Proof.
  split.
  - intros Hm Hh. unfold find_orthologs. rewrite Hm, Hh. reflexivity.
  - intros Hor. unfold find_orthologs.
    assert (Hneg : negb (truthy mmu_gid) && negb (truthy hsa_gid) = false).
    { destruct (truthy mmu_gid), (truthy hsa_gid); try reflexivity; discriminate. }
    rewrite Hneg.
    assert (Hsame : filter
                      (fun r => option_eqb
                                  ((if String.eqb (if truthy mmu_gid then "mmu_gID" else "hsa_gID")
                                                  "mmu_gID"
                                    then mmu_gID else hsa_gID) r)
                                  (if truthy mmu_gid then mmu_gid else hsa_gid))
                      (orthologs w)
                    = filter (queried mmu_gid hsa_gid) (orthologs w)).
    { apply filter_ext. intros r. unfold queried.
      destruct (truthy mmu_gid); reflexivity. }
    cbv zeta. rewrite Hsame.
    pose proof (fetchone_filter (queried mmu_gid hsa_gid) (orthologs w)) as H.
    destruct (fetchone (filter (queried mmu_gid hsa_gid) (orthologs w))) as [r |].
    + right. destruct H as (pre & post & Heq & Hr & Hpre).
      exists pre, post. split; [exact Heq |]. split; [| exact Hpre].
      unfold queried, option_eqb in Hr.
      destruct (truthy mmu_gid).
      * destruct (mmu_gID r) as [s |]; [| discriminate].
        apply String.eqb_eq in Hr. congruence.
      * destruct (hsa_gID r) as [s |]; [| discriminate].
        apply String.eqb_eq in Hr. congruence.
    + left. split; [reflexivity | exact H].
Qed.

Lemma find_orthologs_answer_example :
  find_orthologs (dir_of []) "" "ENSG2"
  = {| mmu_gID := Some "ENSMUSG2"; hsa_gID := Some "ENSG2" |}
  /\ find_orthologs (dir_of []) "" "" = null_pair
  /\ find_orthologs (dir_of []) "ENSMUSG7" "ENSG2" = null_pair.
Proof.
  destruct (find_orthologs_answer (dir_of []) "" "ENSG2") as [_ H1].
  destruct (find_orthologs_answer (dir_of []) "" "") as [H2 _].
  destruct (find_orthologs_answer (dir_of []) "ENSMUSG7" "ENSG2") as [_ H3].
  split; [| split].
  - destruct (H1 eq_refl) as [[Hnull _] | _]; reflexivity.
  - exact (H2 eq_refl eq_refl).
  - destruct (H3 eq_refl) as [[Hnull _] | (pre & post & _ & Hid & _)].
    + exact Hnull.
    + vm_compute in Hid. discriminate Hid.
Defined.

Lemma sql_like_any (s : string) : sql_like "%" s = true.
Proof.
  induction s as [| c t IH]; [reflexivity |].
  simpl in *. exact IH.
Qed.

(** [LIKE query%] for a query without wildcards: the string starts with
    the query, letters compared without regard to case. *)
Lemma sql_like_prefix (query s : string) :
  no_wildcard query = true ->
  sql_like (query ++ "%") s = prefix_nocase query s.
Proof.
  revert s. induction query as [| c q IH]; intros s Hq.
  - apply sql_like_any.
  - simpl in Hq. apply andb_true_iff in Hq. destruct Hq as [Hc Hq].
    apply andb_true_iff in Hc. destruct Hc as [Hpc Hus].
    apply negb_true_iff in Hpc, Hus.
    change (String c q ++ "%")%string with (String c (q ++ "%")).
    cbn [sql_like prefix_nocase]. rewrite Hpc, Hus.
    destruct s as [| d s']; [reflexivity |].
    rewrite (IH s' Hq). reflexivity.
Qed.

(** X7: for a query without [%] and [_], [search_gene_names] returns, in
    the order of the table, the first fifty genes whose name starts with the
    query, upper and lower case letters taken as the same; an unknown
    species has none. *)
Theorem search_gene_names_prefix (w : data_dir) (species query : string) :
  no_wildcard query = true ->
  search_gene_names w species query
  = firstn 50 (filter (fun g => prefix_nocase query (geneName g))
                      (gene_names_table w species))
  /\ (List.length (search_gene_names w species query) <= 50)%nat
  /\ (species_exists w species = false -> search_gene_names w species query = []).
Proof.
  intros Hq.
  assert (Heq : search_gene_names w species query
                = firstn 50 (filter (fun g => prefix_nocase query (geneName g))
                                    (gene_names_table w species))).
  { unfold search_gene_names, gene_names_table, species_exists.
    destruct (find_species species (species_dirs w)) as [d |]; [| reflexivity].
    cbn [negb]. f_equal. apply filter_ext. intros g. apply sql_like_prefix. exact Hq. }
  split; [exact Heq |]. split.
  - rewrite Heq. apply firstn_le_length.
  - intros H. unfold search_gene_names. rewrite H. reflexivity.
Qed.

Lemma search_gene_names_prefix_example :
  search_gene_names five_cells "mmu" "gene" = [{| geneID := "ENSMUSG1"; geneName := "Gene1" |}]
  /\ search_gene_names five_cells "mmu" "gene"
     = firstn 50 (filter (fun g => prefix_nocase "gene" (geneName g))
                         (gene_names_table five_cells "mmu")).
Proof.
  destruct (search_gene_names_prefix five_cells "mmu" "gene" eq_refl) as [H _].
  split; [reflexivity | exact H].
Defined.

(** X8: what [gene_id_to_name] finds.  For a species without a directory
    it returns the empty list.  When it returns a gene, the species
    directory is there and the gene is the first row the table yields whose
    gene ID matches [query%]: no row before it matches, and for a query
    without wildcards its gene ID starts with the query, whatever the case
    of the letters. *)
Theorem gene_id_to_name_answer (w : data_dir) (species query : string) :
  (species_exists w species = false ->
   gene_id_to_name w species query = Ok EmptyList)
  /\ forall g,
       gene_id_to_name w species query = Ok (GeneDict g) ->
       species_exists w species = true
       /\ exists pre post,
            gene_names_table w species = pre ++ g :: post
            /\ sql_like (query ++ "%") (geneID g) = true
            /\ (forall g', In g' pre -> sql_like (query ++ "%") (geneID g') = false)
            /\ (no_wildcard query = true -> prefix_nocase query (geneID g) = true).
Proof.
  unfold gene_id_to_name. split.
  - intros ->. reflexivity.
  - intros g H.
    destruct (species_exists w species); simpl in H; [| discriminate H].
    split; [reflexivity |].
    pose proof (fetchone_filter (fun g => sql_like (query ++ "%") (geneID g))
                                (gene_names_table w species)) as Hf.
    destruct (fetchone _) as [g0 |]; [| discriminate H].
    injection H as <-.
    destruct Hf as (pre & post & Heq & Hg & Hpre).
    exists pre, post. repeat split; try assumption.
    intros Hq. rewrite <- (sql_like_prefix _ _ Hq). exact Hg.
Qed.

Lemma gene_id_to_name_answer_example :
  gene_id_to_name genes_ab "mmu" "ensmusg"
  = Ok (GeneDict {| geneID := "ENSMUSG1"; geneName := "Gene1" |})
  /\ prefix_nocase "ensmusg" "ENSMUSG1" = true
  /\ gene_id_to_name genes_ab "rat" "ensmusg" = Ok EmptyList.
Proof.
  destruct (gene_id_to_name_answer genes_ab "mmu" "ensmusg") as [_ Hfound].
  destruct (gene_id_to_name_answer genes_ab "rat" "ensmusg") as [Hnone _].
  split; [reflexivity |].
  split.
  - destruct (Hfound {| geneID := "ENSMUSG1"; geneName := "Gene1" |} eq_refl)
      as (_ & pre & post & _ & _ & _ & Hprefix).
    exact (Hprefix eq_refl).
  - exact (Hnone eq_refl).
Defined.

(** ** The colour scale *)

Lemma Qltb_ge (a b : Q) : Qltb a b = false <-> (b <= a)%Q.
Proof.
  unfold Qltb. rewrite negb_false_iff. apply Qle_bool_iff.
Qed.

(** X9: [set_color_by_percentile] maps NaN to ['grey'] and a number to a
    number, and for bounds in order it clamps: the result lies between the
    two bounds, is the value itself when the value does, the lower bound when
    the value is below it and the upper bound when the value is above it. *)
Theorem set_color_by_percentile_clamps (this start end_ : Q) :
  (start <= end_)%Q ->
  set_color_by_percentile None (Some start) (Some end_) = grey
  /\ exists c,
      set_color_by_percentile (Some this) (Some start) (Some end_) = level_of c
      /\ (start <= c <= end_)%Q
      /\ ((start <= this <= end_)%Q -> c = this)
      /\ ((this < start)%Q -> c = start)
      /\ ((end_ < this)%Q -> c = end_).
Proof.
  intros Hse. split; [reflexivity |].
  unfold set_color_by_percentile, nan_lt.
  destruct (Qltb this start) eqn:E1.
  - apply Qltb_lt in E1. exists start. split; [reflexivity |].
    split; [split; [apply Qle_refl | exact Hse] |].
    split; [intros [H _]; exfalso; exact (Qlt_not_le _ _ E1 H) |].
    split; [reflexivity |].
    intros H. exfalso. apply (Qlt_irrefl this).
    apply Qlt_le_trans with start; [exact E1 |].
    apply Qle_trans with end_; [exact Hse | apply Qlt_le_weak; exact H].
  - apply Qltb_ge in E1.
    destruct (Qltb end_ this) eqn:E2.
    + apply Qltb_lt in E2. exists end_. split; [reflexivity |].
      split; [split; [exact Hse | apply Qle_refl] |].
      split; [intros [_ H]; exfalso; exact (Qlt_not_le _ _ E2 H) |].
      split; [| reflexivity].
      intros H. exfalso. exact (Qlt_not_le _ _ H E1).
    + apply Qltb_ge in E2. exists this. split; [reflexivity |].
      split; [split; assumption |].
      split; [reflexivity |].
      split; intros H; exfalso;
        [exact (Qlt_not_le _ _ H E1) | exact (Qlt_not_le _ _ H E2)].
Qed.

Lemma set_color_by_percentile_clamps_example :
  set_color_by_percentile (Some 7%Q) (Some 1%Q) (Some 5%Q) = level_of 5
  /\ set_color_by_percentile (Some (1 # 2)) (Some 1%Q) (Some 5%Q) = level_of 1
  /\ set_color_by_percentile (Some 3%Q) (Some 1%Q) (Some 5%Q) = level_of 3.
Proof.
  assert (H15 : (1 <= 5)%Q) by (vm_compute; discriminate).
  destruct (set_color_by_percentile_clamps 7 1 5 H15)
    as (_ & c1 & H1 & _ & _ & _ & Hc1).
  destruct (set_color_by_percentile_clamps (1 # 2) 1 5 H15)
    as (_ & c2 & H2 & _ & _ & Hc2 & _).
  destruct (set_color_by_percentile_clamps 3 1 5 H15)
    as (_ & c3 & H3 & _ & Hc3 & _ & _).
  rewrite H1, H2, H3.
  rewrite Hc1 by reflexivity. rewrite Hc2 by reflexivity.
  rewrite Hc3 by (split; vm_compute; discriminate).
  repeat split.
Defined.

Lemma insert_Q_sorted (x : Q) (l : list Q) :
  Sorted Qle l -> Sorted Qle (insert_Q x l).
Proof.
  induction l as [| h t IH]; simpl; intros Hs.
  - constructor; constructor.
  - destruct (Qle_bool x h) eqn:E.
    + constructor; [exact Hs | constructor; apply Qle_bool_iff; exact E].
    + assert (Hhx : (h <= x)%Q).
      { apply Qlt_le_weak. apply Qltb_lt. unfold Qltb. rewrite E. reflexivity. }
      apply Sorted_inv in Hs. destruct Hs as [Ht Hh].
      constructor; [exact (IH Ht) |].
      destruct t as [| h2 t2]; simpl.
      * constructor. exact Hhx.
      * destruct (Qle_bool x h2).
        -- constructor. exact Hhx.
        -- constructor. inversion Hh; subst. assumption.
Qed.

Lemma sort_Q_sorted (l : list Q) : StronglySorted Qle (sort_Q l).
Proof.
  apply Sorted_StronglySorted.
  - intros a b c. apply Qle_trans.
  - induction l as [| x t IH]; simpl; [constructor |].
    apply insert_Q_sorted. exact IH.
Qed.

Lemma sorted_head_least (x : Q) (rest : list Q) :
  StronglySorted Qle (x :: rest) -> forall v, In v (x :: rest) -> (x <= v)%Q.
Proof.
  intros Hs v [<- | Hv]; [apply Qle_refl |].
  apply StronglySorted_inv in Hs. destruct Hs as [_ Hall].
  rewrite Forall_forall in Hall. exact (Hall v Hv).
Qed.

Lemma sorted_last_greatest (l : list Q) (d : Q) :
  StronglySorted Qle l ->
  forall v, In v l -> (v <= nth (List.length l - 1) l d)%Q.
Proof.
  induction l as [| h t IH]; intros Hs v Hv; [contradiction |].
  apply StronglySorted_inv in Hs. destruct Hs as [Ht Hall].
  destruct t as [| h2 t2].
  - destruct Hv as [<- | []]. apply Qle_refl.
  - replace (List.length (h :: h2 :: t2) - 1)%nat
      with (S (List.length (h2 :: t2) - 1)) by (simpl; lia).
    change (nth (S (List.length (h2 :: t2) - 1)) (h :: h2 :: t2) d)
      with (nth (List.length (h2 :: t2) - 1) (h2 :: t2) d).
    destruct Hv as [<- | Hv].
    + rewrite Forall_forall in Hall. apply Hall.
      apply nth_In. simpl. lia.
    + exact (IH Ht v Hv).
Qed.

(** The quantile at 0 is the least value and the quantile at 1 the
    greatest. *)
Lemma interpolate_0_least (values : list (option Q)) (v : Q) :
  In (Some v) values ->
  exists lo, interpolate values 0 = Some lo /\ (lo <= v)%Q.
Proof.
  intros Hv. unfold interpolate.
  assert (Hin : In v (sort_Q (dropna values))).
  { apply (Permutation_in v (Permutation_sym (sort_Q_perm _))).
    apply dropna_In. exact Hv. }
  pose proof (sort_Q_sorted (dropna values)) as Hs.
  destruct (sort_Q (dropna values)) as [| x rest]; [contradiction |].
  set (position := (0 * (inject_Z (Z.of_nat (List.length (x :: rest))) - 1))%Q).
  assert (Hpos : (position == 0)%Q) by (unfold position; ring).
  assert (Hfloor : Qfloor position = 0%Z) by (rewrite Hpos; reflexivity).
  rewrite Hfloor. eexists. split; [reflexivity |].
  change (nth (Z.to_nat 0) (x :: rest) x) with x.
  apply Qle_trans with x; [| exact (sorted_head_least x rest Hs v Hin)].
  rewrite Hpos. apply Qle_lteq. right. simpl. ring.
Qed.

Lemma interpolate_1_greatest (values : list (option Q)) (v : Q) :
  In (Some v) values ->
  exists hi, interpolate values 1 = Some hi /\ (v <= hi)%Q.
Proof.
  intros Hv. unfold interpolate.
  assert (Hin : In v (sort_Q (dropna values))).
  { apply (Permutation_in v (Permutation_sym (sort_Q_perm _))).
    apply dropna_In. exact Hv. }
  pose proof (sort_Q_sorted (dropna values)) as Hs.
  destruct (sort_Q (dropna values)) as [| x rest] eqn:E; [contradiction |].
  set (sorted := x :: rest) in *.
  set (n := List.length sorted).
  assert (Hn : (1 <= n)%nat) by (unfold n, sorted; simpl; lia).
  set (position := (1 * (inject_Z (Z.of_nat n) - 1))%Q).
  assert (Hpos : (position == inject_Z (Z.of_nat n - 1))%Q).
  { unfold position. unfold Z.sub. rewrite inject_Z_plus. simpl inject_Z at 3. ring. }
  assert (Hfloor : Qfloor position = (Z.of_nat n - 1)%Z).
  { rewrite Hpos. apply Qfloor_Z. }
  rewrite Hfloor.
  replace (Z.to_nat (Z.of_nat n - 1)) with (n - 1)%nat by lia.
  set (a := nth (n - 1) sorted x).
  assert (Hb : nth (S (n - 1)) sorted a = a).
  { apply nth_overflow. fold n. lia. }
  rewrite Hb. eexists. split; [reflexivity |].
  apply Qle_trans with a.
  - unfold a, n. apply sorted_last_greatest; assumption.
  - apply Qle_lteq. right. ring.
Qed.

(** X10: with the percentiles 0 and 1 the bounds are the least and the
    greatest value, and no value is clipped: every number keeps its own
    level. *)
Theorem full_range_never_clips (values : list (option Q)) (v : Q) :
  In (Some v) values ->
  exists lo hi,
    quantile values 0 = Ok (Some lo)
    /\ quantile values 1 = Ok (Some hi)
    /\ (lo <= v <= hi)%Q
    /\ set_color_by_percentile (Some v) (Some lo) (Some hi) = level_of v.
Proof.
  intros Hv.
  destruct (interpolate_0_least values v Hv) as (lo & Hlo & Hle).
  destruct (interpolate_1_greatest values v Hv) as (hi & Hhi & Hge).
  exists lo, hi.
  split; [unfold quantile; simpl; rewrite Hlo; reflexivity |].
  split; [unfold quantile; simpl; rewrite Hhi; reflexivity |].
  split; [split; assumption |].
  unfold set_color_by_percentile, nan_lt.
  rewrite (proj2 (Qltb_ge v lo) Hle), (proj2 (Qltb_ge hi v) Hge). reflexivity.
Qed.

Lemma full_range_never_clips_example :
  exists lo hi,
    quantile one_to_hundred 0 = Ok (Some lo)
    /\ quantile one_to_hundred 1 = Ok (Some hi)
    /\ (lo <= 100 <= hi)%Q
    /\ set_color_by_percentile (Some 100%Q) (Some lo) (Some hi) = level_of 100.
Proof.
  apply (full_range_never_clips one_to_hundred 100).
  simpl. tauto.
Defined.

(** The four ticks of [arange(start, end, (end - start) / 4)] when the
    bounds differ. *)
Lemma arange_quarters (s e : Q) (ticks : list Q) :
  arange (Some s) (Some e) (nan_map2 Qdiv (nan_map2 Qminus (Some e) (Some s)) (Some 4%Q))
  = Ok ticks ->
  ~ (s == e)%Q
  /\ ticks = map (fun i => (s + inject_Z (Z.of_nat i) * ((e - s) / 4))%Q) [0; 1; 2; 3]%nat.
Proof.
  simpl. destruct (Qeq_bool ((e - s) / 4) 0) eqn:E; [discriminate |].
  apply Qeq_bool_neq in E.
  assert (Hne : ~ (s == e)%Q).
  { intros Heq. apply E. rewrite Heq. field. }
  intros H. injection H as <-. split; [exact Hne |].
  assert (Hfour : ((e - s) / ((e - s) / 4) == inject_Z 4)%Q).
  { change (inject_Z 4) with 4%Q. field. intros Hz. apply Hne. lra. }
  assert (Hceil : Qceiling ((e - s) / ((e - s) / 4)) = 4%Z).
  { rewrite Hfour. apply Qceiling_Z. }
  rewrite Hceil. reflexivity.
Qed.

(** X11: when [get_mch_scatter] returns a chart, the two percentile bounds
    are numbers and differ, there is one colour for each joined record, the
    colour of a record being its clamped value, and the colour bar has five
    ticks: the lower bound, the three points a quarter, a half and three
    quarters of the way up, and the upper bound, the first labelled with [<]
    and the last with [>]. *)
Theorem scatter_chart_shape
  (w : data_dir) (species gene level : string) (ptile_start ptile_end : Q)
  (chart : scatter_chart) :
  get_mch_scatter w species gene level ptile_start ptile_end = Ok chart ->
  exists points s e,
    get_gene_mch w species gene true = Ok points
    /\ quantile (map (mch_value level) points) ptile_start = Ok (Some s)
    /\ quantile (map (mch_value level) points) ptile_end = Ok (Some e)
    /\ ~ (s == e)%Q
    /\ sc_x chart = map tsne_x points
    /\ sc_y chart = map tsne_y points
    /\ sc_color chart
       = map (fun p => set_color_by_percentile (mch_value level p) (Some s) (Some e))
             points
    /\ sc_tickvals chart
       = [Some s; Some (s + 1 * ((e - s) / 4))%Q; Some (s + 2 * ((e - s) / 4))%Q;
          Some (s + 3 * ((e - s) / 4))%Q; Some e]
    /\ map fst (sc_ticktext chart) = ["<"; ""; ""; ""; ">"]%string.
Proof.
  intros H. unfold get_mch_scatter in H.
  unbind H. rename v into points, E into Hpoints.
  destruct points as [| p0 ps]; [discriminate H |].
  set (points := p0 :: ps) in *. clearbody points. clear p0 ps.
  unbind H. rename v into start, E into Hstart.
  unbind H. rename v into end_, E into Hend.
  unbind H. rename v into ticks, E into Hticks.
  destruct start as [s |]; [| discriminate Hticks].
  destruct end_ as [e |]; [| discriminate Hticks].
  destruct (arange_quarters s e ticks Hticks) as [Hne ->].
  unbind H. rename v into tickval, E into Htickval.
  unbind H. rename v into ticks', E into Hticks'.
  destruct (arange_quarters s e ticks' Hticks') as [_ ->].
  unbind H. rename v into ticktext, E into Hticktext.
  do 2 unbind H. injection H as <-.
  simpl in Htickval, Hticktext.
  injection Htickval as <-. injection Hticktext as <-.
  exists points, s, e. simpl.
  split; [exact Hpoints |]. split; [exact Hstart |]. split; [exact Hend |].
  split; [exact Hne |].
  split; [reflexivity |]. split; [reflexivity |].
  split; [apply map_map |].
  split; reflexivity.
Qed.

Lemma scatter_chart_shape_example :
  exists chart,
    get_mch_scatter five_cells "mmu" "ENSMUSG1" "normalized" 0 1 = Ok chart
    /\ map fst (sc_ticktext chart) = ["<"; ""; ""; ""; ">"]%string
    /\ List.length (sc_tickvals chart) = 5%nat.
Proof.
  assert (Hrun : exists chart,
             get_mch_scatter five_cells "mmu" "ENSMUSG1" "normalized" 0 1 = Ok chart).
  { eexists. vm_compute. reflexivity. }
  destruct Hrun as (chart & Hrun).
  exists chart. split; [exact Hrun |].
  destruct (scatter_chart_shape _ _ _ _ _ _ _ Hrun)
    as (points & s & e & _ & _ & _ & _ & _ & _ & _ & Hvals & Htext).
  split; [exact Htext |]. rewrite Hvals. reflexivity.
Defined.

(** ** Grouping into traces *)

Lemma for_each_prefix_inv {A S : Type} (I : list A -> S -> Prop)
  (body : S -> A -> result S) :
  forall (l pre : list A) (s s' : S),
    for_each body l s = Ok s' ->
    I pre s ->
    (forall pre x s1 s2, I pre s1 -> body s1 x = Ok s2 -> I (pre ++ [x]) s2) ->
    I (pre ++ l) s'.
Proof.
  induction l as [| x l IH]; simpl; intros pre s s' H Hs Hstep.
  - injection H as <-. rewrite app_nil_r. exact Hs.
  - unbind H.
    replace (pre ++ x :: l) with ((pre ++ [x]) ++ l)
      by (rewrite <- app_assoc; reflexivity).
    apply (IH (pre ++ [x]) v s' H); [| exact Hstep].
    exact (Hstep pre x s v Hs E).
Qed.

Section GroupBy.

Context {A T V : Type}.
Variable keyf : A -> option Z.
Variable val : A -> V.
Variable content : T -> list V.
Variable body : list (Z * T) -> A -> result (list (Z * T)).

(** One turn of a grouping loop: the item has a group, its trace is made
    if it is not there, and the item's value is appended to it. *)
Hypothesis body_spec :
  forall s x s', body s x = Ok s' ->
    exists k (d : T) (f : T -> T),
      keyf x = Some k
      /\ update k f (setdefault k d s) = Ok s'
      /\ content d = []
      /\ forall t, content (f t) = content t ++ [val x].

Lemma setdefault_In_fresh (key : Z) (default : T) (traces : list (Z * T))
  (k : Z) (t : T) :
  In (k, t) (setdefault key default traces) ->
  In (k, t) traces \/ (k = key /\ t = default /\ ~ In key (map fst traces)).
Proof.
  induction traces as [| [k0 t0] rest IH]; simpl.
  - intros [H | []]. injection H as <- <-. right. repeat split. intros [].
  - destruct (Z.eqb_spec k0 key) as [-> | Hne].
    + intros H. left. exact H.
    + intros [H | H]; [left; left; exact H |].
      destruct (IH H) as [H' | (Hk & Ht & Hnot)]; [left; right; exact H' |].
      right. repeat split; try assumption.
      intros [Heq | Hin]; [exact (Hne Heq) | exact (Hnot Hin)].
Qed.

Lemma setdefault_keys_incl (key : Z) (default : T) (traces : list (Z * T)) (k : Z) :
  k = key \/ In k (map fst traces) -> In k (map fst (setdefault key default traces)).
Proof.
  induction traces as [| [k0 t0] rest IH]; simpl.
  - intros [-> | []]. left. reflexivity.
  - destruct (Z.eqb_spec k0 key) as [-> | Hne]; simpl.
    + intros [-> | [H | H]]; [left; reflexivity | left; exact H | right; exact H].
    + intros [-> | [H | H]].
      * right. apply IH. left. reflexivity.
      * left. exact H.
      * right. apply IH. right. exact H.
Qed.

(** After the loop the keys are distinct, the trace under a key holds the
    values of the items of that group, in their order, and every item has
    its trace. *)
Lemma group_by_loop (l : list A) (traces : list (Z * T)) :
  for_each body l [] = Ok traces ->
  NoDup (map fst traces)
  /\ (forall k t, In (k, t) traces ->
        content t = map val (filter (has_key keyf k) l) /\ content t <> [])
  /\ (forall x, In x l -> exists k, keyf x = Some k /\ In k (map fst traces)).
Proof.
  intros H.
  apply (for_each_prefix_inv
           (fun pre s =>
              NoDup (map fst s)
              /\ (forall k t, In (k, t) s ->
                    content t = map val (filter (has_key keyf k) pre)
                    /\ content t <> [])
              /\ (forall x, In x pre -> exists k, keyf x = Some k /\ In k (map fst s)))
           body l [] [] traces H).
  - split; [constructor |]. split; [intros k t [] | intros x []].
  - clear H. intros pre x s1 s2 (Hnd & Hcontent & Hkeys) Hbody.
    destruct (body_spec s1 x s2 Hbody) as (k & d & f & Hk & Hupd & Hd & Hf).
    pose proof (setdefault_keys k d s1 Hnd) as Hnd1.
    pose proof (update_keys _ _ _ _ Hupd) as Hsame.
    assert (Hxk : has_key keyf k x = true).
    { unfold has_key. rewrite Hk. apply Z.eqb_refl. }
    split; [rewrite Hsame; exact Hnd1 |]. split.
    + intros k' t' Hin. rewrite filter_app, map_app. simpl filter.
      destruct (update_In _ _ _ _ Hupd Hnd1 k' t' Hin)
        as [(-> & t & Ht & ->) | (Hne & Ht)].
      * rewrite Hxk, Hf. simpl map. split.
        -- f_equal.
           destruct (setdefault_In_fresh _ _ _ _ _ Ht) as [Hold | (_ & -> & Hfresh)].
           ++ exact (proj1 (Hcontent k t Hold)).
           ++ rewrite Hd. symmetry.
              replace (filter (has_key keyf k) pre) with (@nil A); [reflexivity |].
              symmetry. apply filter_none. intros y Hy.
              destruct (Hkeys y Hy) as (ky & Hky & Hin').
              unfold has_key. rewrite Hky.
              apply Z.eqb_neq. intros ->. exact (Hfresh Hin').
        -- intros Hnil. apply app_eq_nil in Hnil. destruct Hnil as [_ Hnil].
           discriminate Hnil.
      * assert (Hxk' : has_key keyf k' x = false).
        { unfold has_key. rewrite Hk. apply Z.eqb_neq. congruence. }
        rewrite Hxk'. simpl. rewrite app_nil_r.
        destruct (setdefault_In_fresh _ _ _ _ _ Ht) as [Hold | (Heq & _)].
        -- exact (Hcontent k' t' Hold).
        -- congruence.
    + intros y Hy. rewrite Hsame. apply in_app_or in Hy.
      destruct Hy as [Hy | [<- | []]].
      * destruct (Hkeys y Hy) as (ky & Hky & Hin').
        exists ky. split; [exact Hky |].
        apply setdefault_keys_incl. right. exact Hin'.
      * exists k. split; [exact Hk |].
        apply setdefault_keys_incl. left. reflexivity.
Qed.

End GroupBy.

Lemma getitem_get (d : dict) (k v default : string) :
  getitem d k = Ok v -> get d k default = v.
Proof.
  unfold getitem, get. destruct (dict_find k d); [| discriminate].
  intros H. injection H as <-. reflexivity.
Qed.

(** X12: the box plot puts every joined record into the box of its cluster
    number, once: the boxes have distinct keys, the values of the box under
    key [k] are those of the records of cluster [k], in their order, no box
    is empty, and every record's cluster has its box. *)
Theorem get_mch_box_groups_by_cluster
  (w : data_dir) (tape : list nat) (species gene level : string)
  (outliers : bool) (chart : box_chart) :
  get_mch_box w tape species gene level outliers = Ok chart ->
  exists points,
    get_gene_mch w species gene outliers = Ok points
    /\ NoDup (map fst (bx_traces chart))
    /\ (forall k t, In (k, t) (bx_traces chart) ->
          Box.y t = map (mch_value level) (filter (has_key cluster_ordered k) points)
          /\ Box.y t <> [])
    /\ (forall p, In p points ->
          exists k, cluster_ordered p = Some k /\ In k (map fst (bx_traces chart))).
Proof.
  intros H. unfold get_mch_box in H.
  unbind H. rename v into points, E into Hpoints.
  destruct points as [| p0 ps]; [discriminate H |].
  set (points := p0 :: ps) in *. clearbody points. clear p0 ps.
  unbind H. rename v into keys, E into Hkeys0.
  unbind H. rename v into colors, E into Hcolors.
  unbind H. rename v into traces0, E into Hloop.
  unbind H. rename v into traces, E into Hpass.
  do 2 unbind H. injection H as <-. simpl bx_traces.
  exists points. split; [exact Hpoints |].
  assert (Hgroup :
    NoDup (map fst traces0)
    /\ (forall k t, In (k, t) traces0 ->
          Box.y t = map (mch_value level) (filter (has_key cluster_ordered k) points)
          /\ Box.y t <> [])
    /\ (forall p, In p points ->
          exists k, cluster_ordered p = Some k /\ In k (map fst traces0))).
  { refine (group_by_loop cluster_ordered (mch_value level) Box.y _ _
                          points traces0 Hloop).
    intros s x s' Hb. do 3 unbind Hb.
    eexists. eexists. eexists.
    split; [| split; [exact Hb | split; reflexivity]].
    unfold record_cluster in E1.
    destruct (cluster_ordered x); [congruence | discriminate]. }
  destruct Hgroup as (Hnd & Hcontent & Hkeys).
  destruct (String.eqb species "mmu").
  - destruct (update_pass
                (fun traces i => update i Box.restyle traces)
                (fun _ => Box.restyle)
                [17; 18; 19; 20; 21; 22] traces0 traces)
      as (Hsame & _ & Hin).
    { reflexivity. }
    { exact Hpass. }
    { exact Hnd. }
    { exact supplementary_NoDup. }
    rewrite Hsame. split; [exact Hnd |]. split; [| exact Hkeys].
    intros k t' Hk.
    destruct (Hin k t' Hk) as [(_ & t & Ht & ->) | (_ & Ht)].
    + exact (Hcontent k t Ht).
    + exact (Hcontent k t' Ht).
  - injection Hpass as <-.
    split; [exact Hnd |]. split; [exact Hcontent | exact Hkeys].
Qed.

Lemma get_mch_box_groups_by_cluster_example :
  exists chart,
    get_mch_box two_clusters [] "rat" "ENSR1" "normalized" true = Ok chart
    /\ map (fun kt => (fst kt, Box.y (snd kt))) (bx_traces chart)
       = [(1, [None]); (2, [Some 5%Q; Some 7%Q])]
    /\ NoDup (map fst (bx_traces chart)).
Proof.
  assert (Hrun : exists chart,
             get_mch_box two_clusters [] "rat" "ENSR1" "normalized" true = Ok chart
             /\ map (fun kt => (fst kt, Box.y (snd kt))) (bx_traces chart)
                = [(1, [None]); (2, [Some 5%Q; Some 7%Q])]).
  { eexists. split; [vm_compute; reflexivity | reflexivity]. }
  destruct Hrun as (chart & Hrun & Hy).
  exists chart. split; [exact Hrun |]. split; [exact Hy |].
  destruct (get_mch_box_groups_by_cluster _ _ _ _ _ _ _ Hrun) as (points & _ & Hnd & _).
  exact Hnd.
Defined.

(** X13: the cluster scatter plots every embedding row once, in the trace
    of its group index [cluster + max_cluster * (biosample - 1)]: the traces
    have distinct keys, the coordinates of the trace under key [k] are those
    of the rows of group [k], in their order, no trace is empty, and every
    row's group has its trace. *)
Theorem get_cluster_plot_groups_by_index
  (w : data_dir) (tape : list nat) (species grouping : string)
  (traces : list (Z * Scattergl.t)) :
  get_cluster_plot w tape species grouping = Ok traces ->
  exists points keys,
    get_cluster_points w species = Some points
    /\ map_result row_cluster points = Ok keys
    /\ NoDup (map fst traces)
    /\ (forall k t, In (k, t) traces ->
          Scattergl.x t
          = map (fun p => get p "tsne_x" "")
                (filter (has_key (group_index
                                    (cap_max_cluster species (max_plus_one keys))) k)
                        points)
          /\ Scattergl.y t
             = map (fun p => get p "tsne_y" "")
                   (filter (has_key (group_index
                                       (cap_max_cluster species (max_plus_one keys))) k)
                           points)
          /\ Scattergl.x t <> [])
    /\ (forall p, In p points ->
          exists k, group_index (cap_max_cluster species (max_plus_one keys)) p = Some k
                    /\ In k (map fst traces)).
Proof.
  intros H. unfold get_cluster_plot in H.
  destruct (get_cluster_points w species) as [points |]; [| discriminate H].
  destruct points as [| p0 ps]; [discriminate H |].
  set (points := p0 :: ps) in *. clearbody points. clear p0 ps.
  unbind H. rename v into keys, E into Hkeys0.
  set (m := cap_max_cluster species (max_plus_one keys)) in *.
  unbind H. rename v into colors, E into Hcolors.
  unbind H. rename v into traces0, E into Hloop.
  exists points, keys. split; [reflexivity |]. split; [exact Hkeys0 |].
  assert (Hspec : forall (val : dict -> string) (content : Scattergl.t -> list string)
                         (col : string),
             (forall p v, getitem p col = Ok v -> val p = v) ->
             (forall t px py pt, content (Scattergl.append t px py pt)
                                 = content t ++ [if String.eqb col "tsne_x" then px else py]) ->
             (forall a b c d e, content {| Scattergl.x := []; Scattergl.y := [];
                                           Scattergl.text := []; Scattergl.name := a;
                                           Scattergl.legendgroup := b;
                                           Scattergl.mark := c; Scattergl.visible := d |}
                                = e -> e = []) ->
             (col = "tsne_x" \/ col = "tsne_y")%string ->
             NoDup (map fst traces0)
             /\ (forall k t, In (k, t) traces0 ->
                   content t = map val (filter (has_key (group_index m) k) points)
                   /\ content t <> [])
             /\ (forall x, In x points ->
                   exists k, group_index m x = Some k /\ In k (map fst traces0))).
  { intros val content col Hval Happ Hnil Hcol.
    refine (group_by_loop (group_index m) val content _ _ points traces0 Hloop).
    intros s x s' Hb. do 9 unbind Hb.
    eexists. eexists. eexists.
    split; [| split; [exact Hb | split]].
    - unfold group_index. rewrite E, E0. reflexivity.
    - eapply Hnil. reflexivity.
    - intros t. rewrite Happ.
      destruct Hcol as [-> | ->]; simpl; f_equal; f_equal; symmetry;
        apply Hval; assumption. }
  destruct (Hspec (fun p => get p "tsne_x" "") Scattergl.x "tsne_x")
    as (Hnd & Hx & Hgroups).
  { intros p v Hv. exact (getitem_get _ _ _ _ Hv). }
  { reflexivity. }
  { intros a b c d e <-. reflexivity. }
  { left. reflexivity. }
  destruct (Hspec (fun p => get p "tsne_y" "") Scattergl.y "tsne_y")
    as (_ & Hy & _).
  { intros p v Hv. exact (getitem_get _ _ _ _ Hv). }
  { reflexivity. }
  { intros a b c d e <-. reflexivity. }
  { right. reflexivity. }
  clear Hspec.
  assert (Hboth : forall k t, In (k, t) traces0 ->
            Scattergl.x t = map (fun p => get p "tsne_x" "")
                                (filter (has_key (group_index m) k) points)
            /\ Scattergl.y t = map (fun p => get p "tsne_y" "")
                                   (filter (has_key (group_index m) k) points)
            /\ Scattergl.x t <> []).
  { intros k t Hk. destruct (Hx k t Hk) as [H1 H2]. destruct (Hy k t Hk) as [H3 _].
    repeat split; assumption. }
  destruct (String.eqb species "mmu").
  - destruct (update_pass
                (fun traces i =>
                   s <- py_index symbols (i mod Z.of_nat (List.length symbols)) ;;
                   update i (Scattergl.restyle s) traces)
                (fun i => Scattergl.restyle (nth (Z.to_nat (i mod 8)) symbols ""%string))
                [17; 18; 19; 20; 21; 22] traces0 traces)
      as (Hsame & _ & Hin).
    { intros i tr Hi. simpl in Hi.
      repeat (destruct Hi as [<- | Hi]; [reflexivity |]). contradiction. }
    { exact H. }
    { exact Hnd. }
    { exact supplementary_NoDup. }
    rewrite Hsame. split; [exact Hnd |]. split; [| exact Hgroups].
    intros k t' Hk.
    destruct (Hin k t' Hk) as [(_ & t & Ht & ->) | (_ & Ht)].
    + exact (Hboth k t Ht).
    + exact (Hboth k t' Ht).
  - injection H as <-.
    split; [exact Hnd |]. split; [exact Hboth | exact Hgroups].
Qed.

Lemma get_cluster_plot_groups_by_index_example :
  exists traces,
    get_cluster_plot two_clusters [] "rat" "cluster" = Ok traces
    /\ map (fun kt => (fst kt, List.length (Scattergl.x (snd kt)))) traces
       = [(2, 2%nat); (1, 1%nat)]
    /\ NoDup (map fst traces).
Proof.
  assert (Hrun : exists traces,
             get_cluster_plot two_clusters [] "rat" "cluster" = Ok traces
             /\ map (fun kt => (fst kt, List.length (Scattergl.x (snd kt)))) traces
                = [(2, 2%nat); (1, 1%nat)]).
  { eexists. split; [vm_compute; reflexivity | reflexivity]. }
  destruct Hrun as (traces & Hrun & Hx).
  exists traces. split; [exact Hrun |]. split; [exact Hx |].
  destruct (get_cluster_plot_groups_by_index _ _ _ _ _ Hrun)
    as (points & keys & _ & _ & Hnd & _).
  exact Hnd.
Defined.

Lemma for_each_all_ok {A S : Type} (body : S -> A -> result S) :
  forall (l : list A) (s s' : S),
    for_each body l s = Ok s' ->
    forall x, In x l -> exists s1 s2, body s1 x = Ok s2.
Proof.
  induction l as [| y l IH]; simpl; intros s s' H x Hx; [contradiction |].
  unbind H. destruct Hx as [<- | Hx].
  - exists s, v. exact E.
  - exact (IH v s' H x Hx).
Qed.

Lemma py_index_bounds {A : Type} (l : list A) (i : Z) (x : A) :
  py_index l i = Ok x ->
  - Z.of_nat (List.length l) <= i < Z.of_nat (List.length l).
Proof.
  unfold py_index.
  destruct (Z.ltb_spec i 0) as [Hneg | Hpos].
  - destruct (Z.ltb_spec (i + Z.of_nat (List.length l)) 0); simpl; [discriminate |].
    destruct (Z.leb_spec (Z.of_nat (List.length l)) (i + Z.of_nat (List.length l)));
      [discriminate |]. intros _. lia.
  - destruct (Z.ltb_spec i 0); [lia |]. simpl.
    destruct (Z.leb_spec (Z.of_nat (List.length l)) i); [discriminate |].
    intros _. lia.
Qed.

(** X14: the mouse scatter takes a colour from a palette of 16 and a
    symbol from a list of 8 for every row, so it succeeds only if every
    cluster number lies between -15 and 16 and every biosample between -7
    and 8; a cluster numbered 17 or more makes it raise.  The groups 17 to 22
    that get the secondary look are therefore cells of a second or later
    biosample. *)
Theorem mmu_scatter_needs_small_cluster_numbers
  (w : data_dir) (tape : list nat) (grouping : string)
  (traces : list (Z * Scattergl.t)) :
  get_cluster_plot w tape "mmu" grouping = Ok traces ->
  exists points,
    get_cluster_points w "mmu" = Some points
    /\ forall p, In p points ->
         exists c b,
           row_cluster p = Ok c
           /\ int_of_str (get p "biosample" "1") = Ok b
           /\ -15 <= c <= 16
           /\ -7 <= b <= 8
           /\ (17 <= c + 16 * (b - 1) <= 22 -> 2 <= b).
Proof.
  intros H. unfold get_cluster_plot in H.
  destruct (get_cluster_points w "mmu") as [points |]; [| discriminate H].
  destruct points as [| p0 ps]; [discriminate H |].
  set (points := p0 :: ps) in *. clearbody points. clear p0 ps.
  unbind H. rename v into keys, E into Hkeys0.
  rewrite cap_max_cluster_mmu in H.
  unbind H. rename v into colors, E into Hcolors.
  unbind H. rename v into traces0, E into Hloop.
  destruct (generate_cluster_colors_Ok tape 16 colors Hcolors) as [Hlen _].
  exists points. split; [reflexivity |].
  intros p Hp.
  destruct (for_each_all_ok _ _ _ _ Hloop p Hp) as (s1 & s2 & Hbody).
  do 7 unbind Hbody.
  apply py_index_bounds in E4, E5. rewrite Hlen in E4.
  change (Z.of_nat (List.length symbols)) with 8 in E5.
  exists v, v0. repeat split; try assumption; lia.
Qed.

Lemma mmu_scatter_needs_small_cluster_numbers_example :
  get_cluster_plot supplementary_clusters [] "mmu" "cluster" = Raise IndexError
  /\ exists traces points,
      get_cluster_plot second_biosample [] "mmu" "cluster" = Ok traces
      /\ get_cluster_points second_biosample "mmu" = Some points
      /\ forall p, In p points ->
           exists c b,
             row_cluster p = Ok c
             /\ int_of_str (get p "biosample" "1") = Ok b
             /\ -15 <= c <= 16
             /\ -7 <= b <= 8
             /\ (17 <= c + 16 * (b - 1) <= 22 -> 2 <= b).
Proof.
  split; [vm_compute; reflexivity |].
  assert (Hrun : exists traces,
             get_cluster_plot second_biosample [] "mmu" "cluster" = Ok traces).
  { eexists. vm_compute. reflexivity. }
  destruct Hrun as (traces & Hrun).
  destruct (mmu_scatter_needs_small_cluster_numbers _ _ _ _ Hrun) as (points & Hp & Hall).
  exists traces, points. repeat split; assumption.
Defined.

(** ** The hover text *)

Lemma string_app_assoc (a b c : string) : ((a ++ b) ++ c = a ++ (b ++ c))%string.
Proof.
  induction a as [| x a IH]; simpl; [reflexivity |]. rewrite IH. reflexivity.
Qed.

Lemma string_app_nil_r (a : string) : (a ++ "" = a)%string.
Proof.
  induction a as [| x a IH]; simpl; [reflexivity |]. rewrite IH. reflexivity.
Qed.

Lemma hover_text_accumulated (labels : dict) (acc : string) :
  fold_left (fun text kv => (text ++ fst kv ++ ": " ++ snd kv ++ "<br>")%string)
            labels acc
  = (acc ++ String.concat "" (map (fun kv => label kv ++ "<br>") labels))%string.
Proof.
  revert acc. induction labels as [| kv rest IH]; intros acc.
  - simpl. rewrite string_app_nil_r. reflexivity.
  - cbn [fold_left map]. rewrite IH.
    assert (Hone : (acc ++ fst kv ++ ": " ++ snd kv ++ "<br>"
                    = acc ++ (label kv ++ "<br>"))%string).
    { unfold label. rewrite !string_app_assoc. reflexivity. }
    rewrite Hone, string_app_assoc. f_equal.
    destruct rest as [| kv2 rest]; simpl.
    + rewrite string_app_nil_r. reflexivity.
    + reflexivity.
Qed.

Lemma labels_with_separator (kv : string * string) (rest : dict) :
  String.concat "" (map (fun kv => label kv ++ "<br>")%string (kv :: rest))
  = (joined_labels (kv :: rest) ++ "<br>")%string.
Proof.
  unfold joined_labels. revert kv. induction rest as [| kv2 rest IH]; intros kv.
  - reflexivity.
  - change (String.concat "" (map (fun kv => label kv ++ "<br>")%string (kv :: kv2 :: rest)))
      with ((label kv ++ "<br>") ++ ""
            ++ String.concat "" (map (fun kv => label kv ++ "<br>")%string (kv2 :: rest)))%string.
    change (String.concat "<br>" (map label (kv :: kv2 :: rest)))
      with (label kv ++ "<br>" ++ String.concat "<br>" (map label (kv2 :: rest)))%string.
    rewrite IH. simpl append at 2. rewrite !string_app_assoc. reflexivity.
Qed.

Lemma lstrip_all_among (chars t : string) :
  all_among chars t = true -> lstrip chars t = EmptyString.
Proof.
  induction t as [| c t IH]; simpl; [reflexivity |].
  intros H. apply andb_true_iff in H. destruct H as [Hc Ht].
  rewrite Hc. exact (IH Ht).
Qed.

Lemma rstrip_all_among (chars t : string) :
  all_among chars t = true -> rstrip chars t = EmptyString.
Proof.
  induction t as [| c t IH]; simpl; [reflexivity |].
  intros H. apply andb_true_iff in H. destruct H as [Hc Ht].
  rewrite (IH Ht), Hc. reflexivity.
Qed.

Lemma rstrip_app_all_among (chars u t : string) :
  all_among chars t = true -> rstrip chars (u ++ t) = rstrip chars u.
Proof.
  intros Ht. induction u as [| c u IH]; simpl.
  - apply rstrip_all_among. exact Ht.
  - rewrite IH. reflexivity.
Qed.

Lemma lstrip_app (chars s t : string) :
  lstrip chars (s ++ t)
  = if all_among chars s then lstrip chars t else (lstrip chars s ++ t)%string.
Proof.
  induction s as [| c s IH]; simpl; [reflexivity |].
  destruct (mem_ascii c chars); simpl; [exact IH | reflexivity].
Qed.

(** Stripping does not see a tail made of the stripped characters. *)
Lemma strip_app_all_among (chars s t : string) :
  all_among chars t = true -> strip chars (s ++ t) = strip chars s.
Proof.
  intros Ht. unfold strip. rewrite lstrip_app.
  destruct (all_among chars s) eqn:Es.
  - rewrite (lstrip_all_among _ _ Ht), (lstrip_all_among _ _ Es). reflexivity.
  - apply rstrip_app_all_among. exact Ht.
Qed.

Lemma lstrip_first (chars s : string) : not_among chars (first_char (lstrip chars s)).
Proof.
  induction s as [| c s IH]; simpl; [exact I |].
  destruct (mem_ascii c chars) eqn:E; [exact IH | exact E].
Qed.

Lemma rstrip_last (chars s : string) : not_among chars (last_char (rstrip chars s)).
Proof.
  induction s as [| c s IH]; simpl; [exact I |].
  destruct (rstrip chars s) as [| d s'] eqn:E.
  - destruct (mem_ascii c chars) eqn:Ec; [exact I | exact Ec].
  - exact IH.
Qed.

Lemma rstrip_first (chars s : string) :
  not_among chars (first_char s) -> not_among chars (first_char (rstrip chars s)).
Proof.
  destruct s as [| c s]; simpl; [auto |].
  intros Hc. destruct (rstrip chars s); [rewrite Hc |]; exact Hc.
Qed.

Lemma lstrip_clean (chars s : string) :
  not_among chars (first_char s) -> lstrip chars s = s.
Proof.
  destruct s as [| c s]; simpl; [reflexivity |].
  intros ->. reflexivity.
Qed.

Lemma rstrip_clean (chars s : string) :
  not_among chars (last_char s) -> rstrip chars s = s.
Proof.
  induction s as [| c s IH]; [reflexivity |].
  destruct s as [| d s'].
  - simpl. intros ->. reflexivity.
  - intros H. change (last_char (String c (String d s'))) with (last_char (String d s')) in H.
    cbn [rstrip]. cbn [rstrip] in IH. rewrite (IH H). reflexivity.
Qed.

(** The trailing separator goes with the strip; what is stripped is the
    joined labels. *)
Lemma build_hover_text_strip (labels : dict) :
  build_hover_text labels = strip "<br>" (joined_labels labels).
Proof.
  unfold build_hover_text. rewrite hover_text_accumulated.
  destruct labels as [| kv rest]; [reflexivity |].
  rewrite labels_with_separator.
  change ("" ++ joined_labels (kv :: rest) ++ "<br>")%string
    with (joined_labels (kv :: rest) ++ "<br>")%string.
  apply strip_app_all_among. reflexivity.
Qed.

(** X15: [build_hover_text] is the labels [key: value] joined by [<br>]
    and then stripped, at both ends, of the characters [<], [b], [r] and
    [>] (not of the separator): the text never starts or ends with one of
    these four characters, so a last value that ends in [b] or [r] loses
    those letters. *)
Theorem build_hover_text_strips_characters (labels : dict) :
  build_hover_text labels = strip "<br>" (joined_labels labels)
  /\ not_among "<br>" (first_char (build_hover_text labels))
  /\ not_among "<br>" (last_char (build_hover_text labels)).
Proof.
  split; [apply build_hover_text_strip |].
  rewrite build_hover_text_strip. unfold strip. split.
  - apply rstrip_first, lstrip_first.
  - apply rstrip_last.
Qed.

(** X16: when the joined labels neither start nor end with one of the
    characters [<], [b], [r], [>], the hover text is exactly the labels
    joined by [<br>], as in the docstring's example. *)
Theorem build_hover_text_joins (labels : dict) :
  not_among "<br>" (first_char (joined_labels labels)) ->
  not_among "<br>" (last_char (joined_labels labels)) ->
  build_hover_text labels = joined_labels labels.
Proof.
  intros Hfirst Hlast.
  rewrite build_hover_text_strip.
  unfold strip. rewrite (lstrip_clean _ _ Hfirst). apply rstrip_clean. exact Hlast.
Qed.

Lemma build_hover_text_joins_example :
  build_hover_text [("Test1", "Value1"); ("Example2", "Words2")]
  = "Test1: Value1<br>Example2: Words2"%string.
Proof.
  apply (build_hover_text_joins [("Test1", "Value1"); ("Example2", "Words2")]%string);
    reflexivity.
Defined.

(** A cluster name that ends in [b] is cut. *)
Remark build_hover_text_cuts_value :
  build_hover_text [("Cell", "s1"); ("Cluster", "Pvalb")]
  = "Cell: s1<br>Cluster: Pval"%string.
Proof. reflexivity. Qed.

(** ** The two-species box plot *)

(** X17: when the two-species box plot is built, both species have
    records and the cluster correspondence is not empty; there are two
    traces, the mouse one red and the human one black, and each holds, in
    their order, exactly the records of its species that carry an ortholog
    cluster: no category is empty and there is one value for each.  The
    value is what the record has under the key [level]: the measurement for
    ['original'] and ['normalized'], and nothing stops another key. *)
Theorem two_species_box_traces
  (w : data_dir) (gene_mmu gene_hsa level : string) (outliers : bool)
  (traces : list OrthologBox.t) (title : string) :
  get_mch_box_two_species w gene_mmu gene_hsa level outliers = Ok (traces, title) ->
  exists points_mmu points_hsa traces_mmu traces_hsa,
    get_gene_mch w "mmu" gene_mmu outliers = Ok points_mmu
    /\ get_gene_mch w "hsa" gene_hsa outliers = Ok points_hsa
    /\ points_mmu <> [] /\ points_hsa <> []
    /\ get_ortholog_cluster_order w <> []
    /\ traces = [traces_mmu; traces_hsa]
    /\ OrthologBox.color traces_mmu = "red"%string
    /\ OrthologBox.outliercolor traces_mmu = "red"%string
    /\ OrthologBox.color traces_hsa = "black"%string
    /\ OrthologBox.outliercolor traces_hsa = "black"%string
    /\ OrthologBox.x traces_mmu = map cluster_ortholog (tagged points_mmu)
    /\ OrthologBox.y traces_mmu = map (get_level level) (tagged points_mmu)
    /\ OrthologBox.x traces_hsa = map cluster_ortholog (tagged points_hsa)
    /\ OrthologBox.y traces_hsa = map (get_level level) (tagged points_hsa)
    /\ Forall (fun tag => tag <> ""%string)
              (OrthologBox.x traces_mmu ++ OrthologBox.x traces_hsa)
    /\ List.length (OrthologBox.x traces_mmu) = List.length (OrthologBox.y traces_mmu)
    /\ List.length (OrthologBox.x traces_hsa) = List.length (OrthologBox.y traces_hsa)
    /\ (level = "original"%string ->
        OrthologBox.y traces_mmu = map (fun i => py_float (original i)) (tagged points_mmu)
        /\ OrthologBox.y traces_hsa = map (fun i => py_float (original i)) (tagged points_hsa))
    /\ (level = "normalized"%string ->
        OrthologBox.y traces_mmu = map (fun i => py_float (normalized i)) (tagged points_mmu)
        /\ OrthologBox.y traces_hsa = map (fun i => py_float (normalized i)) (tagged points_hsa)).
Proof.
  intros H. unfold get_mch_box_two_species in H.
  unbind H. rename v into pm, E into Hm.
  unbind H. rename v into ph, E into Hh.
  destruct pm as [| m0 ms]; [discriminate H |].
  destruct ph as [| h0 hs]; [discriminate H |].
  destruct (get_ortholog_cluster_order w) as [| c0 cs]; [discriminate H |].
  do 2 unbind H. injection H as <- _.
  exists (m0 :: ms), (h0 :: hs).
  eexists. eexists.
  split; [exact Hm |]. split; [exact Hh |].
  split; [discriminate |]. split; [discriminate |]. split; [discriminate |].
  split; [reflexivity |].
  split; [reflexivity |]. split; [reflexivity |].
  split; [reflexivity |]. split; [reflexivity |].
  split; [reflexivity |]. split; [reflexivity |].
  split; [reflexivity |]. split; [reflexivity |].
  split.
  { apply Forall_app. split; apply Forall_forall; intros tag Htag;
      cbn [ortholog_trace OrthologBox.x] in Htag;
      apply in_map_iff in Htag; destruct Htag as (p & <- & Hp);
      apply filter_In in Hp; destruct Hp as [_ Hp];
      intros Heq; rewrite Heq in Hp; discriminate Hp. }
  split; [cbn [ortholog_trace OrthologBox.x OrthologBox.y];
          rewrite !length_map; reflexivity |].
  split; [cbn [ortholog_trace OrthologBox.x OrthologBox.y];
          rewrite !length_map; reflexivity |].
  split; intros ->; split; reflexivity.
Qed.

Lemma two_species_box_traces_example :
  exists traces_mmu traces_hsa title,
    get_mch_box_two_species two_species "ENSMUSG1" "ENSG1" "original" true
    = Ok ([traces_mmu; traces_hsa], title)
    /\ OrthologBox.x traces_mmu = ["A"; "B"]%string
    /\ OrthologBox.y traces_mmu = [py_float (Some 1%Q); py_float (Some 3%Q)]
    /\ OrthologBox.x traces_hsa = ["B"]%string
    /\ OrthologBox.y traces_hsa = [py_float (Some 4%Q)]
    /\ Forall (fun tag => tag <> ""%string)
              (OrthologBox.x traces_mmu ++ OrthologBox.x traces_hsa).
Proof.
  assert (Hrun : exists traces_mmu traces_hsa title,
             get_mch_box_two_species two_species "ENSMUSG1" "ENSG1" "original" true
             = Ok ([traces_mmu; traces_hsa], title)
             /\ OrthologBox.x traces_mmu = ["A"; "B"]%string
             /\ OrthologBox.y traces_mmu = [py_float (Some 1%Q); py_float (Some 3%Q)]
             /\ OrthologBox.x traces_hsa = ["B"]%string
             /\ OrthologBox.y traces_hsa = [py_float (Some 4%Q)]).
  { eexists. eexists. eexists. split; [vm_compute; reflexivity |].
    repeat split. }
  destruct Hrun as (tm & th & title & Hrun & Hxm & Hym & Hxh & Hyh).
  exists tm, th, title. split; [exact Hrun |]. split; [exact Hxm |].
  split; [exact Hym |]. split; [exact Hxh |]. split; [exact Hyh |].
  destruct (two_species_box_traces _ _ _ _ _ _ _ Hrun)
    as (pm & ph & tm' & th' & _ & _ & _ & _ & _ & Htr & _ & _ & _ & _ & _ & _ & _ & _
        & Hall & _).
  injection Htr as -> ->. exact Hall.
Defined.

(** With a key that is not a measurement the plot is built all the same:
    the values are then the texts under that key. *)
Remark two_species_box_any_key :
  exists traces_mmu traces_hsa title,
    get_mch_box_two_species two_species "ENSMUSG1" "ENSG1" "samp" true
    = Ok ([traces_mmu; traces_hsa], title)
    /\ OrthologBox.y traces_mmu = [py_str "m1"; py_str "m3"]
    /\ OrthologBox.y traces_hsa = [py_str "h1"].
Proof.
  eexists. eexists. eexists. split; [vm_compute; reflexivity |].
  split; reflexivity.
Qed.

(** ** Correlated genes *)

Lemma insert_corr_perm (r : corr_row) (l : list corr_row) :
  Permutation (insert_corr r l) (r :: l).
Proof.
  induction l as [| h t IH]; simpl.
  - apply Permutation_refl.
  - destruct (Qle_bool (Correlation h) (Correlation r)).
    + apply Permutation_refl.
    + apply perm_trans with (h :: r :: t);
        [apply perm_skip; exact IH | apply perm_swap].
Qed.

Lemma order_by_correlation_desc_perm (l : list corr_row) :
  Permutation (order_by_correlation_desc l) l.
Proof.
  induction l as [| r t IH]; simpl.
  - apply perm_nil.
  - apply perm_trans with (r :: order_by_correlation_desc t);
      [apply insert_corr_perm | apply perm_skip; exact IH].
Qed.

Lemma insert_corr_sorted (r : corr_row) (l : list corr_row) :
  Sorted (fun a b => (Correlation b <= Correlation a)%Q) l ->
  Sorted (fun a b => (Correlation b <= Correlation a)%Q) (insert_corr r l).
Proof.
  induction l as [| h t IH]; simpl; intros Hs.
  - constructor; constructor.
  - destruct (Qle_bool (Correlation h) (Correlation r)) eqn:E.
    + constructor; [exact Hs | constructor; apply Qle_bool_iff; exact E].
    + assert (Hrh : (Correlation r <= Correlation h)%Q).
      { apply Qlt_le_weak. apply Qltb_lt. unfold Qltb. rewrite E. reflexivity. }
      apply Sorted_inv in Hs. destruct Hs as [Ht Hh].
      constructor; [exact (IH Ht) |].
      destruct t as [| h2 t2]; simpl.
      * constructor. exact Hrh.
      * destruct (Qle_bool (Correlation h2) (Correlation r)).
        -- constructor. exact Hrh.
        -- constructor. inversion Hh; subst. assumption.
Qed.

Lemma order_by_correlation_desc_sorted (l : list corr_row) :
  StronglySorted (fun a b => (Correlation b <= Correlation a)%Q)
                 (order_by_correlation_desc l).
Proof.
  apply Sorted_StronglySorted.
  - intros a b c Hab Hbc. exact (Qle_trans _ _ _ Hbc Hab).
  - induction l as [| r t IH]; simpl; [constructor |].
    apply insert_corr_sorted. exact IH.
Qed.

Lemma firstn_incl {A : Type} (n : nat) (l : list A) (x : A) :
  In x (firstn n l) -> In x l.
Proof.
  revert l. induction n as [| n IH]; intros [| h t]; simpl; try contradiction.
  intros [H | H]; [left; exact H | right; exact (IH t H)].
Qed.

Lemma firstn_StronglySorted {A : Type} (R : A -> A -> Prop) (n : nat) (l : list A) :
  StronglySorted R l -> StronglySorted R (firstn n l).
Proof.
  revert l. induction n as [| n IH]; intros [| h t] Hs; simpl; try constructor.
  - apply IH. inversion Hs; assumption.
  - apply StronglySorted_inv in Hs. destruct Hs as [_ Hall].
    rewrite Forall_forall in *. intros x Hx. apply Hall. exact (firstn_incl n t x Hx).
Qed.

Lemma StronglySorted_map {A B : Type} (R : B -> B -> Prop) (f : A -> B) (l : list A) :
  StronglySorted (fun a b => R (f a) (f b)) l -> StronglySorted R (map f l).
Proof.
  induction 1 as [| a l _ IH Hall]; simpl; constructor; [exact IH |].
  rewrite Forall_forall in *. intros y Hy.
  apply in_map_iff in Hy. destruct Hy as (x & <- & Hx). exact (Hall x Hx).
Qed.

Lemma enumerate_fst {A : Type} (l : list A) (start : Z) :
  map fst (enumerate start l)
  = map (fun i => start + Z.of_nat i) (seq 0 (List.length l)).
Proof.
  revert start. induction l as [| x t IH]; intros start; simpl; [reflexivity |].
  f_equal; [lia |].
  rewrite IH, <- seq_shift, map_map.
  apply map_ext. intros i. lia.
Qed.

Lemma enumerate_snd {A : Type} (l : list A) (start : Z) :
  map snd (enumerate start l) = l.
Proof.
  revert start. induction l as [| x t IH]; intros start; simpl; [reflexivity |].
  rewrite IH. reflexivity.
Qed.

(** X18: when [get_corr_genes] returns a table, the table has at most
    fifty entries, ranked 1, 2, 3, ... in this order, their correlations
    never increase down the table, and each entry is a row of [corr_genes]
    whose [Gene1] matches the query, with the dictionary that
    [gene_id_to_name] finds for its [Gene2]. *)
Theorem get_corr_genes_table
  (w : data_dir) (table : list corr_row) (species query : string)
  (table_data : list corr_info) :
  get_corr_genes w (Some table) species query = corr_table table_data ->
  (List.length table_data <= 50)%nat
  /\ map Rank table_data = map Z.of_nat (seq 1 (List.length table_data))
  /\ StronglySorted (fun a b => (b <= a)%Q) (map Corr table_data)
  /\ forall entry, In entry table_data ->
       exists r, In r table
                 /\ sql_like (query ++ "%") (Gene1 r) = true
                 /\ Corr entry = Correlation r
                 /\ gene_id_to_name w species (Gene2 r) = Ok (GeneDict (ci_gene entry)).
Proof.
  unfold get_corr_genes.
  destruct (negb (species_exists w species)); [discriminate |].
  set (selected := filter (fun r => sql_like (query ++ "%") (Gene1 r)) table).
  set (query_results := firstn 50 (order_by_correlation_desc selected)).
  cbv zeta.
  destruct (map_result _ (enumerate 1 query_results)) as [rows | e] eqn:E;
    [| discriminate].
  intros H. injection H as <-.
  apply map_result_Ok in E.
  assert (Hfacts :
    map Rank rows = map fst (enumerate 1 query_results)
    /\ map Corr rows = map Correlation (map snd (enumerate 1 query_results))
    /\ forall entry, In entry rows ->
         exists item, In item (enumerate 1 query_results)
           /\ Corr entry = Correlation (snd item)
           /\ gene_id_to_name w species (Gene2 (snd item))
              = Ok (GeneDict (ci_gene entry))).
  { induction E as [| item row items rows' Hitem _ (IH1 & IH2 & IH3)].
    - repeat split. intros entry [].
    - unbind Hitem. destruct v as [| g]; [discriminate Hitem |].
      injection Hitem as <-. simpl.
      split; [f_equal; exact IH1 |]. split; [f_equal; exact IH2 |].
      intros entry [<- | Hentry].
      + exists item. split; [left; reflexivity |]. split; [reflexivity | assumption].
      + destruct (IH3 entry Hentry) as (it & Hit & Hrest).
        exists it. split; [right; exact Hit | exact Hrest]. }
  destruct Hfacts as (Hrank & Hcorr & Hentries).
  rewrite enumerate_snd in Hcorr.
  assert (Hlen : List.length rows = List.length query_results).
  { rewrite <- (length_map Corr), Hcorr, length_map. reflexivity. }
  split; [rewrite Hlen; apply firstn_le_length |].
  split.
  { rewrite Hrank, enumerate_fst, Hlen, <- seq_shift, map_map.
    apply map_ext. intros i. lia. }
  split.
  { rewrite Hcorr. apply StronglySorted_map.
    apply firstn_StronglySorted, order_by_correlation_desc_sorted. }
  intros entry Hentry.
  destruct (Hentries entry Hentry) as (item & Hitem & Hc & Hg).
  exists (snd item).
  assert (Hin : In (snd item) query_results).
  { rewrite <- (enumerate_snd query_results 1). apply in_map. exact Hitem. }
  apply firstn_incl in Hin.
  apply (Permutation_in _ (order_by_correlation_desc_perm selected)) in Hin.
  apply filter_In in Hin. destruct Hin as [Hin Hlike].
  repeat split; assumption.
Qed.

Lemma get_corr_genes_table_example :
  exists table_data,
    get_corr_genes genes_ab (Some corr_of_gene1) "mmu" "ENSMUSG1"
    = corr_table table_data
    /\ map (fun e => (Rank e, geneName (ci_gene e))) table_data
       = [(1, "Gene3"%string); (2, "Gene2"%string)]
    /\ StronglySorted (fun a b => (b <= a)%Q) (map Corr table_data).
Proof.
  assert (Hrun : exists table_data,
             get_corr_genes genes_ab (Some corr_of_gene1) "mmu" "ENSMUSG1"
             = corr_table table_data
             /\ map (fun e => (Rank e, geneName (ci_gene e))) table_data
                = [(1, "Gene3"%string); (2, "Gene2"%string)]).
  { eexists. split; [vm_compute; reflexivity | reflexivity]. }
  destruct Hrun as (table_data & Hrun & Hranks).
  exists table_data. split; [exact Hrun |]. split; [exact Hranks |].
  exact (proj1 (proj2 (proj2 (get_corr_genes_table _ _ _ _ _ Hrun)))).
Defined.

Lemma map_result_raises {A B : Type} (f : A -> result B) (l : list A) (x : A) (e : exn) :
  In x l -> f x = Raise e -> exists e', map_result f l = Raise e'.
Proof.
  induction l as [| y t IH]; simpl; intros Hx Hf; [contradiction |].
  destruct (f y) as [b | e0] eqn:Ey; simpl; [| exists e0; reflexivity].
  destruct Hx as [-> | Hx]; [congruence |].
  destruct (IH Hx Hf) as (e' & ->). exists e'. reflexivity.
Qed.

(** X19: [get_corr_genes] is all or nothing: a query that matches at most
    fifty rows of [corr_genes], one of which names a [Gene2] that no gene ID
    of [gene_names] matches, returns [1] and none of the other genes; a
    missing species directory is not caught at all. *)
Theorem get_corr_genes_all_or_nothing
  (w : data_dir) (table : list corr_row) (species query : string) (r : corr_row) :
  species_exists w species = true ->
  (List.length (filter (fun r => sql_like (query ++ "%") (Gene1 r)) table) <= 50)%nat ->
  In r table ->
  sql_like (query ++ "%") (Gene1 r) = true ->
  (forall g, In g (gene_names_table w species) ->
             sql_like (Gene2 r ++ "%") (geneID g) = false) ->
  get_corr_genes w (Some table) species query = corr_one.
Proof.
  intros Hs Hfew Hr Hlike Hunknown. unfold get_corr_genes. rewrite Hs. simpl negb.
  cbv iota zeta.
  set (selected := filter (fun r => sql_like (query ++ "%") (Gene1 r)) table) in *.
  assert (Hall : firstn 50 (order_by_correlation_desc selected)
                 = order_by_correlation_desc selected).
  { apply firstn_all2.
    rewrite (Permutation_length (order_by_correlation_desc_perm selected)). exact Hfew. }
  rewrite Hall.
  assert (Hin : In r (order_by_correlation_desc selected)).
  { apply (Permutation_in _ (Permutation_sym (order_by_correlation_desc_perm selected))).
    apply filter_In. split; assumption. }
  rewrite <- (enumerate_snd (order_by_correlation_desc selected) 1) in Hin.
  apply in_map_iff in Hin. destruct Hin as (item & Hitem & Hin).
  destruct (map_result_raises
              (fun item =>
                 geneInfo <- gene_id_to_name w species (Gene2 (snd item)) ;;
                 match geneInfo with
                 | GeneDict g =>
                     Ok {| ci_gene := g; Rank := fst item;
                           Corr := Correlation (snd item) |}
                 | EmptyList => Raise TypeError
                 end)
              _ item TypeError Hin) as (e' & He').
  { rewrite Hitem.
    rewrite (gene_id_to_name_no_match w species (Gene2 r) Hs).
    - reflexivity.
    - apply Forall_forall. exact Hunknown. }
  rewrite He'. reflexivity.
Qed.

Lemma get_corr_genes_all_or_nothing_example :
  get_corr_genes genes_ab (Some corr_of_gene1) "mmu" "ENSMUSG" = corr_one
  /\ get_corr_genes genes_ab (Some corr_of_gene1) "rat" "ENSMUSG" = corr_unable_to_open.
Proof.
  split; [| reflexivity].
  apply (get_corr_genes_all_or_nothing genes_ab corr_of_gene1 "mmu" "ENSMUSG"
           {| Gene1 := "ENSMUSG3"; Gene2 := "ENSMUSG9"; Correlation := 5 # 10 |}).
  - reflexivity.
  - vm_compute. lia.
  - simpl. tauto.
  - reflexivity.
  - intros g Hg. simpl in Hg.
    repeat (destruct Hg as [<- | Hg]; [reflexivity |]). contradiction.
Defined.

(** ** Titles *)

(** X20: a gene plot that is built carries the display name that
    [gene_id_to_name] finds for the gene ID: the scatter and the box plot
    that of the plotted gene, the two-species box plot that of the mouse
    gene alone.  A gene with measurements whose ID matches no row of
    [gene_names] is therefore never plotted. *)
Theorem gene_plots_carry_the_gene_name
  (w : data_dir) (tape : list nat)
  (species gene level gene_mmu gene_hsa : string)
  (ptile_start ptile_end : Q) (outliers : bool) :
  (forall chart,
      get_mch_scatter w species gene level ptile_start ptile_end = Ok chart ->
      exists g, gene_id_to_name w species gene = Ok (GeneDict g)
                /\ sc_title chart = ("Gene body mCH: " ++ geneName g)%string)
  /\ (forall chart,
         get_mch_box w tape species gene level outliers = Ok chart ->
         exists g, gene_id_to_name w species gene = Ok (GeneDict g)
                   /\ bx_title chart
                      = ("Gene body mCH in each cluster: " ++ geneName g)%string
                   /\ bx_yaxis_title chart
                      = (geneName g ++ " " ++ capitalize level ++ " mCH")%string)
  /\ (forall traces title,
         get_mch_box_two_species w gene_mmu gene_hsa level outliers = Ok (traces, title) ->
         exists g, gene_id_to_name w "mmu" gene_mmu = Ok (GeneDict g)
                   /\ title = ("Gene body mCH in each cluster: " ++ geneName g)%string).
Proof.
  split; [| split].
  - intros chart H. unfold get_mch_scatter in H.
    unbind H. destruct v as [| p0 ps]; [discriminate H |].
    do 8 unbind H.
    match goal with
    | Hg : gene_id_to_name _ _ _ = Ok ?found, Hn : geneName_of ?found = Ok _ |- _ =>
        destruct found as [| g]; [discriminate Hn |]; injection Hn as <-;
        injection H as <-; exists g; split; [exact Hg | reflexivity]
    end.
  - intros chart H. unfold get_mch_box in H.
    unbind H. destruct v as [| p0 ps]; [discriminate H |].
    do 6 unbind H.
    match goal with
    | Hg : gene_id_to_name _ _ _ = Ok ?found, Hn : geneName_of ?found = Ok _ |- _ =>
        destruct found as [| g]; [discriminate Hn |]; injection Hn as <-;
        injection H as <-; exists g; split; [exact Hg | split; reflexivity]
    end.
  - intros traces title H. unfold get_mch_box_two_species in H.
    do 2 unbind H.
    destruct v as [| m0 ms]; [discriminate H |].
    destruct v0 as [| h0 hs]; [discriminate H |].
    destruct (get_ortholog_cluster_order w) as [| c0 cs]; [discriminate H |].
    do 2 unbind H.
    match goal with
    | Hg : gene_id_to_name _ _ _ = Ok ?found, Hn : geneName_of ?found = Ok _ |- _ =>
        destruct found as [| g]; [discriminate Hn |]; injection Hn as <-;
        injection H as _ <-; exists g; split; [exact Hg | reflexivity]
    end.
Qed.

Lemma gene_plots_carry_the_gene_name_example :
  exists traces,
    get_mch_box_two_species two_species "ENSMUSG1" "ENSG1" "original" true
    = Ok (traces, "Gene body mCH in each cluster: Gene1"%string)
    /\ gene_id_to_name two_species "hsa" "ENSG1"
       = Ok (GeneDict {| geneID := "ENSG1"; geneName := "GENE1" |}).
Proof.
  assert (Hrun : exists traces title,
             get_mch_box_two_species two_species "ENSMUSG1" "ENSG1" "original" true
             = Ok (traces, title)).
  { eexists. eexists. vm_compute. reflexivity. }
  destruct Hrun as (traces & title & Hrun).
  destruct (gene_plots_carry_the_gene_name two_species [] "" "" "original"
              "ENSMUSG1" "ENSG1" 0 0 true) as (_ & _ & H).
  destruct (H traces title Hrun) as (g & Hg & Htitle).
  exists traces. split; [| reflexivity].
  rewrite Hrun. rewrite Htitle. vm_compute in Hg. injection Hg as <-. reflexivity.
Defined.
